(** * The MuseTalk serverless handler (handler.py)

    A shallow embedding of the job pipeline of [handler.py]: the four
    functions [download_file], [upload_to_s3], [generate_video_musetalk]
    and [handler], over an explicit description of everything the code
    cannot decide by itself (environment variables, the file system, the
    network, sub-processes, the object store).

    Conventions.
    - Python values that reach the handler from outside are [PyVal]s.
    - A Python exception is an [Exc]: its class and its [str()].  The class
      hierarchy is kept, because the source uses four different catch forms
      ([except requests.exceptions.Timeout], [except ImportError],
      [except Exception], and a bare [except:]) that differ exactly on it.
    - Effects are threaded through a state-and-exception monad [M].  The
      state records the external calls made so far ([trace]) and the
      scratch directories that currently exist ([live]).
    - [print] only writes to the log; it is taken to succeed and is not
      modelled. *)

From Stdlib Require Import ZArith List String Ascii Bool Lia DecimalString.
Import ListNotations.
Open Scope string_scope.
Open Scope Z_scope.

(* ===================================================================== *)
(** ** Python values *)
(* ===================================================================== *)

(** The values a job can be made of.  [VOther] stands for any object that
    is neither [None], a bool, an int, a str nor a dict (a list, a float,
    ...): the handler only ever observes the name of its type, its truth
    value and its [str()]. *)
#[warnings="-register-all"]
Inductive PyVal : Type :=
| VNone
| VBool (b : bool)
| VInt (z : Z)
| VStr (s : string)
| VDict (items : list (string * PyVal))
| VOther (type_name : string) (truth : bool) (text : string).

(** [bool(v)], as used by [if not v]. *)
Definition truthy (v : PyVal) : bool :=
  match v with
  | VNone => false
  | VBool b => b
  | VInt z => negb (z =? 0)
  | VStr s => negb (s =? "")%string
  | VDict items => match items with [] => false | _ => true end
  | VOther _ t _ => t
  end.

Definition type_name_of (v : PyVal) : string :=
  match v with
  | VNone => "NoneType"
  | VBool _ => "bool"
  | VInt _ => "int"
  | VStr _ => "str"
  | VDict _ => "dict"
  | VOther n _ _ => n
  end.

(** Lookup in a dict kept as an association list (first binding wins). *)
Fixpoint assoc_get (items : list (string * PyVal)) (k : string) : option PyVal :=
  match items with
  | [] => None
  | (k', v) :: rest => if (k =? k')%string then Some v else assoc_get rest k
  end.

Definition string_of_Z (z : Z) : string := NilZero.string_of_int (Z.to_int z).

(** [repr(s)] for a str: the quote is chosen as CPython does; the
    backslash, the chosen quote, newline, carriage return and tab are
    escaped; the other control characters are written [\xNN]; everything
    else is kept (bytes above 127 are taken to encode printable text). *)
Fixpoint contains_char (c : ascii) (s : string) : bool :=
  match s with
  | EmptyString => false
  | String c' s' => Ascii.eqb c c' || contains_char c s'
  end.

Definition single_quote : ascii := Ascii.ascii_of_nat 39.
Definition double_quote : ascii := Ascii.ascii_of_nat 34.
Definition backslash : ascii := Ascii.ascii_of_nat 92.

Definition hex_digit (n : nat) : ascii :=
  match n with
  | 0%nat => "0" | 1%nat => "1" | 2%nat => "2" | 3%nat => "3"
  | 4%nat => "4" | 5%nat => "5" | 6%nat => "6" | 7%nat => "7"
  | 8%nat => "8" | 9%nat => "9" | 10%nat => "a" | 11%nat => "b"
  | 12%nat => "c" | 13%nat => "d" | 14%nat => "e" | _ => "f"
  end%char.

Definition is_control (c : ascii) : bool :=
  let n := Ascii.nat_of_ascii c in (n <? 32)%nat || (n =? 127)%nat.

Fixpoint escape_chars (q : ascii) (s : string) : string :=
  match s with
  | EmptyString => EmptyString
  | String c s' =>
      let rest := escape_chars q s' in
      if Ascii.eqb c backslash then String backslash (String backslash rest)
      else if Ascii.eqb c q then String backslash (String q rest)
      else if Ascii.eqb c (Ascii.ascii_of_nat 10) then String backslash (String "n" rest)
      else if Ascii.eqb c (Ascii.ascii_of_nat 13) then String backslash (String "r" rest)
      else if Ascii.eqb c (Ascii.ascii_of_nat 9) then String backslash (String "t" rest)
      else if is_control c then
        let n := Ascii.nat_of_ascii c in
        String backslash
          (String "x" (String (hex_digit (n / 16)) (String (hex_digit (n mod 16)) rest)))
      else String c rest
  end.

Definition repr_str (s : string) : string :=
  let q := if contains_char single_quote s && negb (contains_char double_quote s)
           then double_quote else single_quote in
  String q (escape_chars q s ++ String q EmptyString).

Definition join_with (sep : string) (l : list string) : string :=
  String.concat sep l.

(** [str(v)] and [repr(v)]; they differ on str only. *)
Fixpoint py_repr (v : PyVal) : string :=
  match v with
  | VNone => "None"
  | VBool b => if b then "True" else "False"
  | VInt z => string_of_Z z
  | VStr s => repr_str s
  | VDict items =>
      "{" ++ join_with ", "
               ((fix go (l : list (string * PyVal)) : list string :=
                   match l with
                   | [] => []
                   | (k, x) :: rest => (repr_str k ++ ": " ++ py_repr x) :: go rest
                   end) items) ++ "}"
  | VOther _ _ t => t
  end.

Definition py_str (v : PyVal) : string :=
  match v with
  | VStr s => s
  | _ => py_repr v
  end.

(** [str(x)] where [x] is a str or [None] (the two halves of the pairs the
    stage functions return). *)
Definition str_of (x : option string) : string :=
  match x with Some s => s | None => "None" end.

(** [bool(x)] for the same. *)
Definition truthy_str (x : option string) : bool :=
  match x with Some s => negb (s =? "")%string | None => false end.

(* ===================================================================== *)
(** ** Exceptions *)
(* ===================================================================== *)

(** The exception classes the handler names in an [except] clause, and
    those its collaborators are known to raise. *)
Inductive PyClass : Type :=
| BaseException
| KeyboardInterrupt            (* BaseException *)
| SystemExit                   (* BaseException *)
| Exception                    (* BaseException *)
| AttributeError               (* Exception *)
| ValueError                   (* Exception *)
| UnicodeDecodeError           (* ValueError *)
| RuntimeError                 (* Exception *)
| MemoryError                  (* Exception *)
| ImportError                  (* Exception *)
| ModuleNotFoundError          (* ImportError *)
| OSError                      (* Exception *)
| FileNotFoundError            (* OSError *)
| PermissionError              (* OSError *)
| RequestException             (* requests.exceptions; an IOError *)
| HTTPError                    (* RequestException *)
| ConnectionError              (* RequestException *)
| Timeout                      (* RequestException *)
| ConnectTimeout               (* ConnectionError, Timeout *)
| ReadTimeout                  (* Timeout *)
| SubprocessError              (* subprocess; Exception *)
| CalledProcessError           (* SubprocessError *)
| TimeoutExpired               (* SubprocessError *)
| ClientError                  (* botocore.exceptions; Exception *)
| S3UploadFailedError.         (* boto3.exceptions; Exception *)

Scheme Equality for PyClass.

(** The method resolution order of each class: itself and its ancestors. *)
Definition mro (c : PyClass) : list PyClass :=
  match c with
  | BaseException => [BaseException]
  | KeyboardInterrupt => [KeyboardInterrupt; BaseException]
  | SystemExit => [SystemExit; BaseException]
  | Exception => [Exception; BaseException]
  | AttributeError => [AttributeError; Exception; BaseException]
  | ValueError => [ValueError; Exception; BaseException]
  | UnicodeDecodeError => [UnicodeDecodeError; ValueError; Exception; BaseException]
  | RuntimeError => [RuntimeError; Exception; BaseException]
  | MemoryError => [MemoryError; Exception; BaseException]
  | ImportError => [ImportError; Exception; BaseException]
  | ModuleNotFoundError => [ModuleNotFoundError; ImportError; Exception; BaseException]
  | OSError => [OSError; Exception; BaseException]
  | FileNotFoundError => [FileNotFoundError; OSError; Exception; BaseException]
  | PermissionError => [PermissionError; OSError; Exception; BaseException]
  | RequestException => [RequestException; OSError; Exception; BaseException]
  | HTTPError => [HTTPError; RequestException; OSError; Exception; BaseException]
  | ConnectionError => [ConnectionError; RequestException; OSError; Exception; BaseException]
  | Timeout => [Timeout; RequestException; OSError; Exception; BaseException]
  | ConnectTimeout =>
      [ConnectTimeout; ConnectionError; Timeout; RequestException; OSError; Exception;
       BaseException]
  | ReadTimeout => [ReadTimeout; Timeout; RequestException; OSError; Exception; BaseException]
  | SubprocessError => [SubprocessError; Exception; BaseException]
  | CalledProcessError => [CalledProcessError; SubprocessError; Exception; BaseException]
  | TimeoutExpired => [TimeoutExpired; SubprocessError; Exception; BaseException]
  | ClientError => [ClientError; Exception; BaseException]
  | S3UploadFailedError => [S3UploadFailedError; Exception; BaseException]
  end.

Definition subclass (c target : PyClass) : bool :=
  existsb (PyClass_beq target) (mro c).

Record Exc : Type := mkExc { exc_class : PyClass; exc_msg : string }.

(** [isinstance(e, target)]. *)
Definition isinstance (e : Exc) (target : PyClass) : bool :=
  subclass (exc_class e) target.

(** What an [except] clause catches. *)
Definition Catch : Type := Exc -> bool.
Definition except_class (target : PyClass) : Catch := fun e => isinstance e target.
(** A bare [except:] catches everything. *)
Definition except_bare : Catch := fun _ => true.

Definition is_Exception (e : Exc) : bool := isinstance e Exception.

(* ===================================================================== *)
(** ** External calls, state and the monad *)
(* ===================================================================== *)

(** The calls that leave the process, in the order they are made. *)
Inductive Event : Type :=
| EvMkdtemp (prefix : string)
| EvHttpGet (url : PyVal) (timeout : Z) (dest : string)
| EvExists (path : string)
| EvImport (module_name : string)
| EvTorchProbe
| EvSubprocess (cmd : list string) (timeout : Z)
| EvGlob (dir pattern : string)
| EvMove (src dst : string)
| EvS3Client (endpoint access_key secret_key : string)
| EvS3Upload (file bucket key : string)
| EvRmtree (dir : string).

Record State : Type := mkState {
  trace : list Event;      (* external calls made so far, oldest first *)
  live : list string       (* scratch directories that exist *)
}.

Definition init_state : State := mkState [] [].

Inductive Outcome (A : Type) : Type :=
| Ret (a : A)
| Raise (e : Exc).
Arguments Ret {A} a.
Arguments Raise {A} e.

Definition M (A : Type) : Type := State -> Outcome A * State.

Definition ret {A} (a : A) : M A := fun s => (Ret a, s).
Definition raise {A} (e : Exc) : M A := fun s => (Raise e, s).
Definition bind {A B} (m : M A) (k : A -> M B) : M B :=
  fun s => match m s with
           | (Ret a, s') => k a s'
           | (Raise e, s') => (Raise e, s')
           end.

Declare Scope py_scope.
Delimit Scope py_scope with py.
Notation "x <- m ;; k" := (bind m (fun x => k))
  (at level 61, m at next level, right associativity) : py_scope.
Notation "' pat <- m ;; k" := (bind m (fun x => match x with pat => k end))
  (at level 61, pat pattern, m at next level, right associativity) : py_scope.
Notation "m ;;; k" := (bind m (fun _ => k))
  (at level 61, right associativity) : py_scope.
Open Scope py_scope.

(** [try: body / except C1 as e: h1 e / except C2 as e: h2 e / ...]:
    the first clause whose class matches handles the exception; a fault
    raised by a handler is not handled by its sibling clauses. *)
Fixpoint select_clause {A} (clauses : list (Catch * (Exc -> M A))) (e : Exc)
  : option (Exc -> M A) :=
  match clauses with
  | [] => None
  | (c, h) :: rest => if c e then Some h else select_clause rest e
  end.

Definition try_except {A} (body : M A) (clauses : list (Catch * (Exc -> M A))) : M A :=
  fun s => match body s with
           | (Ret a, s') => (Ret a, s')
           | (Raise e, s') =>
               match select_clause clauses e with
               | Some h => h e s'
               | None => (Raise e, s')
               end
           end.

(** [try: body / finally: cleanup].  The clean-up runs whatever the body
    did; the body's outcome (its returned value or its exception) stands,
    unless the clean-up itself raises. *)
Definition try_finally {A} (body : M A) (cleanup : M unit) : M A :=
  fun s => match body s with
           | (o, s') =>
               match cleanup s' with
               | (Ret _, s'') => (o, s'')
               | (Raise e, s'') => (Raise e, s'')
               end
           end.

(** The state after one more call. *)
Definition push (ev : Event) (s : State) : State :=
  mkState (trace s ++ [ev]) (live s).

Definition emit (ev : Event) : M unit :=
  fun s => (Ret tt, push ev s).

(** An external call: it is recorded, then it returns or raises. *)
Definition call {A} (ev : Event) (res : Exc + A) : M A :=
  emit ev ;;;
  match res with
  | inl e => raise e
  | inr a => ret a
  end.

Definition outcome {A} (r : Outcome A * State) : Outcome A := fst r.
Definition final {A} (r : Outcome A * State) : State := snd r.

(* ===================================================================== *)
(** ** The world outside the process *)
(* ===================================================================== *)

(** [subprocess.CompletedProcess], as far as the handler reads it. *)
Record Completed : Type := mkCompleted {
  returncode : Z;
  stderr : string
}.

(** Everything the code asks of its surroundings.  Each field answers one
    kind of call, as a function of the call's arguments: it returns, or it
    raises.  A time limit handed to a call is one of its arguments. *)
Record World : Type := mkWorld {
  (* os.getenv(name) *)
  getenv : string -> option string;
  (* Path(p).exists() *)
  path_exists : string -> bool;
  (* tempfile.mkdtemp(prefix=...) *)
  mkdtemp_result : string -> Exc + string;
  (* requests.get(url, stream=True, timeout=t), raise_for_status(), and the
     chunked copy to dest; the size of the file written *)
  http_get : PyVal -> Z -> string -> Exc + Z;
  (* import <module> *)
  import_module : string -> Exc + unit;
  (* torch.__version__, torch.cuda.is_available() *)
  torch_probe : Exc + unit;
  (* subprocess.run(cmd, capture_output=True, timeout=t) *)
  subprocess_run : list string -> Z -> Exc + Completed;
  (* bytes.decode(): the text of the captured bytes, or the decoding error *)
  bytes_decode : string -> Exc + string;
  (* list(Path(dir).glob(pattern)) *)
  glob_result : string -> string -> Exc + list string;
  (* shutil.move(src, dst) *)
  move_result : string -> string -> Exc + unit;
  (* boto3.client('s3', endpoint_url, aws_access_key_id, aws_secret_access_key, config) *)
  s3_client : string -> string -> string -> Exc + unit;
  (* client.upload_file(file, bucket, key), on the client made for
     (endpoint, access key, secret key) *)
  s3_upload_file : string -> string -> string -> string -> string -> string -> Exc + unit;
  (* shutil.rmtree(dir) *)
  rmtree_result : string -> Exc + unit
}.

(** [os.getenv(name, default)] *)
Definition getenv_or (w : World) (name default : string) : string :=
  match getenv w name with
  | Some v => v
  | None => default
  end.

(** A pure library call that may raise. *)
Definition lift {A} (res : Exc + A) : M A :=
  match res with
  | inl e => raise e
  | inr a => ret a
  end.

(* ===================================================================== *)
(** ** Paths *)
(* ===================================================================== *)

Definition slash : ascii := "/"%char.

Fixpoint ends_with_slash (s : string) : bool :=
  match s with
  | EmptyString => false
  | String c EmptyString => Ascii.eqb c slash
  | String _ s' => ends_with_slash s'
  end.

(** [os.path.join(a, b)] for a relative [b]. *)
Definition path_join (a b : string) : string :=
  if (a =? "")%string || ends_with_slash a then a ++ b else a ++ "/" ++ b.

(** What precedes the last slash, if there is one. *)
Fixpoint before_last_slash (s : string) : option string :=
  match s with
  | EmptyString => None
  | String c s' =>
      match before_last_slash s' with
      | Some d => Some (String c d)
      | None => if Ascii.eqb c slash then Some EmptyString else None
      end
  end.

(** [str(Path(p).parent)] for a normalised path. *)
Definition path_parent (p : string) : string :=
  match before_last_slash p with
  | None => "."
  | Some EmptyString => "/"
  | Some d => d
  end.

(* ===================================================================== *)
(** ** Configuration *)
(* ===================================================================== *)

Definition MODEL_DIR : string := "/workspace/MuseTalk/models/musetalk".
Definition WORKSPACE : string := "/workspace/MuseTalk".

(** [WORKSPACE / "scripts" / "inference.py"] *)
Definition inference_script : string := path_join (path_join WORKSPACE "scripts") "inference.py".

(* ===================================================================== *)
(** ** download_file *)
(* ===================================================================== *)

(** The pairs [(value, error)] the three stage functions return. *)
Definition StageResult : Type := (option string * option string)%type.

Definition download_file (w : World) (url : PyVal) (local_path : string) : M StageResult :=
  try_except
    (_ <- call (EvHttpGet url 60 local_path) (http_get w url 60 local_path) ;;
     ret (Some local_path, None))
    [ (except_class Timeout,
        fun _ => ret (None, Some "Download timeout after 60 seconds"));
      (except_class RequestException,
        fun e => ret (None, Some ("Download failed: " ++ exc_msg e)));
      (except_class Exception,
        fun e => ret (None, Some ("Unexpected download error: " ++ exc_msg e))) ].

(* ===================================================================== *)
(** ** upload_to_s3 *)
(* ===================================================================== *)

Definition upload_to_s3 (w : World) (file_path : option string)
    (bucket_name object_name : string) : M StageResult :=
  try_except
    (call (EvImport "boto3") (import_module w "boto3") ;;;
     call (EvImport "botocore.client") (import_module w "botocore.client") ;;;
     let endpoint_url := getenv_or w "BUCKET_ENDPOINT_URL" "https://storage.runpod.io" in
     let access_key := getenv w "BUCKET_ACCESS_KEY_ID" in
     let secret_key := getenv w "BUCKET_SECRET_ACCESS_KEY" in
     let '(access_key, secret_key, endpoint_url) :=
       if negb (truthy_str access_key) || negb (truthy_str secret_key) then
         (* Fallback to RunPod S3 *)
         (getenv w "RUNPOD_S3_ACCESS_KEY",
          getenv w "RUNPOD_S3_SECRET_KEY",
          getenv_or w "RUNPOD_S3_ENDPOINT" endpoint_url)
       else (access_key, secret_key, endpoint_url) in
     if negb (truthy_str access_key) || negb (truthy_str secret_key) then
       ret (None, Some "S3 credentials not configured")
     else
       call (EvS3Client endpoint_url (str_of access_key) (str_of secret_key))
            (s3_client w endpoint_url (str_of access_key) (str_of secret_key)) ;;;
       call (EvS3Upload (str_of file_path) bucket_name object_name)
            (s3_upload_file w endpoint_url (str_of access_key) (str_of secret_key)
               (str_of file_path) bucket_name object_name) ;;;
       (* Generate public URL *)
       ret (Some (endpoint_url ++ "/" ++ bucket_name ++ "/" ++ object_name), None))
    [ (except_class Exception,
        fun e => ret (None, Some ("S3 upload failed: " ++ exc_msg e))) ].

(* ===================================================================== *)
(** ** generate_video_musetalk *)
(* ===================================================================== *)

Definition inference_cmd (image_path audio_path : option string) (output_path : string)
  : list string :=
  [ "python"; inference_script;
    "--source_image"; str_of image_path;
    "--driven_audio"; str_of audio_path;
    "--result_dir"; path_parent output_path;
    "--fps"; "25";
    "--batch_size"; "8" ].

Definition ffmpeg_cmd (image_path audio_path : option string) (output_path : string)
  : list string :=
  [ "ffmpeg"; "-y";
    "-loop"; "1";
    "-i"; str_of image_path;
    "-i"; str_of audio_path;
    "-c:v"; "libx264";
    "-tune"; "stillimage";
    "-c:a"; "aac";
    "-b:a"; "192k";
    "-pix_fmt"; "yuv420p";
    "-shortest";
    output_path ].

Definition generate_video_musetalk (w : World) (image_path audio_path : option string)
    (output_path : string) : M StageResult :=
  try_except
    ((* Check if models exist *)
     models <- call (EvExists MODEL_DIR) (inr (path_exists w MODEL_DIR)) ;;
     if negb models then
       ret (None, Some "MuseTalk models not found - run model download first")
     else
       try_except
         (call (EvImport "torch") (import_module w "torch") ;;;
          call EvTorchProbe (torch_probe w) ;;;
          (* Check if inference script exists *)
          script <- call (EvExists inference_script) (inr (path_exists w inference_script)) ;;
          if script then
            (* Call MuseTalk inference *)
            let cmd := inference_cmd image_path audio_path output_path in
            result <- call (EvSubprocess cmd 300) (subprocess_run w cmd 300) ;;
            if negb (returncode result =? 0) then
              ret (None, Some ("MuseTalk inference failed: " ++ stderr result))
            else
              (* Find generated video *)
              let result_dir := path_parent output_path in
              videos <- call (EvGlob result_dir "*.mp4") (glob_result w result_dir "*.mp4") ;;
              match videos with
              | [] => ret (None, Some "No output video generated")
              | first :: _ =>
                  (* Move to expected output path *)
                  call (EvMove first output_path) (move_result w first output_path) ;;;
                  ret (Some output_path, None)
              end
          else
            (* Fallback: create a simple test video using ffmpeg *)
            let cmd := ffmpeg_cmd image_path audio_path output_path in
            result <- call (EvSubprocess cmd 60) (subprocess_run w cmd 60) ;;
            if negb (returncode result =? 0) then
              text <- lift (bytes_decode w (stderr result)) ;;
              ret (None, Some ("FFmpeg test video failed: " ++ text))
            else
              ret (Some output_path, None))
         [ (except_class ImportError,
             fun e => ret (None, Some ("MuseTalk import failed: " ++ exc_msg e))) ])
    [ (except_class TimeoutExpired,
        fun _ => ret (None, Some "Video generation timeout (>5 minutes)"));
      (except_class Exception,
        fun e => ret (None, Some ("Video generation error: " ++ exc_msg e))) ].

(* ===================================================================== *)
(** ** handler *)
(* ===================================================================== *)

(** [obj.get(key, default)]: a dict answers, anything else has no [get]. *)
Definition dict_get_or (items : list (string * PyVal)) (key : string) (default : PyVal)
  : PyVal :=
  match assoc_get items key with
  | Some v => v
  | None => default
  end.

Definition py_get (obj : PyVal) (key : string) (default : PyVal) : M PyVal :=
  match obj with
  | VDict items => ret (dict_get_or items key default)
  | _ =>
      raise (mkExc AttributeError
               ("'" ++ type_name_of obj ++ "' object has no attribute 'get'"))
  end.

Definition create_dir (d : string) : M unit :=
  fun s => (Ret tt, mkState (trace s) (d :: live s)).

Definition remove_dir (d : string) : M unit :=
  fun s => (Ret tt, mkState (trace s) (remove string_dec d (live s))).

(** [tempfile.mkdtemp(prefix=...)]: on success the directory exists. *)
Definition mkdtemp (w : World) (prefix : string) : M string :=
  d <- call (EvMkdtemp prefix) (mkdtemp_result w prefix) ;;
  create_dir d ;;;
  ret d.

(** [shutil.rmtree(dir)]: on success the directory is gone. *)
Definition rmtree (w : World) (dir : string) : M unit :=
  call (EvRmtree dir) (rmtree_result w dir) ;;;
  remove_dir dir.

(** The two result dictionaries. *)
Definition error_result (msg : string) : PyVal :=
  VDict [ ("error", VStr msg) ].

Definition success_result (video_url : option string) (job_id : PyVal) : PyVal :=
  VDict [ ("output_video_url", match video_url with Some u => VStr u | None => VNone end);
          ("status", VStr "completed");
          ("model", VStr "musetalk");
          ("job_id", job_id) ].

(** The [finally] block of the handler. *)
Definition cleanup (w : World) (temp_dir : string) : M unit :=
  try_except (rmtree w temp_dir) [ (except_bare, fun _ => ret tt) ].

(** The stages, between the creation of the scratch directory and its
    removal (the body of the inner [try]). *)
Definition pipeline (w : World) (job_id image_url audio_url : PyVal) (temp_dir : string)
  : M PyVal :=
  (* Download inputs *)
  let image_path := path_join temp_dir "input.png" in
  '(downloaded_image, error) <- download_file w image_url image_path ;;
  if truthy_str error then
    ret (error_result ("Failed to download image: " ++ str_of error))
  else
    let audio_path := path_join temp_dir "input.wav" in
    '(downloaded_audio, error) <- download_file w audio_url audio_path ;;
    if truthy_str error then
      ret (error_result ("Failed to download audio: " ++ str_of error))
    else
      (* Generate video *)
      let output_path := path_join temp_dir "output.mp4" in
      '(video_path, error) <-
         generate_video_musetalk w downloaded_image downloaded_audio output_path ;;
      if truthy_str error then
        ret (error_result (str_of error))
      else
        (* Upload to S3 *)
        let bucket := getenv_or w "RUNPOD_S3_BUCKET" "flowsmartly-avatars" in
        let object_name := "musetalk/" ++ py_str job_id ++ ".mp4" in
        '(video_url, error) <- upload_to_s3 w video_path bucket object_name ;;
        if truthy_str error then
          ret (error_result (str_of error))
        else
          ret (success_result video_url job_id).

(** The body of the outer [try]. *)
Definition handler_body (w : World) (job : PyVal) : M PyVal :=
  job_input <- py_get job "input" (VDict []) ;;
  job_id <- py_get job "id" (VStr "unknown") ;;
  (* Validate inputs *)
  image_url <- py_get job_input "input_image_url" VNone ;;
  if negb (truthy image_url) then
    ret (error_result "input_image_url is required")
  else
    audio_url <- py_get job_input "input_audio_url" VNone ;;
    if negb (truthy audio_url) then
      ret (error_result "input_audio_url is required")
    else
      (* Create temp directory *)
      temp_dir <- mkdtemp w "musetalk_" ;;
      try_finally (pipeline w job_id image_url audio_url temp_dir) (cleanup w temp_dir).

Definition handler (w : World) (job : PyVal) : M PyVal :=
  try_except (handler_body w job)
    [ (except_class Exception,
        fun e => ret (error_result ("Handler error: " ++ exc_msg e))) ].

(* ===================================================================== *)
(** ** Worlds that differ in one answer *)
(* ===================================================================== *)

Definition set_getenv (w : World) (f : string -> option string) : World :=
  mkWorld f (path_exists w) (mkdtemp_result w) (http_get w) (import_module w)
    (torch_probe w) (subprocess_run w) (bytes_decode w) (glob_result w) (move_result w)
    (s3_client w) (s3_upload_file w) (rmtree_result w).

Definition set_path_exists (w : World) (f : string -> bool) : World :=
  mkWorld (getenv w) f (mkdtemp_result w) (http_get w) (import_module w)
    (torch_probe w) (subprocess_run w) (bytes_decode w) (glob_result w) (move_result w)
    (s3_client w) (s3_upload_file w) (rmtree_result w).

Definition set_http_get (w : World) (f : PyVal -> Z -> string -> Exc + Z) : World :=
  mkWorld (getenv w) (path_exists w) (mkdtemp_result w) f (import_module w)
    (torch_probe w) (subprocess_run w) (bytes_decode w) (glob_result w) (move_result w)
    (s3_client w) (s3_upload_file w) (rmtree_result w).

Definition set_import_module (w : World) (f : string -> Exc + unit) : World :=
  mkWorld (getenv w) (path_exists w) (mkdtemp_result w) (http_get w) f
    (torch_probe w) (subprocess_run w) (bytes_decode w) (glob_result w) (move_result w)
    (s3_client w) (s3_upload_file w) (rmtree_result w).

Definition set_subprocess_run (w : World) (f : list string -> Z -> Exc + Completed) : World :=
  mkWorld (getenv w) (path_exists w) (mkdtemp_result w) (http_get w) (import_module w)
    (torch_probe w) f (bytes_decode w) (glob_result w) (move_result w)
    (s3_client w) (s3_upload_file w) (rmtree_result w).

Definition set_rmtree_result (w : World) (f : string -> Exc + unit) : World :=
  mkWorld (getenv w) (path_exists w) (mkdtemp_result w) (http_get w) (import_module w)
    (torch_probe w) (subprocess_run w) (bytes_decode w) (glob_result w) (move_result w)
    (s3_client w) (s3_upload_file w) f.

(* ===================================================================== *)
(** ** Concrete worlds and jobs *)
(* ===================================================================== *)

Module Scenario.

(** Everything present and working: models, inference script, the primary
    credential pair, a network and a store that answer. *)
Definition all_good : World := {|
  getenv := fun name =>
    if (name =? "BUCKET_ACCESS_KEY_ID")%string then Some "AKIA"
    else if (name =? "BUCKET_SECRET_ACCESS_KEY")%string then Some "s3cr3t"
    else None;
  path_exists := fun _ => true;
  mkdtemp_result := fun prefix => inr ("/tmp/" ++ prefix ++ "k3x9");
  http_get := fun _ _ _ => inr 2048;
  import_module := fun _ => inr tt;
  torch_probe := inr tt;
  subprocess_run := fun _ _ => inr (mkCompleted 0 "");
  bytes_decode := fun b => inr b;
  glob_result := fun dir _ => inr [path_join dir "result.mp4"];
  move_result := fun _ _ => inr tt;
  s3_client := fun _ _ _ => inr tt;
  s3_upload_file := fun _ _ _ _ _ _ => inr tt;
  rmtree_result := fun _ => inr tt
|}.

(** The inference script is not installed; everything else as in [all_good]. *)
Definition no_script : World :=
  set_path_exists all_good (fun p => negb (p =? inference_script)%string).

(** No credential is configured. *)
Definition no_credentials (w : World) : World := set_getenv w (fun _ => None).

(** The process is interrupted (SIGINT) while it waits for the image. *)
Definition interrupted_download : World :=
  set_http_get all_good (fun _ _ _ => inl (mkExc KeyboardInterrupt "")).

(** The scratch directory cannot be removed. *)
Definition stuck_workspace : World :=
  set_rmtree_result all_good
    (fun _ => inl (mkExc PermissionError "[Errno 13] Permission denied")).

(** The image server accepts the connection and then stays silent. *)
Definition silent_image_server : World :=
  set_http_get all_good
    (fun _ _ _ =>
       inl (mkExc ReadTimeout
              "HTTPSConnectionPool(host='cdn.example', port=443): Read timed out. (read timeout=60)")).

(** No credential is configured and boto3 is not installed. *)
Definition no_boto3 : World :=
  set_import_module (no_credentials all_good)
    (fun name =>
       if (name =? "boto3")%string
       then inl (mkExc ModuleNotFoundError "No module named 'boto3'")
       else inr tt).

(** Only the fallback credential pair is configured. *)
Definition runpod_credentials : World :=
  set_getenv all_good
    (fun name =>
       if (name =? "RUNPOD_S3_ACCESS_KEY")%string then Some "rp-key"
       else if (name =? "RUNPOD_S3_SECRET_KEY")%string then Some "rp-secret"
       else if (name =? "RUNPOD_S3_ENDPOINT")%string then Some "https://s3.runpod.example"
       else if (name =? "BUCKET_ACCESS_KEY_ID")%string then Some "half-a-pair"
       else None).

(** The inference script is absent and so is [ffmpeg]. *)
Definition no_ffmpeg : World :=
  set_subprocess_run no_script
    (fun _ _ =>
       inl (mkExc FileNotFoundError "[Errno 2] No such file or directory: 'ffmpeg'")).

(** The inference script is absent and [ffmpeg] does not finish in time. *)
Definition slow_ffmpeg : World :=
  set_subprocess_run no_script
    (fun _ t =>
       inl (mkExc TimeoutExpired
              ("Command '['ffmpeg', ...]' timed out after " ++ string_of_Z t ++ " seconds"))).

(** The inference script is absent and [ffmpeg] rejects its input. *)
Definition failing_ffmpeg : World :=
  set_subprocess_run no_script
    (fun _ _ => inr (mkCompleted 1 "input.png: Invalid data found when processing input")).

Definition job (id : string) : PyVal :=
  VDict [ ("id", VStr id);
          ("input", VDict [ ("input_image_url", VStr "https://cdn.example/face.png");
                            ("input_audio_url", VStr "https://cdn.example/voice.wav") ]) ].

Definition job_without_id : PyVal :=
  VDict [ ("input", VDict [ ("input_image_url", VStr "https://cdn.example/face.png");
                            ("input_audio_url", VStr "https://cdn.example/voice.wav") ]) ].

End Scenario.

(* ===================================================================== *)
(** ** Reasoning about runs *)
(* ===================================================================== *)

(** One invocation, started with nothing recorded. *)
Definition result_of {A} (m : M A) : Outcome A := outcome (m init_state).
Definition events_of {A} (m : M A) : list Event := trace (final (m init_state)).

(** [sound m P Q E]: from any state, [m] only appends to the trace, every
    call it makes satisfies [P], a value it returns satisfies [Q] and an
    exception it raises satisfies [E]. *)
Definition sound {A} (m : M A) (P : Event -> Prop) (Q : A -> Prop) (E : Exc -> Prop)
  : Prop :=
  forall s, exists evs,
    trace (final (m s)) = (trace s ++ evs)%list /\
    Forall P evs /\
    match outcome (m s) with
    | Ret a => Q a
    | Raise e => E e
    end.

(** The exceptions that come from outside: [e] is the answer of the world
    to some call. *)
Inductive raised_by (w : World) (e : Exc) : Prop :=
| by_mkdtemp prefix : mkdtemp_result w prefix = inl e -> raised_by w e
| by_http_get url t dest : http_get w url t dest = inl e -> raised_by w e
| by_import name : import_module w name = inl e -> raised_by w e
| by_torch_probe : torch_probe w = inl e -> raised_by w e
| by_subprocess_run cmd t : subprocess_run w cmd t = inl e -> raised_by w e
| by_bytes_decode b : bytes_decode w b = inl e -> raised_by w e
| by_glob dir pat : glob_result w dir pat = inl e -> raised_by w e
| by_move src dst : move_result w src dst = inl e -> raised_by w e
| by_s3_client ep ak sk : s3_client w ep ak sk = inl e -> raised_by w e
| by_s3_upload_file ep ak sk f b k : s3_upload_file w ep ak sk f b k = inl e -> raised_by w e
| by_rmtree dir : rmtree_result w dir = inl e -> raised_by w e.

(** What a stage function hands back: a value and no error, or no value
    and an error message that [if error:] sees. *)
Definition stage_result_wf (r : StageResult) : Prop :=
  (exists v, r = (Some v, None)) \/
  (exists msg, r = (None, Some msg) /\ truthy_str (Some msg) = true).

(** The calls each stage may make. *)
Definition is_synthesis_event (ev : Event) : bool :=
  match ev with
  | EvExists _ | EvTorchProbe | EvSubprocess _ _ | EvGlob _ _ | EvMove _ _ => true
  | EvImport m => (m =? "torch")%string
  | _ => false
  end.

Definition is_publish_event (ev : Event) : bool :=
  match ev with
  | EvS3Client _ _ _ | EvS3Upload _ _ _ => true
  | EvImport m => (m =? "boto3")%string || (m =? "botocore.client")%string
  | _ => false
  end.

(** A credential pair resolves from configuration when both of its
    variables are set and not empty (what [if not access_key or not
    secret_key] asks). *)
Definition pair_resolves (w : World) (key_name secret_name : string)
  : option (string * string) :=
  match getenv w key_name, getenv w secret_name with
  | Some k, Some x =>
      if truthy_str (Some k) && truthy_str (Some x) then Some (k, x) else None
  | _, _ => None
  end.

Definition primary_pair (w : World) : option (string * string) :=
  pair_resolves w "BUCKET_ACCESS_KEY_ID" "BUCKET_SECRET_ACCESS_KEY".

Definition fallback_pair (w : World) : option (string * string) :=
  pair_resolves w "RUNPOD_S3_ACCESS_KEY" "RUNPOD_S3_SECRET_KEY".

Definition primary_endpoint (w : World) : string :=
  getenv_or w "BUCKET_ENDPOINT_URL" "https://storage.runpod.io".

Definition fallback_endpoint (w : World) : string :=
  getenv_or w "RUNPOD_S3_ENDPOINT" (primary_endpoint w).

(** The two sub-process invocations of the synthesis stage. *)
Definition is_primary_call (ev : Event) : bool :=
  match ev with
  | EvSubprocess (prog :: script :: _) _ =>
      (prog =? "python")%string && (script =? inference_script)%string
  | _ => false
  end.

Definition is_fallback_call (ev : Event) : bool :=
  match ev with
  | EvSubprocess (prog :: _) _ => (prog =? "ffmpeg")%string
  | _ => false
  end.

(** The calls the synthesis stage may make in a given world: the primary
    invocation only where the inference script exists, the fallback one only
    where it does not. *)
Definition synthesis_may_call (w : World) (ev : Event) : Prop :=
  is_synthesis_event ev = true /\
  (is_primary_call ev = true -> path_exists w inference_script = true) /\
  (is_fallback_call ev = true -> path_exists w inference_script = false).

(** How the two [try] levels of [generate_video_musetalk] dispose of an
    exception raised inside the inner one. *)
Definition synthesis_catch (e : Exc) : Outcome StageResult :=
  if isinstance e ImportError then
    Ret (None, Some ("MuseTalk import failed: " ++ exc_msg e))
  else if isinstance e TimeoutExpired then
    Ret (None, Some "Video generation timeout (>5 minutes)")
  else if isinstance e Exception then
    Ret (None, Some ("Video generation error: " ++ exc_msg e))
  else Raise e.

(** The state once the fallback invocation has been made. *)
Definition after_fallback_call (image_path audio_path : option string)
    (output_path : string) (s : State) : State :=
  push (EvSubprocess (ffmpeg_cmd image_path audio_path output_path) 60)
    (push (EvExists inference_script)
       (push EvTorchProbe
          (push (EvImport "torch")
             (push (EvExists MODEL_DIR) s)))).

Fixpoint starts_with (p s : string) : bool :=
  match p with
  | EmptyString => true
  | String a p' =>
      match s with
      | EmptyString => false
      | String b s' => Ascii.eqb a b && starts_with p' s'
      end
  end.

(** The errors of the synthesis stage, as the spec names them.  The code
    tells them apart by their message only. *)
Inductive SynthesisErrorKind : Type :=
| ModelsMissing
| InferenceFailed
| NoOutputProduced
| FallbackFailed
| CapabilityUnavailable.

Definition synthesis_error_kind (msg : string) : option SynthesisErrorKind :=
  if (msg =? "MuseTalk models not found - run model download first")%string
  then Some ModelsMissing
  else if starts_with "MuseTalk inference failed: " msg then Some InferenceFailed
  else if (msg =? "No output video generated")%string then Some NoOutputProduced
  else if starts_with "FFmpeg test video failed: " msg then Some FallbackFailed
  else if starts_with "MuseTalk import failed: " msg then Some CapabilityUnavailable
  else None.

(** The two shapes of a job result. *)
Definition is_success_result (r : PyVal) : Prop :=
  exists url job_id,
    r = VDict [ ("output_video_url", VStr url);
                ("status", VStr "completed");
                ("model", VStr "musetalk");
                ("job_id", job_id) ].

Definition is_error_result (r : PyVal) : Prop :=
  exists msg, r = VDict [ ("error", VStr msg) ].

Definition is_job_result (r : PyVal) : Prop :=
  is_success_result r \/ is_error_result r.

(** An exception that [except Exception] does not stop, and where it came
    from. *)
Definition is_interrupt (w : World) (e : Exc) : Prop :=
  raised_by w e /\ is_Exception e = false.

(** What the body of the outer [try] may raise: what the world raised, or
    an Exception of its own making. *)
Definition body_may_raise (w : World) (e : Exc) : Prop :=
  raised_by w e \/ is_Exception e = true.

(* ===================================================================== *)
(** ** The pipeline as the design describes it *)
(* ===================================================================== *)

(** The job controller in the words of the spec (sections 4.1 and 5): a list
    of stages run in strict sequence, each taking what its predecessors
    produced, the first error outcome ending the run and becoming the
    result.  This is not a translation of the source; [pipeline] and
    [handler] above are, and the two are compared below. *)
Record Ctx : Type := mkCtx {
  ctx_image : option string;
  ctx_audio : option string;
  ctx_video : option string;
  ctx_url : option string
}.

Definition empty_ctx : Ctx := mkCtx None None None None.

(** A stage ends in an error message or in an extended context. *)
Definition Stage : Type := Ctx -> M (string + Ctx).

Fixpoint in_strict_sequence (stages : list Stage) (c : Ctx) : M (string + Ctx) :=
  match stages with
  | [] => ret (inr c)
  | stage :: rest =>
      r <- stage c ;;
      match r with
      | inl err => ret (inl err)
      | inr c' => in_strict_sequence rest c'
      end
  end.

Definition fetch_image_stage (w : World) (image_url : PyVal) (temp_dir : string) : Stage :=
  fun c =>
    '(value, error) <- download_file w image_url (path_join temp_dir "input.png") ;;
    ret (if truthy_str error
         then inl ("Failed to download image: " ++ str_of error)
         else inr (mkCtx value (ctx_audio c) (ctx_video c) (ctx_url c))).

Definition fetch_audio_stage (w : World) (audio_url : PyVal) (temp_dir : string) : Stage :=
  fun c =>
    '(value, error) <- download_file w audio_url (path_join temp_dir "input.wav") ;;
    ret (if truthy_str error
         then inl ("Failed to download audio: " ++ str_of error)
         else inr (mkCtx (ctx_image c) value (ctx_video c) (ctx_url c))).

Definition synthesize_stage (w : World) (temp_dir : string) : Stage :=
  fun c =>
    '(value, error) <-
       generate_video_musetalk w (ctx_image c) (ctx_audio c)
         (path_join temp_dir "output.mp4") ;;
    ret (if truthy_str error
         then inl (str_of error)
         else inr (mkCtx (ctx_image c) (ctx_audio c) value (ctx_url c))).

Definition publish_stage (w : World) (job_id : PyVal) : Stage :=
  fun c =>
    '(value, error) <-
       upload_to_s3 w (ctx_video c)
         (getenv_or w "RUNPOD_S3_BUCKET" "flowsmartly-avatars")
         ("musetalk/" ++ py_str job_id ++ ".mp4") ;;
    ret (if truthy_str error
         then inl (str_of error)
         else inr (mkCtx (ctx_image c) (ctx_audio c) (ctx_video c) value)).

Definition stages_of_job (w : World) (job_id image_url audio_url : PyVal)
    (temp_dir : string) : list Stage :=
  [ fetch_image_stage w image_url temp_dir;
    fetch_audio_stage w audio_url temp_dir;
    synthesize_stage w temp_dir;
    publish_stage w job_id ].

Definition result_of_stages (job_id : PyVal) (r : string + Ctx) : PyVal :=
  match r with
  | inl err => error_result err
  | inr c => success_result (ctx_url c) job_id
  end.

(** Validation: the three values the stages need, or the message. *)
Definition validate (job : PyVal) : M (string + PyVal * PyVal * PyVal) :=
  job_input <- py_get job "input" (VDict []) ;;
  job_id <- py_get job "id" (VStr "unknown") ;;
  image_url <- py_get job_input "input_image_url" VNone ;;
  if negb (truthy image_url) then ret (inl "input_image_url is required")
  else
    audio_url <- py_get job_input "input_audio_url" VNone ;;
    if negb (truthy audio_url) then ret (inl "input_audio_url is required")
    else ret (inr (job_id, image_url, audio_url)).

Definition job_controller (w : World) (job : PyVal) : M PyVal :=
  try_except
    (v <- validate job ;;
     match v with
     | inl err => ret (error_result err)
     | inr (job_id, image_url, audio_url) =>
         temp_dir <- mkdtemp w "musetalk_" ;;
         try_finally
           (r <- in_strict_sequence (stages_of_job w job_id image_url audio_url temp_dir)
                   empty_ctx ;;
            ret (result_of_stages job_id r))
           (cleanup w temp_dir)
     end)
    [ (except_class Exception,
        fun e => ret (error_result ("Handler error: " ++ exc_msg e))) ].

(* ===================================================================== *)
(** ** Further notions: call sequences, counts, start-up *)
(* ===================================================================== *)

(** The detail [download_file] gives for an [Exception] raised by the
    transfer (its three [except] clauses, in their order). *)
Definition download_error_detail (e : Exc) : string :=
  if isinstance e Timeout then "Download timeout after 60 seconds"
  else if isinstance e RequestException then "Download failed: " ++ exc_msg e
  else "Unexpected download error: " ++ exc_msg e.

(** The calls of the synthesis stage, in the order the source makes them,
    for each of its two strategies; [video] is the file picked among the
    results of the primary one. *)
Definition primary_calls (image_path audio_path : option string) (output_path video : string)
  : list Event :=
  [ EvExists MODEL_DIR;
    EvImport "torch";
    EvTorchProbe;
    EvExists inference_script;
    EvSubprocess (inference_cmd image_path audio_path output_path) 300;
    EvGlob (path_parent output_path) "*.mp4";
    EvMove video output_path ].

Definition fallback_calls (image_path audio_path : option string) (output_path : string)
  : list Event :=
  [ EvExists MODEL_DIR;
    EvImport "torch";
    EvTorchProbe;
    EvExists inference_script;
    EvSubprocess (ffmpeg_cmd image_path audio_path output_path) 60 ].

(** The calls of [upload_to_s3], in the order the source makes them. *)
Definition upload_calls (endpoint access_key secret_key : string)
    (file_path : option string) (bucket_name object_name : string) : list Event :=
  [ EvImport "boto3";
    EvImport "botocore.client";
    EvS3Client endpoint access_key secret_key;
    EvS3Upload (str_of file_path) bucket_name object_name ].

(** The endpoint and the credential pair [upload_to_s3] settles on: the
    primary ones where the primary pair resolves, else the fallback ones. *)
Definition resolved_credentials (w : World) : option (string * string * string) :=
  match primary_pair w with
  | Some (k, x) => Some (primary_endpoint w, k, x)
  | None =>
      match fallback_pair w with
      | Some (k, x) => Some (fallback_endpoint w, k, x)
      | None => None
      end
  end.

(** What the [except Exception] of [upload_to_s3] makes of an exception. *)
Definition upload_catch (e : Exc) : Outcome StageResult :=
  if isinstance e Exception
  then Ret (None, Some ("S3 upload failed: " ++ exc_msg e))
  else Raise e.

Definition is_dict (v : PyVal) : bool :=
  match v with VDict _ => true | _ => false end.

(** The message of the [AttributeError] that [v.get] raises. *)
Definition no_get_message (v : PyVal) : string :=
  "'" ++ type_name_of v ++ "' object has no attribute 'get'".

(** [l] is the first [n] elements of [full], for some [n] of at least 1. *)
Definition started_prefix (l full : list Event) : Prop :=
  exists n, (1 <= n)%nat /\ l = firstn n full.

Definition count_events (p : Event -> bool) (l : list Event) : nat :=
  List.length (filter p l).

Definition is_http_get (ev : Event) : bool :=
  match ev with EvHttpGet _ _ _ => true | _ => false end.

Definition is_subprocess (ev : Event) : bool :=
  match ev with EvSubprocess _ _ => true | _ => false end.

Definition is_upload (ev : Event) : bool :=
  match ev with EvS3Upload _ _ _ => true | _ => false end.

Definition is_mkdtemp (ev : Event) : bool :=
  match ev with EvMkdtemp _ => true | _ => false end.

Definition is_rmtree (ev : Event) : bool :=
  match ev with EvRmtree _ => true | _ => false end.

(** [budget evs m h p u r]: among the calls [evs] there are at most [m]
    creations of a scratch directory, [h] HTTP requests, [p] sub-processes,
    [u] transfers to the store and [r] removals of a directory. *)
Definition budget (evs : list Event) (m h p u r : nat) : Prop :=
  (count_events is_mkdtemp evs <= m)%nat /\
  (count_events is_http_get evs <= h)%nat /\
  (count_events is_subprocess evs <= p)%nat /\
  (count_events is_upload evs <= u)%nat /\
  (count_events is_rmtree evs <= r)%nat.

(** The test of the S3 configuration check of the start-up block
    ([if os.getenv('RUNPOD_S3_ACCESS_KEY'):]): [true] where the worker logs
    that the S3 credentials are configured, [false] where it logs that they
    were not found. *)
Definition startup_s3_check (w : World) : bool :=
  truthy_str (getenv w "RUNPOD_S3_ACCESS_KEY").

(** More worlds. *)
Module Cases.

(** The audio server answers 404. *)
Definition audio_not_found : World :=
  set_http_get Scenario.all_good
    (fun url _ _ =>
       match url with
       | VStr "https://cdn.example/voice.wav" =>
           inl (mkExc HTTPError "404 Client Error: Not Found for url")
       | _ => inr 2048
       end).

(** The image cannot be written to the scratch directory. *)
Definition disk_full : World :=
  set_http_get Scenario.all_good
    (fun _ _ _ => inl (mkExc OSError "[Errno 28] No space left on device")).

Definition set_mkdtemp_result (w : World) (f : string -> Exc + string) : World :=
  mkWorld (getenv w) (path_exists w) f (http_get w) (import_module w)
    (torch_probe w) (subprocess_run w) (bytes_decode w) (glob_result w) (move_result w)
    (s3_client w) (s3_upload_file w) (rmtree_result w).

Definition set_glob_result (w : World) (f : string -> string -> Exc + list string) : World :=
  mkWorld (getenv w) (path_exists w) (mkdtemp_result w) (http_get w) (import_module w)
    (torch_probe w) (subprocess_run w) (bytes_decode w) f (move_result w)
    (s3_client w) (s3_upload_file w) (rmtree_result w).

Definition set_s3_upload_file (w : World)
    (f : string -> string -> string -> string -> string -> string -> Exc + unit) : World :=
  mkWorld (getenv w) (path_exists w) (mkdtemp_result w) (http_get w) (import_module w)
    (torch_probe w) (subprocess_run w) (bytes_decode w) (glob_result w) (move_result w)
    (s3_client w) f (rmtree_result w).

(** No scratch directory can be made. *)
Definition no_tmp : World :=
  set_mkdtemp_result Scenario.all_good
    (fun _ => inl (mkExc OSError "[Errno 30] Read-only file system: '/tmp/musetalk_k3x9'")).

(** The inference script runs and fails. *)
Definition failing_inference : World :=
  set_subprocess_run Scenario.all_good
    (fun _ _ => inr (mkCompleted 1 "RuntimeError: CUDA out of memory")).

(** The inference script runs, exits with 0 and leaves no video. *)
Definition silent_inference : World :=
  set_glob_result Scenario.all_good (fun _ _ => inr []).

(** The inference script does not finish in time. *)
Definition slow_inference : World :=
  set_subprocess_run Scenario.all_good
    (fun _ t =>
       inl (mkExc TimeoutExpired
              ("Command '['python', ...]' timed out after " ++ string_of_Z t ++ " seconds"))).

(** torch is not installed. *)
Definition no_torch : World :=
  set_import_module Scenario.no_script
    (fun name =>
       if (name =? "torch")%string
       then inl (mkExc ModuleNotFoundError "No module named 'torch'")
       else inr tt).

(** The store refuses the upload. *)
Definition refused_upload : World :=
  set_s3_upload_file Scenario.all_good
    (fun _ _ _ _ _ _ =>
       inl (mkExc S3UploadFailedError
              "Failed to upload /tmp/musetalk_k3x9/output.mp4: AccessDenied")).

(** Only the fallback access key is set: its secret is missing. *)
Definition key_without_secret : World :=
  set_getenv Scenario.all_good
    (fun name => if (name =? "RUNPOD_S3_ACCESS_KEY")%string then Some "rp-key" else None).

End Cases.

(* ===================================================================== *)
(** ** Rules *)
(* ===================================================================== *)

Section Rules.
Context {A B : Type}.
Variable P : Event -> Prop.

Lemma sound_ret (a : A) (Q : A -> Prop) E : Q a -> sound (ret a) P Q E.
Proof.
  intros Ha s. exists []. cbn. rewrite app_nil_r. auto.
Qed.

Lemma sound_raise (e : Exc) (Q : A -> Prop) (E : Exc -> Prop) :
  E e -> sound (raise e) P Q E.
Proof.
  intros He s. exists []. cbn. rewrite app_nil_r. auto.
Qed.

Lemma sound_bind (m : M A) (k : A -> M B) (Q : A -> Prop) (R : B -> Prop) E :
  sound m P Q E ->
  (forall a, Q a -> sound (k a) P R E) ->
  sound (bind m k) P R E.
Proof.
  intros Hm Hk s. unfold bind.
  destruct (Hm s) as (evs & Ht & Hp & Hq).
  unfold outcome, final in *.
  destruct (m s) as [[a | e] s1]; cbn in *.
  - destruct (Hk a Hq s1) as (evs' & Ht' & Hp' & Hr).
    unfold outcome, final in *.
    exists (evs ++ evs')%list. rewrite Ht', Ht, app_assoc.
    split; [reflexivity | split; [apply Forall_app; auto | exact Hr]].
  - exists evs. auto.
Qed.

Lemma sound_weaken (m : M A) (Q Q' : A -> Prop) (E E' : Exc -> Prop) :
  sound m P Q E ->
  (forall a, Q a -> Q' a) ->
  (forall e, E e -> E' e) ->
  sound m P Q' E'.
Proof.
  intros Hm Hq He s. destruct (Hm s) as (evs & Ht & Hp & Ho).
  exists evs. repeat split; auto.
  destruct (outcome (m s)); auto.
Qed.

Lemma sound_weaken_events (m : M A) (P' : Event -> Prop) (Q : A -> Prop) E :
  sound m P Q E ->
  (forall ev, P ev -> P' ev) ->
  sound m P' Q E.
Proof.
  intros Hm Hp s. destruct (Hm s) as (evs & Ht & Hf & Ho).
  exists evs. repeat split; auto.
  eapply Forall_impl; eauto.
Qed.

Lemma sound_call (ev : Event) (res : Exc + A) (Q : A -> Prop) (E : Exc -> Prop) :
  P ev ->
  (forall a, res = inr a -> Q a) ->
  (forall e, res = inl e -> E e) ->
  sound (call ev res) P Q E.
Proof.
  intros Hev Hres Hexc s. exists [ev].
  unfold call, bind, emit, outcome, final. cbn.
  destruct res as [e | a]; cbn; auto.
Qed.

Lemma sound_lift (res : Exc + A) (Q : A -> Prop) (E : Exc -> Prop) :
  (forall a, res = inr a -> Q a) ->
  (forall e, res = inl e -> E e) ->
  sound (lift res) P Q E.
Proof.
  intros Hres Hexc. unfold lift. destruct res.
  - apply sound_raise. auto.
  - apply sound_ret. auto.
Qed.

Lemma select_clause_In (clauses : list (Catch * (Exc -> M A))) e h :
  select_clause clauses e = Some h -> exists c, In (c, h) clauses /\ c e = true.
Proof.
  induction clauses as [| [c h'] rest IH]; cbn; [discriminate |].
  destruct (c e) eqn:Hc.
  - intros [= <-]. eauto.
  - intros H. destruct (IH H) as (c' & Hin & Hc'). eauto.
Qed.

Lemma sound_try_except (body : M A) clauses (Q : A -> Prop) (E' E : Exc -> Prop) :
  sound body P Q E' ->
  (forall c h e, In (c, h) clauses -> c e = true -> E' e -> sound (h e) P Q E) ->
  (forall e, E' e -> select_clause clauses e = None -> E e) ->
  sound (try_except body clauses) P Q E.
Proof.
  intros Hb Hh Hesc s. unfold try_except.
  destruct (Hb s) as (evs & Ht & Hp & Hq).
  unfold outcome, final in *.
  destruct (body s) as [[a | e] s1]; cbn in *.
  - exists evs. auto.
  - destruct (select_clause clauses e) as [h |] eqn:Hsel.
    + destruct (select_clause_In _ _ _ Hsel) as (c & Hin & Hc).
      destruct (Hh c h e Hin Hc Hq s1) as (evs' & Ht' & Hp' & Hr).
      unfold outcome, final in *.
      exists (evs ++ evs')%list. rewrite Ht', Ht, app_assoc.
      split; [reflexivity | split; [apply Forall_app; auto | exact Hr]].
    + exists evs. split; [assumption | split; [assumption | apply Hesc; assumption]].
Qed.

Lemma sound_try_finally (body : M A) (cleanup : M unit) (Q : A -> Prop) E :
  sound body P Q E ->
  sound cleanup P (fun _ => True) E ->
  sound (try_finally body cleanup) P Q E.
Proof.
  intros Hb Hc s. unfold try_finally.
  destruct (Hb s) as (evs & Ht & Hp & Hq).
  unfold outcome, final in *.
  destruct (body s) as [o s1]; cbn in *.
  destruct (Hc s1) as (evs' & Ht' & Hp' & He).
  unfold outcome, final in *.
  destruct (cleanup s1) as [[[] | e] s2]; cbn in *;
    exists (evs ++ evs')%list; rewrite Ht', Ht, app_assoc;
    (split; [reflexivity | split; [apply Forall_app; auto |]]); auto.
Qed.

Lemma sound_call_eq (ev : Event) (res : Exc + A) (E : Exc -> Prop) :
  P ev ->
  (forall e, res = inl e -> E e) ->
  sound (call ev res) P (fun a => res = inr a) E.
Proof. intros. apply sound_call; auto. Qed.

Lemma sound_lift_eq (res : Exc + A) (E : Exc -> Prop) :
  (forall e, res = inl e -> E e) ->
  sound (lift res) P (fun a => res = inr a) E.
Proof. intros. apply sound_lift; auto. Qed.
End Rules.

Lemma sound_create_dir P E d : sound (create_dir d) P (fun _ => True) E.
Proof. intros s. exists []. cbn. rewrite app_nil_r. auto. Qed.

Lemma sound_remove_dir P E d : sound (remove_dir d) P (fun _ => True) E.
Proof. intros s. exists []. cbn. rewrite app_nil_r. auto. Qed.

(** Reading a [sound] judgement on a fresh run. *)
Lemma sound_run {A} (m : M A) P Q E :
  sound m P Q E ->
  Forall P (events_of m) /\
  match result_of m with Ret a => Q a | Raise e => E e end.
Proof.
  intros H. destruct (H init_state) as (evs & Ht & Hp & Hq).
  unfold events_of, result_of. cbn in Ht. rewrite Ht. auto.
Qed.

(** Symbolic execution of a [sound] goal, one construct at a time. *)
Ltac clause_cases H :=
  cbn [In] in H;
  repeat match type of H with
         | _ \/ _ => destruct H as [H | H]
         | (_, _) = (_, _) => injection H as <- <-
         | False => destruct H
         end.

Ltac sound_step :=
  match goal with
  | |- sound (ret _) _ _ _ => apply sound_ret
  | |- sound (raise _) _ _ _ => apply sound_raise
  | |- sound (bind (call _ _) _) _ _ _ =>
      eapply sound_bind; [apply sound_call_eq | cbv beta; intros ? ?]
  | |- sound (bind (lift _) _) _ _ _ =>
      eapply sound_bind; [apply sound_lift_eq | cbv beta; intros ? ?]
  | |- sound (if ?b then _ else _) _ _ _ => destruct b eqn:?
  | |- sound (match ?x with _ => _ end) _ _ _ => destruct x eqn:?
  end.

Ltac sound_try Eb :=
  apply sound_try_except with (E' := Eb);
  [| let c := fresh "c" in let h := fresh "h" in let e := fresh "e" in
     let Hin := fresh "Hin" in let Hc := fresh "Hc" in let He := fresh "He" in
     intros c h e Hin Hc He; clause_cases Hin
   | let e := fresh "e" in let He := fresh "He" in let Hsel := fresh "Hsel" in
     intros e He Hsel ].

Create HintDb stage.

Lemma wf_value v : stage_result_wf (Some v, None).
Proof. left. eauto. Qed.

Lemma wf_error msg : truthy_str (Some msg) = true -> stage_result_wf (None, Some msg).
Proof. right. eauto. Qed.

#[local] Hint Resolve wf_value wf_error : stage.
#[local] Hint Constructors raised_by : stage.

(** An exception that slips through [except Exception] is not one. *)
Lemma escapes_except_Exception {A} (clauses : list (Catch * (Exc -> M A))) h e :
  In (except_class Exception, h) clauses ->
  select_clause clauses e = None ->
  is_Exception e = false.
Proof.
  induction clauses as [| [c h'] rest IH]; cbn; [tauto |].
  intros [Heq | Hin].
  - injection Heq as -> ->. unfold except_class at 1. fold (is_Exception e).
    destruct (is_Exception e); [discriminate | reflexivity].
  - destruct (c e); [discriminate | auto].
Qed.

Section Stages.
Variable P : Event -> Prop.
Variable w : World.

Lemma download_file_sound url local_path :
  P (EvHttpGet url 60 local_path) ->
  sound (download_file w url local_path) P stage_result_wf (is_interrupt w).
Proof.
  intros Hev. unfold download_file.
  sound_try (raised_by w).
  - repeat sound_step; eauto with stage.
  - apply sound_ret; auto with stage.
  - apply sound_ret; auto with stage.
  - apply sound_ret; auto with stage.
  - split; [assumption |].
    eapply escapes_except_Exception; [| eassumption]. cbn. eauto.
Qed.

Hypothesis publish_events : forall ev, is_publish_event ev = true -> P ev.

Lemma upload_to_s3_sound file_path bucket_name object_name :
  sound (upload_to_s3 w file_path bucket_name object_name) P stage_result_wf
        (is_interrupt w).
Proof.
  unfold upload_to_s3.
  sound_try (raised_by w).
  - repeat sound_step; eauto with stage.
  - apply sound_ret; auto with stage.
  - split; [assumption |].
    eapply escapes_except_Exception; [| eassumption]. cbn. eauto.
Qed.
End Stages.

Ltac may_call :=
  let Hc := fresh "Hc" in
  split; [reflexivity |];
  split; intros Hc; first [ congruence | vm_compute in Hc; discriminate Hc ].

Lemma generate_video_musetalk_sound w image_path audio_path output_path :
  sound (generate_video_musetalk w image_path audio_path output_path)
        (synthesis_may_call w) stage_result_wf (is_interrupt w).
Proof.
  unfold generate_video_musetalk.
  sound_try (raised_by w).
  - sound_step; [may_call | discriminate |].
    sound_step; [apply sound_ret; auto with stage |].
    sound_try (raised_by w).
    + repeat sound_step; eauto with stage; try may_call; discriminate.
    + apply sound_ret; auto with stage.
    + assumption.
  - apply sound_ret; auto with stage.
  - apply sound_ret; auto with stage.
  - split; [assumption |].
    eapply escapes_except_Exception; [| eassumption]. cbn. eauto.
Qed.

Lemma error_result_is_job_result msg : is_job_result (error_result msg).
Proof. right. exists msg. reflexivity. Qed.

Lemma success_result_is_job_result url job_id :
  is_job_result (success_result (Some url) job_id).
Proof. left. exists url, job_id. reflexivity. Qed.

#[local] Hint Resolve error_result_is_job_result success_result_is_job_result : stage.

(** The two shapes exclude each other. *)
Lemma job_result_shapes_disjoint r : is_success_result r -> is_error_result r -> False.
Proof.
  intros (url & job_id & ->) (msg & H). discriminate H.
Qed.

Ltac stage_cases H :=
  let v := fresh "v" in let msg := fresh "msg" in let Hmsg := fresh "Hmsg" in
  destruct H as [(v & H) | (msg & H & Hmsg)]; injection H as -> ->;
  [ cbn [truthy_str] | rewrite Hmsg ].

Section Pipeline.
Variable P : Event -> Prop.
Variable w : World.
Hypothesis fetch_events : forall url t dest, P (EvHttpGet url t dest).
Hypothesis publish_events : forall ev, is_publish_event ev = true -> P ev.
Hypothesis synthesis_events : forall ev, synthesis_may_call w ev -> P ev.

Lemma pipeline_sound job_id image_url audio_url temp_dir :
  sound (pipeline w job_id image_url audio_url temp_dir) P is_job_result
        (is_interrupt w).
Proof.
  unfold pipeline.
  eapply sound_bind; [apply download_file_sound, fetch_events |].
  intros [downloaded_image error] H. stage_cases H; [| apply sound_ret; auto with stage].
  eapply sound_bind; [apply download_file_sound, fetch_events |].
  intros [downloaded_audio error] H. stage_cases H; [| apply sound_ret; auto with stage].
  eapply sound_bind.
  { eapply sound_weaken_events;
      [apply generate_video_musetalk_sound | exact synthesis_events]. }
  intros [video_path error] H. stage_cases H; [| apply sound_ret; auto with stage].
  eapply sound_bind; [apply upload_to_s3_sound, publish_events |].
  intros [video_url error] H. stage_cases H; apply sound_ret; auto with stage.
Qed.

Hypothesis acquire_events : forall prefix, P (EvMkdtemp prefix).
Hypothesis release_events : forall dir, P (EvRmtree dir).

Lemma py_get_sound obj key default :
  sound (py_get obj key default) P (fun _ => True) (body_may_raise w).
Proof.
  unfold py_get.
  destruct obj; first [apply sound_ret; exact I | apply sound_raise; right; reflexivity].
Qed.

Lemma cleanup_sound temp_dir E : sound (cleanup w temp_dir) P (fun _ => True) E.
Proof.
  unfold cleanup, rmtree.
  sound_try (fun _ : Exc => True).
  - sound_step; auto. apply sound_remove_dir.
  - apply sound_ret; auto.
  - discriminate Hsel.
Qed.

Lemma handler_body_sound job :
  sound (handler_body w job) P is_job_result (body_may_raise w).
Proof.
  unfold handler_body, mkdtemp.
  eapply sound_bind; [apply py_get_sound | intros job_input _].
  eapply sound_bind; [apply py_get_sound | intros job_id _].
  eapply sound_bind; [apply py_get_sound | intros image_url _].
  destruct (truthy image_url); cbn [negb]; [| apply sound_ret; auto with stage].
  eapply sound_bind; [apply py_get_sound | intros audio_url _].
  destruct (truthy audio_url); cbn [negb]; [| apply sound_ret; auto with stage].
  eapply sound_bind.
  - sound_step; [apply acquire_events | intros e He; left; eauto with stage |].
    eapply sound_bind; [apply sound_create_dir | intros _ _].
    apply sound_ret. exact I.
  - intros temp_dir _. apply sound_try_finally.
    + eapply sound_weaken; [apply pipeline_sound | auto |].
      intros e [He _]. left. exact He.
    + apply cleanup_sound.
Qed.

Lemma handler_sound job : sound (handler w job) P is_job_result (is_interrupt w).
Proof.
  unfold handler. sound_try (body_may_raise w).
  - apply handler_body_sound.
  - apply sound_ret; auto with stage.
  - assert (Hn : is_Exception e = false).
    { eapply escapes_except_Exception; [| eassumption]. cbn. eauto. }
    destruct He as [He | He]; [split; assumption | congruence].
Qed.
End Pipeline.

(* ===================================================================== *)
(** ** Runs of the handler's own steps *)
(* ===================================================================== *)

Lemma cleanup_run w d s :
  cleanup w d s =
    (Ret tt,
     mkState (trace s ++ [EvRmtree d])
       (match rmtree_result w d with
        | inr _ => remove string_dec d (live s)
        | inl _ => live s
        end)).
Proof.
  unfold cleanup, rmtree, try_except, call, bind, emit, remove_dir, raise, ret.
  cbn. destruct (rmtree_result w d); reflexivity.
Qed.

Lemma mkdtemp_run w prefix d s :
  mkdtemp_result w prefix = inr d ->
  mkdtemp w prefix s = (Ret d, mkState (trace s ++ [EvMkdtemp prefix]) (d :: live s)).
Proof.
  intros H. unfold mkdtemp, call, bind, emit, create_dir, ret. cbn.
  rewrite H. reflexivity.
Qed.

(** A job that passes validation: what the handler then runs. *)
Lemma handler_body_validated w items inp s :
  dict_get_or items "input" (VDict []) = VDict inp ->
  truthy (dict_get_or inp "input_image_url" VNone) = true ->
  truthy (dict_get_or inp "input_audio_url" VNone) = true ->
  handler_body w (VDict items) s =
    (temp_dir <- mkdtemp w "musetalk_" ;;
     try_finally
       (pipeline w (dict_get_or items "id" (VStr "unknown"))
          (dict_get_or inp "input_image_url" VNone)
          (dict_get_or inp "input_audio_url" VNone) temp_dir)
       (cleanup w temp_dir)) s.
Proof.
  intros Hin Himg Haud.
  unfold handler_body, py_get at 1 2. unfold bind at 1 2 3. unfold ret at 1 2.
  rewrite Hin. unfold py_get at 1. unfold bind at 1. unfold ret at 1.
  rewrite Himg. cbn [negb].
  unfold py_get at 1. unfold bind at 1. unfold ret at 1.
  rewrite Haud. cbn [negb]. reflexivity.
Qed.

(** A job without a usable image URL, or without a usable audio URL. *)
Lemma handler_rejects_missing_image w items inp s :
  dict_get_or items "input" (VDict []) = VDict inp ->
  truthy (dict_get_or inp "input_image_url" VNone) = false ->
  handler w (VDict items) s = (Ret (error_result "input_image_url is required"), s).
Proof.
  intros Hin Himg.
  unfold handler, try_except, handler_body, py_get at 1 2.
  unfold bind at 1 2 3. unfold ret at 1 2.
  rewrite Hin. unfold py_get at 1. unfold bind at 1. unfold ret at 1.
  rewrite Himg. reflexivity.
Qed.

Lemma handler_rejects_missing_audio w items inp s :
  dict_get_or items "input" (VDict []) = VDict inp ->
  truthy (dict_get_or inp "input_image_url" VNone) = true ->
  truthy (dict_get_or inp "input_audio_url" VNone) = false ->
  handler w (VDict items) s = (Ret (error_result "input_audio_url is required"), s).
Proof.
  intros Hin Himg Haud.
  unfold handler, try_except, handler_body, py_get at 1 2.
  unfold bind at 1 2 3. unfold ret at 1 2.
  rewrite Hin. unfold py_get at 1. unfold bind at 1. unfold ret at 1.
  rewrite Himg. cbn [negb].
  unfold py_get at 1. unfold bind at 1. unfold ret at 1.
  rewrite Haud. reflexivity.
Qed.

(** The outer [try] leaves the state of a run as its body left it. *)
Lemma handler_final w job s : final (handler w job s) = final (handler_body w job s).
Proof.
  unfold handler, try_except, final.
  destruct (handler_body w job s) as [[r | e] s']; cbn; [reflexivity |].
  destruct (except_class Exception e); reflexivity.
Qed.

Lemma handler_outcome w job s :
  outcome (handler w job s) =
    match outcome (handler_body w job s) with
    | Ret r => Ret r
    | Raise e =>
        if is_Exception e then Ret (error_result ("Handler error: " ++ exc_msg e))
        else Raise e
    end.
Proof.
  unfold handler, try_except, outcome.
  destruct (handler_body w job s) as [[r | e] s']; cbn; [reflexivity |].
  unfold except_class. fold (is_Exception e).
  destruct (is_Exception e); reflexivity.
Qed.

(* ===================================================================== *)
(** ** The result of the handler (C1) *)
(* ===================================================================== *)


(** Where every exception the world raises is an [Exception], the handler
    always returns, and what it returns is a job result. *)
Corollary handler_always_returns (w : World) (job : PyVal) (s : State) :
  (forall e, raised_by w e -> is_Exception e = true) ->
  exists r, outcome (handler w job s) = Ret r /\ is_job_result r.
Proof.
  intros Hw.
  destruct (handler_sound (fun _ => True) w
              (fun _ _ _ => I) (fun _ _ => I) (fun _ _ => I)
              (fun _ => I) (fun _ => I) job s) as (_ & _ & _ & H).
  destruct (outcome (handler w job s)) as [r | e].
  - exists r. split; [reflexivity | exact H].
  - destruct H as [Hr He]. rewrite (Hw e Hr) in He. discriminate He.
Qed.


(** A job that is not a dictionary is answered, not raised. *)
Example handler_on_None :
  result_of (handler Scenario.all_good VNone)
    = Ret (error_result "Handler error: 'NoneType' object has no attribute 'get'").
Proof. vm_compute. reflexivity. Qed.

(* ===================================================================== *)
(** ** The scratch directory (C2) *)
(* ===================================================================== *)



(** Also a run that an interrupt cuts short removes its directory before the
    exception leaves [handler]. *)
Example interrupted_run_cleans_up :
  events_of (handler Scenario.interrupted_download (Scenario.job "job-1"))
    = [ EvMkdtemp "musetalk_";
        EvHttpGet (VStr "https://cdn.example/face.png") 60 "/tmp/musetalk_k3x9/input.png";
        EvRmtree "/tmp/musetalk_k3x9" ] /\
  live (final (handler Scenario.interrupted_download (Scenario.job "job-1") init_state)) = [].
Proof. split; vm_compute; reflexivity. Qed.

(** A removal that faults leaves the job's result as it was. *)
Example stuck_workspace_result :
  result_of (handler Scenario.stuck_workspace (Scenario.job "job-1"))
    = result_of (handler Scenario.all_good (Scenario.job "job-1")).
Proof. vm_compute. reflexivity. Qed.

(* ===================================================================== *)
(** ** Validation (C3) *)
(* ===================================================================== *)



(** When both URLs are missing it is the image that is reported. *)
Example both_urls_missing :
  result_of (handler Scenario.all_good (VDict [ ("input", VDict []) ]))
    = Ret (error_result "input_image_url is required").
Proof. vm_compute. reflexivity. Qed.

(* ===================================================================== *)
(** ** Runs of the stages *)
(* ===================================================================== *)

Lemma bind_run {A B} (m : M A) (k : A -> M B) s a s' :
  m s = (Ret a, s') -> bind m k s = k a s'.
Proof. intros H. unfold bind. rewrite H. reflexivity. Qed.

Lemma bind_raise_run {A B} (m : M A) (k : A -> M B) s e s' :
  m s = (Raise e, s') -> bind m k s = (Raise e, s').
Proof. intros H. unfold bind. rewrite H. reflexivity. Qed.

Lemma bind_ret_run {A B} (a : A) (k : A -> M B) s : bind (ret a) k s = k a s.
Proof. reflexivity. Qed.

Lemma bind_assoc_run {A B C} (m : M A) (k : A -> M B) (k' : B -> M C) s :
  bind (bind m k) k' s = bind m (fun a => bind (k a) k') s.
Proof.
  unfold bind. destruct (m s) as [[a | e] s']; reflexivity.
Qed.

Lemma bind_ext_run {A B} (m : M A) (k k' : A -> M B) s :
  (forall a s', k a s' = k' a s') -> bind m k s = bind m k' s.
Proof.
  intros H. unfold bind. destruct (m s) as [[a | e] s']; [apply H | reflexivity].
Qed.

Lemma call_run {A} ev (res : Exc + A) a s :
  res = inr a -> call ev res s = (Ret a, push ev s).
Proof. intros ->. reflexivity. Qed.

Lemma call_raise_run {A} ev (res : Exc + A) e s :
  res = inl e -> call ev res s = (Raise e, push ev s).
Proof. intros ->. reflexivity. Qed.

Lemma try_except_run {A} (body : M A) clauses s a s' :
  body s = (Ret a, s') -> try_except body clauses s = (Ret a, s').
Proof. intros H. unfold try_except. rewrite H. reflexivity. Qed.

Lemma try_finally_cleanup_run {A} w (body : M A) d s o s' :
  body s = (o, s') ->
  try_finally body (cleanup w d) s = (o, final (cleanup w d s')).
Proof.
  intros H. unfold try_finally. rewrite H, cleanup_run. reflexivity.
Qed.

(** The fetch, by what the transfer did. *)
Lemma download_file_done w url local_path size s :
  http_get w url 60 local_path = inr size ->
  download_file w url local_path s
    = (Ret (Some local_path, None), push (EvHttpGet url 60 local_path) s).
Proof.
  intros H. unfold download_file.
  apply try_except_run. erewrite bind_run by (apply call_run; eassumption).
  reflexivity.
Qed.

Lemma download_file_raised w url local_path e s :
  http_get w url 60 local_path = inl e ->
  download_file w url local_path s =
    (if isinstance e Timeout then
       Ret (None, Some "Download timeout after 60 seconds")
     else if isinstance e RequestException then
       Ret (None, Some ("Download failed: " ++ exc_msg e))
     else if isinstance e Exception then
       Ret (None, Some ("Unexpected download error: " ++ exc_msg e))
     else Raise e,
     push (EvHttpGet url 60 local_path) s).
Proof.
  intros H. unfold download_file, try_except.
  erewrite bind_raise_run by (apply call_raise_run; eassumption).
  cbn [select_clause]. unfold except_class.
  destruct (isinstance e Timeout); [reflexivity |].
  destruct (isinstance e RequestException); [reflexivity |].
  destruct (isinstance e Exception); reflexivity.
Qed.

(** The synthesis stage where the models are absent. *)
Lemma generate_video_musetalk_models_missing w image_path audio_path output_path s :
  path_exists w MODEL_DIR = false ->
  generate_video_musetalk w image_path audio_path output_path s
    = (Ret (None, Some "MuseTalk models not found - run model download first"),
       push (EvExists MODEL_DIR) s).
Proof.
  intros H. unfold generate_video_musetalk.
  apply try_except_run.
  erewrite bind_run by (apply call_run; reflexivity).
  rewrite H. reflexivity.
Qed.

(** A validated job in a world that hands out [d]: the run of [handler]
    from the run of its stages. *)
Lemma handler_run w items inp d s o s' :
  dict_get_or items "input" (VDict []) = VDict inp ->
  truthy (dict_get_or inp "input_image_url" VNone) = true ->
  truthy (dict_get_or inp "input_audio_url" VNone) = true ->
  mkdtemp_result w "musetalk_" = inr d ->
  pipeline w (dict_get_or items "id" (VStr "unknown"))
    (dict_get_or inp "input_image_url" VNone)
    (dict_get_or inp "input_audio_url" VNone) d
    (mkState (trace s ++ [EvMkdtemp "musetalk_"]) (d :: live s)) = (Ret o, s') ->
  handler w (VDict items) s = (Ret o, final (cleanup w d s')).
Proof.
  intros Hin Himg Haud Hd Hp.
  unfold handler. apply try_except_run.
  rewrite (handler_body_validated w items inp s Hin Himg Haud).
  erewrite bind_run by (apply mkdtemp_run; eassumption).
  apply try_finally_cleanup_run. exact Hp.
Qed.

(* ===================================================================== *)
(** ** Missing models (C4) *)
(* ===================================================================== *)



(* ===================================================================== *)
(** ** A fetch that times out (C5) *)
(* ===================================================================== *)



(* ===================================================================== *)
(** ** Credentials (C6) *)
(* ===================================================================== *)

Lemma pair_resolves_None w key_name secret_name :
  pair_resolves w key_name secret_name = None ->
  negb (truthy_str (getenv w key_name)) || negb (truthy_str (getenv w secret_name)) = true.
Proof.
  unfold pair_resolves.
  destruct (getenv w key_name) as [k |]; [| reflexivity].
  destruct (getenv w secret_name) as [x |]; [| intros _; apply orb_true_r].
  destruct (truthy_str (Some k)), (truthy_str (Some x)); cbn; congruence.
Qed.

Lemma pair_resolves_Some w key_name secret_name k x :
  pair_resolves w key_name secret_name = Some (k, x) ->
  getenv w key_name = Some k /\ getenv w secret_name = Some x /\
  truthy_str (Some k) = true /\ truthy_str (Some x) = true.
Proof.
  unfold pair_resolves.
  destruct (getenv w key_name) as [k' |]; [| discriminate].
  destruct (getenv w secret_name) as [x' |]; [| discriminate].
  destruct (truthy_str (Some k')) eqn:Hk, (truthy_str (Some x')) eqn:Hx; cbn; try discriminate.
  intros [= <- <-]. auto.
Qed.

(** [upload_to_s3] once both imports went through, with the credentials
    and the endpoint it settles on. *)
Lemma upload_to_s3_with_pair w file_path bucket_name object_name s u1 u2 ep k x :
  import_module w "boto3" = inr u1 ->
  import_module w "botocore.client" = inr u2 ->
  (primary_pair w = Some (k, x) /\ ep = primary_endpoint w) \/
  (primary_pair w = None /\ fallback_pair w = Some (k, x) /\ ep = fallback_endpoint w) ->
  exists o evs,
    upload_to_s3 w file_path bucket_name object_name s
      = (o, mkState (trace s ++ [ EvImport "boto3"; EvImport "botocore.client";
                                  EvS3Client ep k x ] ++ evs) (live s)) /\
    (evs = [] \/ evs = [ EvS3Upload (str_of file_path) bucket_name object_name ]).
Proof.
  intros H1 H2 Hpair.
  unfold upload_to_s3, try_except.
  erewrite bind_run by (apply call_run; eassumption).
  erewrite bind_run by (apply call_run; eassumption).
  fold (primary_endpoint w).
  assert (Hsel :
    (if negb (truthy_str (getenv w "BUCKET_ACCESS_KEY_ID"))
        || negb (truthy_str (getenv w "BUCKET_SECRET_ACCESS_KEY"))
     then (getenv w "RUNPOD_S3_ACCESS_KEY", getenv w "RUNPOD_S3_SECRET_KEY",
           getenv_or w "RUNPOD_S3_ENDPOINT" (primary_endpoint w))
     else (getenv w "BUCKET_ACCESS_KEY_ID", getenv w "BUCKET_SECRET_ACCESS_KEY",
           primary_endpoint w))
    = (Some k, Some x, ep)).
  { destruct Hpair as [(Hp & ->) | (Hp & Hf & ->)].
    - apply pair_resolves_Some in Hp. destruct Hp as (-> & -> & -> & ->). reflexivity.
    - apply pair_resolves_None in Hp. rewrite Hp.
      apply pair_resolves_Some in Hf. destruct Hf as (-> & -> & _ & _). reflexivity. }
  rewrite Hsel.
  assert (Hk : truthy_str (Some k) = true /\ truthy_str (Some x) = true).
  { destruct Hpair as [(Hp & _) | (_ & Hp & _)];
      apply pair_resolves_Some in Hp; tauto. }
  destruct Hk as [-> ->]. cbn [negb orb str_of].
  unfold bind, call, emit, push, raise, ret. cbn.
  destruct (s3_client w ep k x) as [e | []]; cbn.
  - exists (if except_class Exception e
            then Ret (None, Some ("S3 upload failed: " ++ exc_msg e))
            else Raise e), [].
    split; [| left; reflexivity].
    rewrite <- !app_assoc. cbn. destruct (except_class Exception e); reflexivity.
  - destruct (s3_upload_file w ep k x (str_of file_path) bucket_name object_name)
      as [e | []]; cbn.
    + exists (if except_class Exception e
              then Ret (None, Some ("S3 upload failed: " ++ exc_msg e))
              else Raise e), [ EvS3Upload (str_of file_path) bucket_name object_name ].
      split; [| right; reflexivity].
      rewrite <- !app_assoc. cbn. destruct (except_class Exception e); reflexivity.
    + exists (Ret (Some (ep ++ "/" ++ bucket_name ++ "/" ++ object_name), None)),
             [ EvS3Upload (str_of file_path) bucket_name object_name ].
      split; [| right; reflexivity].
      rewrite <- !app_assoc. reflexivity.
Qed.

(** C6, as amended.  Where neither credential pair resolves,
    [upload_to_s3] makes no S3 client and no upload: all it does is (try to)
    import its two libraries; and where those imports succeed it returns
    the error "S3 credentials not configured".  Where the primary pair
    resolves, the client is made with it and with the primary endpoint;
    the fallback pair and endpoint are used only where the primary pair
    does not resolve. *)
Theorem credentials_are_resolved_in_order
    (w : World) (file_path : option string) (bucket_name object_name : string) (s : State) :
  (primary_pair w = None -> fallback_pair w = None ->
   (final (upload_to_s3 w file_path bucket_name object_name s)
      = push (EvImport "boto3") s \/
    final (upload_to_s3 w file_path bucket_name object_name s)
      = push (EvImport "botocore.client") (push (EvImport "boto3") s)) /\
   (forall u1 u2,
      import_module w "boto3" = inr u1 ->
      import_module w "botocore.client" = inr u2 ->
      outcome (upload_to_s3 w file_path bucket_name object_name s)
        = Ret (None, Some "S3 credentials not configured"))) /\
  (forall u1 u2 k x,
     import_module w "boto3" = inr u1 ->
     import_module w "botocore.client" = inr u2 ->
     primary_pair w = Some (k, x) ->
     exists evs,
       trace (final (upload_to_s3 w file_path bucket_name object_name s))
         = (trace s ++ [ EvImport "boto3"; EvImport "botocore.client";
                        EvS3Client (primary_endpoint w) k x ] ++ evs)%list) /\
  (forall u1 u2 k x,
     import_module w "boto3" = inr u1 ->
     import_module w "botocore.client" = inr u2 ->
     primary_pair w = None ->
     fallback_pair w = Some (k, x) ->
     exists evs,
       trace (final (upload_to_s3 w file_path bucket_name object_name s))
         = (trace s ++ [ EvImport "boto3"; EvImport "botocore.client";
                        EvS3Client (fallback_endpoint w) k x ] ++ evs)%list).
Proof.
  split; [| split].
  - intros Hp Hf.
    apply pair_resolves_None in Hp. apply pair_resolves_None in Hf.
    unfold upload_to_s3, try_except, final, outcome.
    destruct (import_module w "boto3") as [e1 | []].
    + erewrite bind_raise_run by (apply call_raise_run; reflexivity).
      split; [left | intros; discriminate].
      cbn [select_clause]. destruct (except_class Exception e1); reflexivity.
    + erewrite bind_run by (apply call_run; reflexivity).
      destruct (import_module w "botocore.client") as [e2 | []].
      * erewrite bind_raise_run by (apply call_raise_run; reflexivity).
        split; [right | intros; discriminate].
        cbn [select_clause]. destruct (except_class Exception e2); reflexivity.
      * erewrite bind_run by (apply call_run; reflexivity).
        rewrite Hp, Hf. cbn. split; [right; reflexivity | intros; reflexivity].
  - intros u1 u2 k x H1 H2 Hp.
    destruct (upload_to_s3_with_pair w file_path bucket_name object_name s
                u1 u2 (primary_endpoint w) k x H1 H2) as (o & evs & Heq & _).
    { left. auto. }
    exists evs. rewrite Heq. reflexivity.
  - intros u1 u2 k x H1 H2 Hp Hf.
    destruct (upload_to_s3_with_pair w file_path bucket_name object_name s
                u1 u2 (fallback_endpoint w) k x H1 H2) as (o & evs & Heq & _).
    { right. auto. }
    exists evs. rewrite Heq. reflexivity.
Qed.

(** The theorem in a world without credentials, and in one where only the
    fallback pair is complete. *)
Lemma credentials_are_resolved_in_order_witness :
  result_of (upload_to_s3 (Scenario.no_credentials Scenario.all_good)
               (Some "/tmp/musetalk_k3x9/output.mp4") "flowsmartly-avatars"
               "musetalk/job-1.mp4")
    = Ret (None, Some "S3 credentials not configured") /\
  exists evs,
    events_of (upload_to_s3 Scenario.runpod_credentials
                 (Some "/tmp/musetalk_k3x9/output.mp4") "flowsmartly-avatars"
                 "musetalk/job-1.mp4")
      = ([ EvImport "boto3"; EvImport "botocore.client";
           EvS3Client "https://s3.runpod.example" "rp-key" "rp-secret" ] ++ evs)%list.
Proof.
  split.
  - exact (proj2 (proj1 (credentials_are_resolved_in_order
                           (Scenario.no_credentials Scenario.all_good)
                           (Some "/tmp/musetalk_k3x9/output.mp4") "flowsmartly-avatars"
                           "musetalk/job-1.mp4" init_state) eq_refl eq_refl)
             tt tt eq_refl eq_refl).
  - exact (proj2 (proj2 (credentials_are_resolved_in_order
                           Scenario.runpod_credentials
                           (Some "/tmp/musetalk_k3x9/output.mp4") "flowsmartly-avatars"
                           "musetalk/job-1.mp4" init_state))
             tt tt "rp-key" "rp-secret" eq_refl eq_refl eq_refl eq_refl).
Defined.

(** C6 as stated fails: with no credential configured and boto3 not
    installed, the error returned is the upload error, not the
    credentials-missing one. *)
Lemma missing_boto3_hides_missing_credentials :
  primary_pair Scenario.no_boto3 = None /\
  fallback_pair Scenario.no_boto3 = None /\
  result_of (upload_to_s3 Scenario.no_boto3 (Some "/tmp/musetalk_k3x9/output.mp4")
               "flowsmartly-avatars" "musetalk/job-1.mp4")
    = Ret (None, Some "S3 upload failed: No module named 'boto3'") /\
  result_of (upload_to_s3 Scenario.no_boto3 (Some "/tmp/musetalk_k3x9/output.mp4")
               "flowsmartly-avatars" "musetalk/job-1.mp4")
    <> Ret (None, Some "S3 credentials not configured").
Proof.
  repeat split; try (vm_compute; reflexivity).
  vm_compute. discriminate.
Qed.

(* ===================================================================== *)
(** ** The fallback strategy (C7, C8) *)
(* ===================================================================== *)

(** The synthesis stage where the models and torch are there and the
    inference script is not: one [ffmpeg] invocation, limited to 60
    seconds, decides. *)
Lemma generate_video_musetalk_fallback w image_path audio_path output_path u1 u2 s :
  path_exists w MODEL_DIR = true ->
  import_module w "torch" = inr u1 ->
  torch_probe w = inr u2 ->
  path_exists w inference_script = false ->
  generate_video_musetalk w image_path audio_path output_path s =
    (match subprocess_run w (ffmpeg_cmd image_path audio_path output_path) 60 with
     | inl e => synthesis_catch e
     | inr result =>
         if negb (returncode result =? 0) then
           match bytes_decode w (stderr result) with
           | inl e => synthesis_catch e
           | inr text => Ret (None, Some ("FFmpeg test video failed: " ++ text))
           end
         else Ret (Some output_path, None)
     end,
     after_fallback_call image_path audio_path output_path s).
Proof.
  intros Hm Ht Hp Hs.
  unfold generate_video_musetalk, after_fallback_call.
  unfold try_except at 1.
  erewrite bind_run by (apply call_run; reflexivity).
  rewrite Hm. cbn [negb].
  unfold try_except at 1.
  erewrite bind_run by (apply call_run; eassumption).
  erewrite bind_run by (apply call_run; eassumption).
  erewrite bind_run by (apply call_run; reflexivity).
  rewrite Hs.
  unfold synthesis_catch, except_class.
  destruct (subprocess_run w (ffmpeg_cmd image_path audio_path output_path) 60)
    as [e | result].
  - erewrite bind_raise_run by (apply call_raise_run; reflexivity).
    cbn [select_clause]. unfold except_class.
    destruct (isinstance e ImportError); [reflexivity |].
    destruct (isinstance e TimeoutExpired); [reflexivity |].
    destruct (isinstance e Exception); reflexivity.
  - erewrite bind_run by (apply call_run; reflexivity).
    destruct (negb (returncode result =? 0)); [| reflexivity].
    unfold bind, lift.
    destruct (bytes_decode w (stderr result)) as [e | text]; [| reflexivity].
    cbn [raise select_clause]. unfold except_class.
    destruct (isinstance e ImportError); [reflexivity |].
    destruct (isinstance e TimeoutExpired); [reflexivity |].
    destruct (isinstance e Exception); reflexivity.
Qed.

(** The address [upload_to_s3] returns is made of the endpoint it settled
    on, the bucket and the object key. *)
Lemma upload_to_s3_returns_url w file_path bucket_name object_name s url :
  outcome (upload_to_s3 w file_path bucket_name object_name s) = Ret (Some url, None) ->
  url = primary_endpoint w ++ "/" ++ bucket_name ++ "/" ++ object_name \/
  url = fallback_endpoint w ++ "/" ++ bucket_name ++ "/" ++ object_name.
Proof.
  assert (H : sound (upload_to_s3 w file_path bucket_name object_name) (fun _ => True)
                (fun r => forall u, fst r = Some u ->
                   u = primary_endpoint w ++ "/" ++ bucket_name ++ "/" ++ object_name \/
                   u = fallback_endpoint w ++ "/" ++ bucket_name ++ "/" ++ object_name)
                (fun _ => True)).
  { unfold upload_to_s3.
    sound_try (fun _ : Exc => True);
      [| apply sound_ret; cbn; intros u Hu; discriminate Hu | exact I].
    repeat sound_step; auto; cbn [fst]; try (intros u Hu; discriminate Hu).
    intros u [= <-].
    match goal with
    | Heq : (if ?c then _ else _) = (_, _, _) |- _ =>
        destruct c; injection Heq as <- <- <-; [right | left]; reflexivity
    end. }
  intros Ho. destruct (H s) as (_ & _ & _ & Hq). rewrite Ho in Hq.
  apply Hq. reflexivity.
Qed.

(** Every sub-process the handler starts for the fallback strategy is
    started in a world without the inference script. *)
Lemma fallback_only_without_script w job s :
  exists evs,
    trace (final (handler w job s)) = (trace s ++ evs)%list /\
    Forall (fun ev => is_fallback_call ev = true -> path_exists w inference_script = false)
           evs.
Proof.
  destruct (handler_sound
              (fun ev => is_fallback_call ev = true -> path_exists w inference_script = false)
              w) with (job := job) (s := s) as (evs & Ht & Hf & _).
  - intros url t dest H. discriminate H.
  - intros ev Hp H. destruct ev; first [discriminate Hp | discriminate H].
  - intros ev (_ & _ & H). exact H.
  - intros prefix H. discriminate H.
  - intros dir H. discriminate H.
  - exists evs. auto.
Qed.

(** C7, as amended.  For a validated job whose inputs were fetched, in a
    world with models and torch but without the inference script, where
    the [ffmpeg] invocation exits with status 0 and the upload of its output
    succeeds with address [url]: [handler] returns the success dictionary
    with that address, which is made of the endpoint, the bucket and the
    key [musetalk/<job id>.mp4].  And in a world where the inference script
    exists, no call of the handler is a fallback invocation. *)
Theorem fallback_is_chosen_only_without_primary :
  (forall (w : World) items inp (d : string) (size_image size_audio : Z) u1 u2
          (done : Completed) (url : string) (s : State),
     dict_get_or items "input" (VDict []) = VDict inp ->
     truthy (dict_get_or inp "input_image_url" VNone) = true ->
     truthy (dict_get_or inp "input_audio_url" VNone) = true ->
     mkdtemp_result w "musetalk_" = inr d ->
     http_get w (dict_get_or inp "input_image_url" VNone) 60 (path_join d "input.png")
       = inr size_image ->
     http_get w (dict_get_or inp "input_audio_url" VNone) 60 (path_join d "input.wav")
       = inr size_audio ->
     path_exists w MODEL_DIR = true ->
     import_module w "torch" = inr u1 ->
     torch_probe w = inr u2 ->
     path_exists w inference_script = false ->
     subprocess_run w
       (ffmpeg_cmd (Some (path_join d "input.png")) (Some (path_join d "input.wav"))
          (path_join d "output.mp4")) 60 = inr done ->
     returncode done = 0 ->
     (forall s',
        outcome (upload_to_s3 w (Some (path_join d "output.mp4"))
                   (getenv_or w "RUNPOD_S3_BUCKET" "flowsmartly-avatars")
                   ("musetalk/" ++ py_str (dict_get_or items "id" (VStr "unknown")) ++ ".mp4")
                   s')
          = Ret (Some url, None)) ->
     outcome (handler w (VDict items) s)
       = Ret (VDict [ ("output_video_url", VStr url);
                      ("status", VStr "completed");
                      ("model", VStr "musetalk");
                      ("job_id", dict_get_or items "id" (VStr "unknown")) ]) /\
     exists endpoint,
       (endpoint = primary_endpoint w \/ endpoint = fallback_endpoint w) /\
       url = endpoint ++ "/" ++ getenv_or w "RUNPOD_S3_BUCKET" "flowsmartly-avatars"
                      ++ "/" ++ "musetalk/"
                      ++ py_str (dict_get_or items "id" (VStr "unknown")) ++ ".mp4") /\
  (forall (w : World) (job : PyVal) (s : State),
     path_exists w inference_script = true ->
     exists evs,
       trace (final (handler w job s)) = (trace s ++ evs)%list /\
       Forall (fun ev => is_fallback_call ev = false) evs).
Proof.
  split.
  - intros w items inp d size_image size_audio u1 u2 done url s
           Hin Himg Haud Hd Hgi Hga Hm Ht Hp Hs Hrun Hrc Hup.
    split.
    + set (s1 := mkState (trace s ++ [EvMkdtemp "musetalk_"]) (d :: live s)).
      set (s4 := after_fallback_call (Some (path_join d "input.png"))
                   (Some (path_join d "input.wav")) (path_join d "output.mp4")
                   (push (EvHttpGet (dict_get_or inp "input_audio_url" VNone) 60
                            (path_join d "input.wav"))
                      (push (EvHttpGet (dict_get_or inp "input_image_url" VNone) 60
                               (path_join d "input.png")) s1))).
      pose proof (Hup s4) as Hup4. unfold outcome in Hup4.
      destruct (upload_to_s3 w (Some (path_join d "output.mp4"))
                  (getenv_or w "RUNPOD_S3_BUCKET" "flowsmartly-avatars")
                  ("musetalk/" ++ py_str (dict_get_or items "id" (VStr "unknown")) ++ ".mp4")
                  s4) as [o s5] eqn:Hrun5.
      cbn [fst] in Hup4. subst o.
      erewrite handler_run with (s' := s5); try eassumption; [reflexivity |].
      unfold pipeline. fold s1.
      erewrite bind_run by (eapply download_file_done; eassumption).
      cbn [truthy_str].
      erewrite bind_run by (eapply download_file_done; eassumption).
      cbn [truthy_str].
      erewrite bind_run.
      2:{ erewrite generate_video_musetalk_fallback by eassumption.
          rewrite Hrun, Hrc. reflexivity. }
      cbn [truthy_str]. fold s4.
      erewrite bind_run by exact Hrun5.
      reflexivity.
    + destruct (upload_to_s3_returns_url _ _ _ _ _ _ (Hup init_state)) as [-> | ->];
        [exists (primary_endpoint w) | exists (fallback_endpoint w)]; auto.
  - intros w job s Hs.
    destruct (fallback_only_without_script w job s) as (evs & Ht & Hf).
    exists evs. split; [exact Ht |].
    eapply Forall_impl; [| exact Hf].
    intros ev H. cbv beta in H.
    destruct (is_fallback_call ev); [| reflexivity].
    rewrite Hs in H. discriminate (H eq_refl).
Qed.

(** The theorem where the inference script is not installed, and where
    everything is. *)
Lemma fallback_is_chosen_only_without_primary_witness :
  result_of (handler Scenario.no_script (Scenario.job "job-1"))
    = Ret (VDict [ ("output_video_url",
                    VStr "https://storage.runpod.io/flowsmartly-avatars/musetalk/job-1.mp4");
                   ("status", VStr "completed");
                   ("model", VStr "musetalk");
                   ("job_id", VStr "job-1") ]) /\
  exists evs,
    events_of (handler Scenario.all_good (Scenario.job "job-1")) = evs /\
    Forall (fun ev => is_fallback_call ev = false) evs.
Proof.
  split.
  - exact (proj1 (proj1 fallback_is_chosen_only_without_primary
                   Scenario.no_script
                   [ ("id", VStr "job-1");
                     ("input", VDict [ ("input_image_url", VStr "https://cdn.example/face.png");
                                       ("input_audio_url", VStr "https://cdn.example/voice.wav") ]) ]
                   [ ("input_image_url", VStr "https://cdn.example/face.png");
                     ("input_audio_url", VStr "https://cdn.example/voice.wav") ]
                   "/tmp/musetalk_k3x9" 2048 2048 tt tt (mkCompleted 0 "")
                   "https://storage.runpod.io/flowsmartly-avatars/musetalk/job-1.mp4"
                   init_state
                   eq_refl eq_refl eq_refl eq_refl eq_refl eq_refl eq_refl eq_refl eq_refl
                   eq_refl eq_refl eq_refl (fun _ => eq_refl))).
  - exact (proj2 fallback_is_chosen_only_without_primary
             Scenario.all_good (Scenario.job "job-1") init_state eq_refl).
Defined.

(** C7 as stated fails: the inference script is absent, [ffmpeg] exits with
    status 0, and the job still ends in an error, because nothing can be
    published without credentials. *)
Lemma fallback_success_is_not_job_success :
  path_exists (Scenario.no_credentials Scenario.no_script) inference_script = false /\
  subprocess_run (Scenario.no_credentials Scenario.no_script)
    (ffmpeg_cmd (Some "/tmp/musetalk_k3x9/input.png") (Some "/tmp/musetalk_k3x9/input.wav")
       "/tmp/musetalk_k3x9/output.mp4") 60 = inr (mkCompleted 0 "") /\
  In (EvSubprocess
        (ffmpeg_cmd (Some "/tmp/musetalk_k3x9/input.png") (Some "/tmp/musetalk_k3x9/input.wav")
           "/tmp/musetalk_k3x9/output.mp4") 60)
     (events_of (handler (Scenario.no_credentials Scenario.no_script) (Scenario.job "job-1"))) /\
  result_of (handler (Scenario.no_credentials Scenario.no_script) (Scenario.job "job-1"))
    = Ret (error_result "S3 credentials not configured") /\
  ~ (exists r,
       result_of (handler (Scenario.no_credentials Scenario.no_script) (Scenario.job "job-1"))
         = Ret r /\ is_success_result r).
Proof.
  split; [reflexivity |]. split; [reflexivity |].
  split; [vm_compute; tauto |]. split; [vm_compute; reflexivity |].
  intros (r & Hr & url & job_id & Hs). vm_compute in Hr. subst r. discriminate Hr.
Qed.

(** C8, as amended.  Where the synthesis stage takes the fallback strategy
    (models and torch present, inference script absent), it starts exactly
    one sub-process, [ffmpeg], with a limit of 60 seconds.  If that process
    exits with a non-zero status, the stage returns
    ["FFmpeg test video failed: <stderr>"] (with the decoded diagnostic
    output), the FallbackFailed error.  If
    the process cannot be started at all (an [Exception] that is neither an
    [ImportError] nor a [TimeoutExpired]), the stage returns the generic
    ["Video generation error: <detail>"]. *)
Theorem fallback_is_bounded_and_reports_exit_status
    (w : World) (image_path audio_path : option string) (output_path : string)
    u1 u2 (s : State) :
  path_exists w MODEL_DIR = true ->
  import_module w "torch" = inr u1 ->
  torch_probe w = inr u2 ->
  path_exists w inference_script = false ->
  trace (final (generate_video_musetalk w image_path audio_path output_path s))
    = (trace s ++
       [ EvExists MODEL_DIR; EvImport "torch"; EvTorchProbe; EvExists inference_script;
         EvSubprocess (ffmpeg_cmd image_path audio_path output_path) 60 ])%list /\
  (forall done text,
     subprocess_run w (ffmpeg_cmd image_path audio_path output_path) 60 = inr done ->
     returncode done <> 0 ->
     bytes_decode w (stderr done) = inr text ->
     outcome (generate_video_musetalk w image_path audio_path output_path s)
       = Ret (None, Some ("FFmpeg test video failed: " ++ text)) /\
     synthesis_error_kind ("FFmpeg test video failed: " ++ text) = Some FallbackFailed) /\
  (forall e,
     subprocess_run w (ffmpeg_cmd image_path audio_path output_path) 60 = inl e ->
     isinstance e Exception = true ->
     isinstance e ImportError = false ->
     isinstance e TimeoutExpired = false ->
     outcome (generate_video_musetalk w image_path audio_path output_path s)
       = Ret (None, Some ("Video generation error: " ++ exc_msg e))).
Proof.
  intros Hm Ht Hp Hs.
  rewrite (generate_video_musetalk_fallback w image_path audio_path output_path u1 u2 s
             Hm Ht Hp Hs).
  unfold final, outcome. cbn [fst snd].
  split; [| split].
  - unfold after_fallback_call, push. cbn [trace]. rewrite <- !app_assoc. reflexivity.
  - intros done text Hrun Hrc Hdec. rewrite Hrun, Hdec.
    apply Z.eqb_neq in Hrc. rewrite Hrc. split; reflexivity.
  - intros e Hrun He Hi Hto. rewrite Hrun. unfold synthesis_catch.
    rewrite Hi, Hto, He. reflexivity.
Qed.

(** The theorem where [ffmpeg] rejects its input. *)
Lemma fallback_is_bounded_and_reports_exit_status_witness :
  events_of (generate_video_musetalk Scenario.failing_ffmpeg
               (Some "/tmp/musetalk_k3x9/input.png") (Some "/tmp/musetalk_k3x9/input.wav")
               "/tmp/musetalk_k3x9/output.mp4")
    = [ EvExists MODEL_DIR; EvImport "torch"; EvTorchProbe; EvExists inference_script;
        EvSubprocess
          (ffmpeg_cmd (Some "/tmp/musetalk_k3x9/input.png")
             (Some "/tmp/musetalk_k3x9/input.wav") "/tmp/musetalk_k3x9/output.mp4") 60 ] /\
  result_of (generate_video_musetalk Scenario.failing_ffmpeg
               (Some "/tmp/musetalk_k3x9/input.png") (Some "/tmp/musetalk_k3x9/input.wav")
               "/tmp/musetalk_k3x9/output.mp4")
    = Ret (None,
           Some "FFmpeg test video failed: input.png: Invalid data found when processing input").
Proof.
  destruct (fallback_is_bounded_and_reports_exit_status Scenario.failing_ffmpeg
              (Some "/tmp/musetalk_k3x9/input.png") (Some "/tmp/musetalk_k3x9/input.wav")
              "/tmp/musetalk_k3x9/output.mp4" tt tt init_state
              eq_refl eq_refl eq_refl eq_refl) as (H1 & H2 & _).
  split; [exact H1 |].
  refine (proj1 (H2 (mkCompleted 1 "input.png: Invalid data found when processing input")
                   "input.png: Invalid data found when processing input"
                   eq_refl _ eq_refl)).
  cbn. discriminate.
Defined.

(** C8 as stated fails: where [ffmpeg] is not installed, the failure of the
    fallback step is reported by the generic error of the stage, which is
    not the FallbackFailed one. *)
Lemma missing_ffmpeg_is_not_reported_as_fallback_failure :
  path_exists Scenario.no_ffmpeg inference_script = false /\
  result_of (generate_video_musetalk Scenario.no_ffmpeg
               (Some "/tmp/musetalk_k3x9/input.png") (Some "/tmp/musetalk_k3x9/input.wav")
               "/tmp/musetalk_k3x9/output.mp4")
    = Ret (None,
           Some "Video generation error: [Errno 2] No such file or directory: 'ffmpeg'") /\
  synthesis_error_kind "Video generation error: [Errno 2] No such file or directory: 'ffmpeg'"
    <> Some FallbackFailed.
Proof.
  split; [reflexivity |]. split; [vm_compute; reflexivity |].
  vm_compute. discriminate.
Qed.

(** A fallback invocation that exceeds its 60 seconds is reported with the
    message of the primary strategy's limit. *)
Example fallback_timeout_message :
  result_of (generate_video_musetalk Scenario.slow_ffmpeg
               (Some "/tmp/musetalk_k3x9/input.png") (Some "/tmp/musetalk_k3x9/input.wav")
               "/tmp/musetalk_k3x9/output.mp4")
    = Ret (None, Some "Video generation timeout (>5 minutes)") /\
  synthesis_error_kind "Video generation timeout (>5 minutes)" = None.
Proof. split; vm_compute; reflexivity. Qed.

(* ===================================================================== *)
(** ** The order of the stages (C9) *)
(* ===================================================================== *)

(** A strict sequence, split in two: the second part starts in the
    context and the state the first part left, and only if the first part
    ended without error. *)
Lemma in_strict_sequence_app (first rest : list Stage) (c : Ctx) (s : State) :
  in_strict_sequence (first ++ rest) c s =
    match in_strict_sequence first c s with
    | (Ret (inr c'), s') => in_strict_sequence rest c' s'
    | (Ret (inl err), s') => (Ret (inl err), s')
    | (Raise e, s') => (Raise e, s')
    end.
Proof.
  revert c s. induction first as [| stage first IH]; intros c s; cbn; [reflexivity |].
  unfold bind. destruct (stage c s) as [[[err | c'] | e] s']; cbn; [reflexivity | | reflexivity].
  apply IH.
Qed.

(** The first stage that ends in an error ends the sequence: the result is
    its error and the state is the one it left, whatever the stages after
    it are. *)
Lemma first_error_ends_sequence (before after : list Stage) (stage : Stage)
    (c c1 : Ctx) (s s1 s2 : State) (err : string) :
  in_strict_sequence before c s = (Ret (inr c1), s1) ->
  stage c1 s1 = (Ret (inl err), s2) ->
  in_strict_sequence (before ++ stage :: after) c s = (Ret (inl err), s2).
Proof.
  intros Hb Hs. rewrite in_strict_sequence_app, Hb. cbn. unfold bind.
  rewrite Hs. reflexivity.
Qed.

(** A stage that runs has all its predecessors behind it, each ended
    without error. *)
Lemma stage_runs_after_predecessors (before after : list Stage) (stage : Stage)
    (c : Ctx) (s : State) :
  match in_strict_sequence before c s with
  | (Ret (inr c1), s1) =>
      in_strict_sequence (before ++ stage :: after) c s =
        match stage c1 s1 with
        | (Ret (inr c2), s2) => in_strict_sequence after c2 s2
        | (Ret (inl err), s2) => (Ret (inl err), s2)
        | (Raise e, s2) => (Raise e, s2)
        end
  | other => in_strict_sequence (before ++ stage :: after) c s = other
  end.
Proof.
  rewrite in_strict_sequence_app.
  destruct (in_strict_sequence before c s) as [[[err | c1] | e] s1]; try reflexivity.
  cbn. unfold bind. destruct (stage c1 s1) as [[[err | c2] | e] s2]; reflexivity.
Qed.

(** The source against the design: the nested tests of [pipeline] are the
    strict sequence of the four stages. *)
Lemma pipeline_is_strict_sequence w job_id image_url audio_url temp_dir s :
  pipeline w job_id image_url audio_url temp_dir s =
    (r <- in_strict_sequence (stages_of_job w job_id image_url audio_url temp_dir) empty_ctx ;;
     ret (result_of_stages job_id r)) s.
Proof.
  unfold pipeline, stages_of_job, in_strict_sequence,
    fetch_image_stage, fetch_audio_stage, synthesize_stage, publish_stage, bind, ret.
  generalize ("musetalk/" ++ py_str job_id ++ ".mp4").
  generalize (getenv_or w "RUNPOD_S3_BUCKET" "flowsmartly-avatars").
  intros bucket key.
  destruct (download_file w image_url (path_join temp_dir "input.png") s)
    as [[[v1 e1] | x] s1]; cbn; [| reflexivity].
  destruct (truthy_str e1); cbn; [reflexivity |].
  destruct (download_file w audio_url (path_join temp_dir "input.wav") s1)
    as [[[v2 e2] | x] s2]; cbn; [| reflexivity].
  destruct (truthy_str e2); cbn; [reflexivity |].
  destruct (generate_video_musetalk w v1 v2 (path_join temp_dir "output.mp4") s2)
    as [[[v3 e3] | x] s3]; cbn; [| reflexivity].
  destruct (truthy_str e3); cbn; [reflexivity |].
  destruct (upload_to_s3 w v3 bucket key s3) as [[[v4 e4] | x] s4]; cbn; [| reflexivity].
  destruct (truthy_str e4); reflexivity.
Qed.

Lemma handler_is_job_controller w job s : handler w job s = job_controller w job s.
Proof.
  unfold handler, job_controller, try_except.
  assert (H : handler_body w job s =
    (v <- validate job ;;
     match v with
     | inl err => ret (error_result err)
     | inr (job_id, image_url, audio_url) =>
         temp_dir <- mkdtemp w "musetalk_" ;;
         try_finally
           (r <- in_strict_sequence (stages_of_job w job_id image_url audio_url temp_dir)
                   empty_ctx ;;
            ret (result_of_stages job_id r))
           (cleanup w temp_dir)
     end) s).
  { unfold handler_body, validate.
    rewrite bind_assoc_run. apply bind_ext_run; intros job_input s1.
    rewrite bind_assoc_run. apply bind_ext_run; intros job_id s2.
    rewrite bind_assoc_run. apply bind_ext_run; intros image_url s3.
    destruct (negb (truthy image_url)); [reflexivity |].
    rewrite bind_assoc_run. apply bind_ext_run; intros audio_url s4.
    destruct (negb (truthy audio_url)); [reflexivity |].
    rewrite bind_ret_run.
    apply bind_ext_run; intros temp_dir s5.
    unfold try_finally. rewrite pipeline_is_strict_sequence. reflexivity. }
  rewrite H. reflexivity.
Qed.

(** The calls of a strict sequence are the calls of its stages, stage after
    stage in the order of the list (a stage that did not run made none). *)
Lemma in_strict_sequence_segments (stages : list Stage) (allowed : list (Event -> Prop)) :
  Forall2 (fun stage P => forall c, sound (stage c) P (fun _ => True) (fun _ => True))
          stages allowed ->
  forall c s, exists segments,
    trace (final (in_strict_sequence stages c s)) = (trace s ++ List.concat segments)%list /\
    Forall2 (fun P segment => Forall P segment) allowed segments.
Proof.
  induction 1 as [| stage P stages allowed Hstage _ IH]; intros c s.
  - exists []. cbn. rewrite app_nil_r. auto.
  - cbn [in_strict_sequence]. unfold bind.
    destruct (Hstage c s) as (evs & Ht & Hp & _).
    unfold final, outcome in *.
    assert (Hnone : Forall2 (fun (Q : Event -> Prop) segment => Forall Q segment)
                      allowed (map (fun _ => []) allowed)).
    { clear. induction allowed; cbn; constructor; auto. }
    assert (Hconcat : forall (l : list (Event -> Prop)),
              List.concat (map (fun _ => @nil Event) l) = []).
    { clear. induction l; cbn; auto. }
    destruct (stage c s) as [[[err | c'] | e] s1]; cbn [fst snd] in *.
    + exists (evs :: map (fun _ => []) allowed). cbn [List.concat ret snd].
      rewrite Hconcat, app_nil_r. split; [exact Ht | constructor; auto].
    + destruct (IH c' s1) as (segments & Ht' & Hf).
      exists (evs :: segments). cbn [List.concat].
      rewrite Ht', Ht, app_assoc. split; [reflexivity | constructor; auto].
    + exists (evs :: map (fun _ => []) allowed). cbn [List.concat ret snd].
      rewrite Hconcat, app_nil_r. split; [exact Ht | constructor; auto].
Qed.

Section StageCalls.
Variable w : World.
Variables job_id image_url audio_url : PyVal.
Variable temp_dir : string.

Lemma after_stage {P : Event -> Prop} (m : M StageResult) (k : StageResult -> string + Ctx) :
  sound m P stage_result_wf (is_interrupt w) ->
  sound ('(value, error) <- m ;; ret (k (value, error))) P (fun _ => True) (fun _ => True).
Proof.
  intros H. eapply sound_bind.
  - eapply sound_weaken; [exact H | intros a Ha; exact Ha | intros; exact I].
  - intros [value error] _. apply sound_ret. exact I.
Qed.

Lemma fetch_image_stage_calls c :
  sound (fetch_image_stage w image_url temp_dir c)
        (fun ev => ev = EvHttpGet image_url 60 (path_join temp_dir "input.png"))
        (fun _ => True) (fun _ => True).
Proof.
  unfold fetch_image_stage.
  apply (after_stage _ (fun r =>
           if truthy_str (snd r)
           then inl ("Failed to download image: " ++ str_of (snd r))
           else inr (mkCtx (fst r) (ctx_audio c) (ctx_video c) (ctx_url c)))).
  apply download_file_sound. reflexivity.
Qed.

Lemma fetch_audio_stage_calls c :
  sound (fetch_audio_stage w audio_url temp_dir c)
        (fun ev => ev = EvHttpGet audio_url 60 (path_join temp_dir "input.wav"))
        (fun _ => True) (fun _ => True).
Proof.
  unfold fetch_audio_stage.
  apply (after_stage _ (fun r =>
           if truthy_str (snd r)
           then inl ("Failed to download audio: " ++ str_of (snd r))
           else inr (mkCtx (ctx_image c) (fst r) (ctx_video c) (ctx_url c)))).
  apply download_file_sound. reflexivity.
Qed.

Lemma synthesize_stage_calls c :
  sound (synthesize_stage w temp_dir c) (synthesis_may_call w) (fun _ => True) (fun _ => True).
Proof.
  unfold synthesize_stage.
  apply (after_stage _ (fun r =>
           if truthy_str (snd r)
           then inl (str_of (snd r))
           else inr (mkCtx (ctx_image c) (ctx_audio c) (fst r) (ctx_url c)))).
  apply generate_video_musetalk_sound.
Qed.

Lemma publish_stage_calls c :
  sound (publish_stage w job_id c) (fun ev => is_publish_event ev = true)
        (fun _ => True) (fun _ => True).
Proof.
  unfold publish_stage.
  apply (after_stage _ (fun r =>
           if truthy_str (snd r)
           then inl (str_of (snd r))
           else inr (mkCtx (ctx_image c) (ctx_audio c) (ctx_video c) (fst r)))).
  apply upload_to_s3_sound. auto.
Qed.
End StageCalls.


(** The sequence cut short: the audio server refuses, and the run makes no
    call for the synthesis or the publication. *)
Example audio_refused :
  let w := set_http_get Scenario.all_good
             (fun url _ _ =>
                match url with
                | VStr "https://cdn.example/voice.wav" =>
                    inl (mkExc HTTPError "403 Client Error: Forbidden for url")
                | _ => inr 2048
                end) in
  result_of (handler w (Scenario.job "job-1"))
    = Ret (error_result
             "Failed to download audio: Download failed: 403 Client Error: Forbidden for url") /\
  events_of (handler w (Scenario.job "job-1"))
    = [ EvMkdtemp "musetalk_";
        EvHttpGet (VStr "https://cdn.example/face.png") 60 "/tmp/musetalk_k3x9/input.png";
        EvHttpGet (VStr "https://cdn.example/voice.wav") 60 "/tmp/musetalk_k3x9/input.wav";
        EvRmtree "/tmp/musetalk_k3x9" ].
Proof. split; vm_compute; reflexivity. Qed.

(* ===================================================================== *)
(** ** A job without an id (C10) *)
(* ===================================================================== *)

Lemma error_result_not_success msg : ~ is_success_result (error_result msg).
Proof. intros (url & job_id & H). discriminate H. Qed.

(** A successful upload made these four calls, the last of them the
    transfer of the file under the given key. *)
Lemma upload_to_s3_success_calls w file_path bucket_name object_name s url s' :
  upload_to_s3 w file_path bucket_name object_name s = (Ret (Some url, None), s') ->
  exists endpoint access_key secret_key,
    trace s' = (trace s ++
                [ EvImport "boto3"; EvImport "botocore.client";
                  EvS3Client endpoint access_key secret_key;
                  EvS3Upload (str_of file_path) bucket_name object_name ])%list.
Proof.
  unfold upload_to_s3, try_except.
  destruct (import_module w "boto3") as [e1 | []].
  { erewrite bind_raise_run by (apply call_raise_run; reflexivity).
    cbn [select_clause]. destruct (except_class Exception e1); discriminate. }
  erewrite bind_run by (apply call_run; reflexivity).
  destruct (import_module w "botocore.client") as [e2 | []].
  { erewrite bind_raise_run by (apply call_raise_run; reflexivity).
    cbn [select_clause]. destruct (except_class Exception e2); discriminate. }
  erewrite bind_run by (apply call_run; reflexivity).
  destruct (if negb (truthy_str (getenv w "BUCKET_ACCESS_KEY_ID"))
               || negb (truthy_str (getenv w "BUCKET_SECRET_ACCESS_KEY"))
            then _ else _) as [[access_key secret_key] endpoint].
  destruct (negb (truthy_str access_key) || negb (truthy_str secret_key)); [discriminate |].
  destruct (s3_client w endpoint (str_of access_key) (str_of secret_key)) as [e3 | []].
  { erewrite bind_raise_run by (apply call_raise_run; reflexivity).
    cbn [select_clause]. destruct (except_class Exception e3); discriminate. }
  erewrite bind_run by (apply call_run; reflexivity).
  destruct (s3_upload_file w endpoint (str_of access_key) (str_of secret_key)
              (str_of file_path) bucket_name object_name) as [e4 | []].
  { erewrite bind_raise_run by (apply call_raise_run; reflexivity).
    cbn [select_clause]. destruct (except_class Exception e4); discriminate. }
  erewrite bind_run by (apply call_run; reflexivity).
  intros [= _ <-]. exists endpoint, (str_of access_key), (str_of secret_key).
  cbn. rewrite <- !app_assoc. reflexivity.
Qed.

(** A successful run of the stages ended with a successful upload under
    the key made of the job id. *)
Lemma pipeline_success_inv w job_id image_url audio_url temp_dir s r s' :
  pipeline w job_id image_url audio_url temp_dir s = (Ret r, s') ->
  is_success_result r ->
  exists url calls file_path,
    r = success_result (Some url) job_id /\
    trace s' = (trace s ++ calls ++
                [ EvS3Upload file_path
                    (getenv_or w "RUNPOD_S3_BUCKET" "flowsmartly-avatars")
                    ("musetalk/" ++ py_str job_id ++ ".mp4") ])%list.
Proof.
  intros Hrun Hok.
  unfold pipeline in Hrun. unfold bind in Hrun.
  destruct (download_file_sound (fun _ => True) w image_url
              (path_join temp_dir "input.png") I s) as (ev1 & Ht1 & _ & _).
  unfold final in Ht1.
  destruct (download_file w image_url (path_join temp_dir "input.png") s)
    as [[[v1 e1] | x] s1]; [| discriminate].
  destruct (truthy_str e1);
    [injection Hrun as <- _; destruct (error_result_not_success _ Hok) |].
  destruct (download_file_sound (fun _ => True) w audio_url
              (path_join temp_dir "input.wav") I s1) as (ev2 & Ht2 & _ & _).
  unfold final in Ht2.
  destruct (download_file w audio_url (path_join temp_dir "input.wav") s1)
    as [[[v2 e2] | x] s2]; [| discriminate].
  destruct (truthy_str e2);
    [injection Hrun as <- _; destruct (error_result_not_success _ Hok) |].
  destruct (generate_video_musetalk_sound w v1 v2 (path_join temp_dir "output.mp4") s2)
    as (ev3 & Ht3 & _ & _).
  unfold final in Ht3.
  destruct (generate_video_musetalk w v1 v2 (path_join temp_dir "output.mp4") s2)
    as [[[v3 e3] | x] s3]; [| discriminate].
  destruct (truthy_str e3);
    [injection Hrun as <- _; destruct (error_result_not_success _ Hok) |].
  destruct (upload_to_s3_sound (fun _ => True) w (fun _ _ => I) v3
              (getenv_or w "RUNPOD_S3_BUCKET" "flowsmartly-avatars")
              ("musetalk/" ++ py_str job_id ++ ".mp4") s3) as (_ & _ & _ & Hwf).
  unfold outcome in Hwf.
  destruct (upload_to_s3 w v3 (getenv_or w "RUNPOD_S3_BUCKET" "flowsmartly-avatars")
              ("musetalk/" ++ py_str job_id ++ ".mp4") s3)
    as [[[v4 e4] | x] s4] eqn:Hup; [| discriminate].
  cbn [fst] in Hwf.
  destruct Hwf as [(url & Heq) | (msg & Heq & Hmsg)]; injection Heq as -> ->.
  - cbn [truthy_str] in Hrun. injection Hrun as <- <-.
    destruct (upload_to_s3_success_calls _ _ _ _ _ _ _ Hup) as (ep & ak & sk & Ht4).
    exists url,
      (ev1 ++ ev2 ++ ev3 ++ [EvImport "boto3"; EvImport "botocore.client"; EvS3Client ep ak sk])%list,
      (str_of v3).
    split; [reflexivity |].
    cbn [snd] in Ht1, Ht2, Ht3.
    rewrite Ht4, Ht3, Ht2, Ht1. rewrite <- !app_assoc. reflexivity.
  - rewrite Hmsg in Hrun. injection Hrun as <- _.
    destruct (error_result_not_success _ Hok).
Qed.

(** A run of [handler] that ends in the success dictionary went through
    validation, got a scratch directory, and ran [pipeline] to a success. *)
Lemma handler_success_inv w items s r :
  outcome (handler w (VDict items) s) = Ret r ->
  is_success_result r ->
  exists inp d s',
    dict_get_or items "input" (VDict []) = VDict inp /\
    mkdtemp_result w "musetalk_" = inr d /\
    pipeline w (dict_get_or items "id" (VStr "unknown"))
      (dict_get_or inp "input_image_url" VNone)
      (dict_get_or inp "input_audio_url" VNone) d
      (mkState (trace s ++ [EvMkdtemp "musetalk_"]) (d :: live s)) = (Ret r, s') /\
    final (handler w (VDict items) s) = final (cleanup w d s').
Proof.
  intros Hrun Hok.
  destruct (dict_get_or items "input" (VDict [])) as [| | | | inp |] eqn:Hin;
    try (exfalso; revert Hrun; unfold handler, try_except, handler_body, py_get, outcome;
         unfold bind at 1; unfold ret at 1; rewrite Hin; cbn;
         intros [= <-]; exact (error_result_not_success _ Hok)).
  destruct (truthy (dict_get_or inp "input_image_url" VNone)) eqn:Himg.
  2:{ exfalso.
      rewrite (handler_rejects_missing_image w items inp s Hin Himg) in Hrun.
      injection Hrun as <-. exact (error_result_not_success _ Hok). }
  destruct (truthy (dict_get_or inp "input_audio_url" VNone)) eqn:Haud.
  2:{ exfalso.
      rewrite (handler_rejects_missing_audio w items inp s Hin Himg Haud) in Hrun.
      injection Hrun as <-. exact (error_result_not_success _ Hok). }
  rewrite handler_outcome in Hrun.
  unfold outcome in Hrun.
  rewrite (handler_body_validated w items inp s Hin Himg Haud) in Hrun.
  destruct (mkdtemp_result w "musetalk_") as [e | d] eqn:Hd.
  { exfalso. revert Hrun. unfold mkdtemp.
    erewrite bind_raise_run.
    2:{ erewrite bind_raise_run by (apply call_raise_run; exact Hd). reflexivity. }
    cbn [fst]. destruct (is_Exception e); [| discriminate].
    intros [= <-]. exact (error_result_not_success _ Hok). }
  erewrite bind_run in Hrun by (apply mkdtemp_run; exact Hd).
  set (s1 := mkState (trace s ++ [EvMkdtemp "musetalk_"]) (d :: live s)) in *.
  destruct (pipeline w (dict_get_or items "id" (VStr "unknown"))
              (dict_get_or inp "input_image_url" VNone)
              (dict_get_or inp "input_audio_url" VNone) d s1) as [o s'] eqn:Hp.
  rewrite (try_finally_cleanup_run w _ d s1 o s' Hp) in Hrun. cbn [fst] in Hrun.
  destruct o as [r' | e].
  - injection Hrun as ->. exists inp, d, s'.
    repeat split; try assumption.
    exact (f_equal snd (handler_run w items inp d s r s' Hin Himg Haud Hd Hp)).
  - exfalso. destruct (is_Exception e); [| discriminate].
    injection Hrun as <-. exact (error_result_not_success _ Hok).
Qed.

(** C10.  A job dictionary without an [id] key is handled exactly as the
    same job with the id ["unknown"]: it is not rejected for that.  If its
    run ends in the success dictionary, the [job_id] of that dictionary is
    ["unknown"], and the last call before the removal of the scratch
    directory is the upload of the artifact under the key
    ["musetalk/unknown.mp4"]. *)
Theorem missing_id_becomes_unknown (w : World) items (s : State) :
  assoc_get items "id" = None ->
  handler w (VDict items) s = handler w (VDict (("id", VStr "unknown") :: items)) s /\
  (forall r,
     outcome (handler w (VDict items) s) = Ret r ->
     is_success_result r ->
     (exists url,
        r = VDict [ ("output_video_url", VStr url);
                    ("status", VStr "completed");
                    ("model", VStr "musetalk");
                    ("job_id", VStr "unknown") ]) /\
     (exists calls file_path bucket temp_dir,
        trace (final (handler w (VDict items) s))
          = (trace s ++ calls ++
             [ EvS3Upload file_path bucket "musetalk/unknown.mp4";
               EvRmtree temp_dir ])%list)).
Proof.
  intros Hid.
  assert (Hunknown : dict_get_or items "id" (VStr "unknown") = VStr "unknown").
  { unfold dict_get_or. rewrite Hid. reflexivity. }
  split.
  - unfold handler, try_except, handler_body.
    unfold py_get at 1 2 5 6.
    rewrite !bind_ret_run.
    change (dict_get_or (("id", VStr "unknown") :: items) "input" (VDict []))
      with (dict_get_or items "input" (VDict [])).
    change (dict_get_or (("id", VStr "unknown") :: items) "id" (VStr "unknown"))
      with (VStr "unknown").
    rewrite Hunknown. reflexivity.
  - intros r Hrun Hok.
    destruct (handler_success_inv w items s r Hrun Hok)
      as (inp & d & s' & Hin & Hd & Hp & Hfinal).
    rewrite Hunknown in Hp.
    destruct (pipeline_success_inv _ _ _ _ _ _ _ _ Hp Hok)
      as (url & calls & file_path & -> & Ht).
    split; [exists url; reflexivity |].
    exists (EvMkdtemp "musetalk_" :: calls), file_path,
      (getenv_or w "RUNPOD_S3_BUCKET" "flowsmartly-avatars"), d.
    rewrite Hfinal, cleanup_run. unfold final. cbn [snd trace].
    rewrite Ht. cbn [trace]. rewrite <- !app_assoc. reflexivity.
Qed.

(** The theorem at a job without id, in the world where all goes well. *)
Lemma missing_id_becomes_unknown_witness :
  result_of (handler Scenario.all_good Scenario.job_without_id)
    = result_of (handler Scenario.all_good (Scenario.job "unknown")) /\
  (exists url,
     result_of (handler Scenario.all_good Scenario.job_without_id)
       = Ret (VDict [ ("output_video_url", VStr url);
                      ("status", VStr "completed");
                      ("model", VStr "musetalk");
                      ("job_id", VStr "unknown") ])) /\
  (exists calls file_path bucket temp_dir,
     events_of (handler Scenario.all_good Scenario.job_without_id)
       = (calls ++ [ EvS3Upload file_path bucket "musetalk/unknown.mp4";
                     EvRmtree temp_dir ])%list).
Proof.
  destruct (missing_id_becomes_unknown Scenario.all_good
              [ ("input", VDict [ ("input_image_url", VStr "https://cdn.example/face.png");
                                  ("input_audio_url", VStr "https://cdn.example/voice.wav") ]) ]
              init_state eq_refl) as [Heq Hsucc].
  split; [exact (f_equal fst Heq) |].
  destruct (Hsucc
              (VDict [ ("output_video_url",
                        VStr "https://storage.runpod.io/flowsmartly-avatars/musetalk/unknown.mp4");
                       ("status", VStr "completed");
                       ("model", VStr "musetalk");
                       ("job_id", VStr "unknown") ])
              eq_refl
              (ex_intro _ "https://storage.runpod.io/flowsmartly-avatars/musetalk/unknown.mp4"
                 (ex_intro _ (VStr "unknown") eq_refl)))
    as [(url & Hurl) Hcalls].
  split.
  - exists url. rewrite <- Hurl. reflexivity.
  - exact Hcalls.
Defined.

(* ===================================================================== *)
(** ** Further properties of the stage functions *)
(* ===================================================================== *)

(** X1.  Each of the three stage functions, in every world and from every
    state, returns a pair of the form [(value, None)] or [(None, message)]
    with a message that [if error:] sees, never any other pair; and the
    only exceptions that leave it are those the world raised that are not
    [Exception]s.  So every [Exception] inside a stage comes back as
    data. *)
Theorem stage_functions_capture_exceptions (w : World) :
  (forall url local_path s,
     match outcome (download_file w url local_path s) with
     | Ret r => stage_result_wf r
     | Raise e => raised_by w e /\ is_Exception e = false
     end) /\
  (forall image_path audio_path output_path s,
     match outcome (generate_video_musetalk w image_path audio_path output_path s) with
     | Ret r => stage_result_wf r
     | Raise e => raised_by w e /\ is_Exception e = false
     end) /\
  (forall file_path bucket_name object_name s,
     match outcome (upload_to_s3 w file_path bucket_name object_name s) with
     | Ret r => stage_result_wf r
     | Raise e => raised_by w e /\ is_Exception e = false
     end).
Proof.
  split; [| split].
  - intros url local_path s.
    destruct (download_file_sound (fun _ => True) w url local_path I s) as (_ & _ & _ & H).
    exact H.
  - intros image_path audio_path output_path s.
    destruct (generate_video_musetalk_sound w image_path audio_path output_path s)
      as (_ & _ & _ & H).
    exact H.
  - intros file_path bucket_name object_name s.
    destruct (upload_to_s3_sound (fun _ => True) w (fun _ _ => I)
                file_path bucket_name object_name s) as (_ & _ & _ & H).
    exact H.
Qed.

(** The state [download_file] leaves: one more call, whatever happened. *)
Lemma download_file_final w url local_path s :
  final (download_file w url local_path s) = push (EvHttpGet url 60 local_path) s.
Proof.
  destruct (http_get w url 60 local_path) as [e | size] eqn:H.
  - rewrite (download_file_raised w url local_path e s H). reflexivity.
  - rewrite (download_file_done w url local_path size s H). reflexivity.
Qed.

Lemma download_file_exception w url local_path e s :
  http_get w url 60 local_path = inl e ->
  is_Exception e = true ->
  download_file w url local_path s
    = (Ret (None, Some (download_error_detail e)), push (EvHttpGet url 60 local_path) s).
Proof.
  intros H He. rewrite (download_file_raised w url local_path e s H).
  unfold download_error_detail. unfold is_Exception in He. rewrite He.
  destruct (isinstance e Timeout); [reflexivity |].
  destruct (isinstance e RequestException); reflexivity.
Qed.

(** X2.  [download_file] makes exactly one request, with a limit of 60
    seconds, and never a second one; it returns the local path exactly when
    that request and the copy to disk went through, and then the path it
    returns is the one it was given. *)
Theorem download_file_makes_one_attempt (w : World) (url : PyVal) (local_path : string)
    (s : State) :
  final (download_file w url local_path s) = push (EvHttpGet url 60 local_path) s /\
  ((exists size, http_get w url 60 local_path = inr size) <->
   outcome (download_file w url local_path s) = Ret (Some local_path, None)) /\
  (forall value,
     outcome (download_file w url local_path s) = Ret (Some value, None) ->
     value = local_path).
Proof.
  split; [apply download_file_final |].
  destruct (http_get w url 60 local_path) as [e | size] eqn:H.
  - rewrite (download_file_raised w url local_path e s H). unfold outcome. cbn [fst].
    assert (Hno : forall value,
              (if isinstance e Timeout
               then Ret ((None, Some "Download timeout after 60 seconds") : StageResult)
               else if isinstance e RequestException
                    then Ret (None, Some ("Download failed: " ++ exc_msg e))
                    else if isinstance e Exception
                         then Ret (None, Some ("Unexpected download error: " ++ exc_msg e))
                         else Raise e)
              = Ret (Some value, None) -> False).
    { intros value. destruct (isinstance e Timeout); [discriminate |].
      destruct (isinstance e RequestException); [discriminate |].
      destruct (isinstance e Exception); discriminate. }
    split.
    + split; [intros [size Hs]; discriminate Hs | intros Hr; destruct (Hno _ Hr)].
    + intros value Hr. destruct (Hno _ Hr).
  - rewrite (download_file_done w url local_path size s H). unfold outcome. cbn [fst].
    split.
    + split; [reflexivity | eauto].
    + intros value [= <-]. reflexivity.
Qed.

(** X3.  For a validated job with a scratch directory: if the image
    transfer raises an [Exception], [handler] returns
    [{error: "Failed to download image: <detail>"}] and calls nothing after
    that transfer but the removal of the directory (the audio is not
    requested); if the image arrives and the audio transfer raises an
    [Exception], it returns [{error: "Failed to download audio: <detail>"}]
    and starts neither synthesis nor upload.  The detail is the time-out
    text for a [Timeout], ["Download failed: ..."] for any other
    [RequestException], ["Unexpected download error: ..."] otherwise. *)
Theorem fetch_failure_is_reported (w : World) items inp (d : string) (s : State) :
  dict_get_or items "input" (VDict []) = VDict inp ->
  truthy (dict_get_or inp "input_image_url" VNone) = true ->
  truthy (dict_get_or inp "input_audio_url" VNone) = true ->
  mkdtemp_result w "musetalk_" = inr d ->
  (forall e,
     http_get w (dict_get_or inp "input_image_url" VNone) 60 (path_join d "input.png")
       = inl e ->
     is_Exception e = true ->
     outcome (handler w (VDict items) s)
       = Ret (error_result ("Failed to download image: " ++ download_error_detail e)) /\
     trace (final (handler w (VDict items) s))
       = (trace s ++
          [ EvMkdtemp "musetalk_";
            EvHttpGet (dict_get_or inp "input_image_url" VNone) 60 (path_join d "input.png");
            EvRmtree d ])%list) /\
  (forall size e,
     http_get w (dict_get_or inp "input_image_url" VNone) 60 (path_join d "input.png")
       = inr size ->
     http_get w (dict_get_or inp "input_audio_url" VNone) 60 (path_join d "input.wav")
       = inl e ->
     is_Exception e = true ->
     outcome (handler w (VDict items) s)
       = Ret (error_result ("Failed to download audio: " ++ download_error_detail e)) /\
     trace (final (handler w (VDict items) s))
       = (trace s ++
          [ EvMkdtemp "musetalk_";
            EvHttpGet (dict_get_or inp "input_image_url" VNone) 60 (path_join d "input.png");
            EvHttpGet (dict_get_or inp "input_audio_url" VNone) 60 (path_join d "input.wav");
            EvRmtree d ])%list).
Proof.
  intros Hin Himg Haud Hd.
  assert (Hdetail : forall e, is_Exception e = true ->
            truthy_str (Some (download_error_detail e)) = true).
  { intros e _. unfold download_error_detail.
    destruct (isinstance e Timeout); [reflexivity |].
    destruct (isinstance e RequestException); reflexivity. }
  split.
  - intros e Hget He.
    erewrite handler_run; try eassumption.
    2:{ unfold pipeline.
        erewrite bind_run by (apply download_file_exception; eassumption).
        cbv beta iota. rewrite (Hdetail e He). reflexivity. }
    rewrite cleanup_run. cbn. rewrite <- !app_assoc. split; reflexivity.
  - intros size e Hgi Hga He.
    erewrite handler_run; try eassumption.
    2:{ unfold pipeline.
        erewrite bind_run by (eapply download_file_done; eassumption).
        cbn [truthy_str].
        erewrite bind_run by (apply download_file_exception; eassumption).
        cbv beta iota. rewrite (Hdetail e He). reflexivity. }
    rewrite cleanup_run. cbn. rewrite <- !app_assoc. split; reflexivity.
Qed.

(** The theorem where the disk is full, and where the audio is not found. *)
Lemma fetch_failure_is_reported_witness :
  result_of (handler Cases.disk_full (Scenario.job "job-1"))
    = Ret (error_result
             "Failed to download image: Unexpected download error: [Errno 28] No space left on device") /\
  result_of (handler Cases.audio_not_found (Scenario.job "job-1"))
    = Ret (error_result
             "Failed to download audio: Download failed: 404 Client Error: Not Found for url").
Proof.
  split.
  - exact (proj1 (proj1 (fetch_failure_is_reported Cases.disk_full
                    [ ("id", VStr "job-1");
                      ("input", VDict [ ("input_image_url", VStr "https://cdn.example/face.png");
                                        ("input_audio_url", VStr "https://cdn.example/voice.wav") ]) ]
                    [ ("input_image_url", VStr "https://cdn.example/face.png");
                      ("input_audio_url", VStr "https://cdn.example/voice.wav") ]
                    "/tmp/musetalk_k3x9" init_state eq_refl eq_refl eq_refl eq_refl)
                  (mkExc OSError "[Errno 28] No space left on device") eq_refl eq_refl)).
  - exact (proj1 (proj2 (fetch_failure_is_reported Cases.audio_not_found
                    [ ("id", VStr "job-1");
                      ("input", VDict [ ("input_image_url", VStr "https://cdn.example/face.png");
                                        ("input_audio_url", VStr "https://cdn.example/voice.wav") ]) ]
                    [ ("input_image_url", VStr "https://cdn.example/face.png");
                      ("input_audio_url", VStr "https://cdn.example/voice.wav") ]
                    "/tmp/musetalk_k3x9" init_state eq_refl eq_refl eq_refl eq_refl)
                  2048 (mkExc HTTPError "404 Client Error: Not Found for url")
                  eq_refl eq_refl eq_refl)).
Defined.

(** An exception raised inside the inner [try] of the synthesis stage, seen
    from outside its two [try] levels. *)
Lemma synthesis_catch_clauses (e : Exc) (s : State) :
  match
    match select_clause
            [ (except_class ImportError,
                fun e0 : Exc => ret ((None, Some ("MuseTalk import failed: " ++ exc_msg e0))
                                       : StageResult)) ] e with
    | Some h => h e s
    | None => (Raise e, s)
    end
  with
  | (Ret a, s') => (Ret a, s')
  | (Raise e', s') =>
      match select_clause
              [ (except_class TimeoutExpired,
                  fun _ : Exc => ret ((None, Some "Video generation timeout (>5 minutes)")
                                        : StageResult));
                (except_class Exception,
                  fun e0 : Exc => ret (None, Some ("Video generation error: " ++ exc_msg e0))) ]
              e' with
      | Some h => h e' s'
      | None => (Raise e', s')
      end
  end = (synthesis_catch e, s).
Proof.
  cbn [select_clause]. unfold synthesis_catch, except_class.
  destruct (isinstance e ImportError); [reflexivity |].
  cbn [select_clause].
  destruct (isinstance e TimeoutExpired); [reflexivity |].
  destruct (isinstance e Exception); reflexivity.
Qed.

(** The synthesis stage where the models, torch and the inference script
    are there: one invocation of the script, limited to 300 seconds, then
    the search for its output and the move of the first file found. *)
Lemma generate_video_musetalk_primary w image_path audio_path output_path u1 u2 s :
  path_exists w MODEL_DIR = true ->
  import_module w "torch" = inr u1 ->
  torch_probe w = inr u2 ->
  path_exists w inference_script = true ->
  let s4 := push (EvSubprocess (inference_cmd image_path audio_path output_path) 300)
              (push (EvExists inference_script)
                 (push EvTorchProbe (push (EvImport "torch") (push (EvExists MODEL_DIR) s)))) in
  let s5 := push (EvGlob (path_parent output_path) "*.mp4") s4 in
  generate_video_musetalk w image_path audio_path output_path s =
    match subprocess_run w (inference_cmd image_path audio_path output_path) 300 with
    | inl e => (synthesis_catch e, s4)
    | inr result =>
        if negb (returncode result =? 0) then
          (Ret (None, Some ("MuseTalk inference failed: " ++ stderr result)), s4)
        else
          match glob_result w (path_parent output_path) "*.mp4" with
          | inl e => (synthesis_catch e, s5)
          | inr [] => (Ret (None, Some "No output video generated"), s5)
          | inr (video :: _) =>
              match move_result w video output_path with
              | inl e => (synthesis_catch e, push (EvMove video output_path) s5)
              | inr _ => (Ret (Some output_path, None), push (EvMove video output_path) s5)
              end
          end
    end.
Proof.
  intros Hm Ht Hp Hs s4 s5. subst s4 s5.
  unfold generate_video_musetalk.
  unfold try_except at 1.
  erewrite bind_run by (apply call_run; reflexivity).
  rewrite Hm. cbn [negb].
  unfold try_except at 1.
  erewrite bind_run by (apply call_run; eassumption).
  erewrite bind_run by (apply call_run; eassumption).
  erewrite bind_run by (apply call_run; reflexivity).
  rewrite Hs.
  destruct (subprocess_run w (inference_cmd image_path audio_path output_path) 300)
    as [e | result].
  { erewrite bind_raise_run by (apply call_raise_run; reflexivity).
    apply synthesis_catch_clauses. }
  erewrite bind_run by (apply call_run; reflexivity).
  destruct (negb (returncode result =? 0)); [reflexivity |].
  destruct (glob_result w (path_parent output_path) "*.mp4") as [e | videos].
  { erewrite bind_raise_run by (apply call_raise_run; reflexivity).
    apply synthesis_catch_clauses. }
  erewrite bind_run by (apply call_run; reflexivity).
  destruct videos as [| video rest]; [reflexivity |].
  destruct (move_result w video output_path) as [e | []].
  { erewrite bind_raise_run by (apply call_raise_run; reflexivity).
    apply synthesis_catch_clauses. }
  erewrite bind_run by (apply call_run; reflexivity).
  reflexivity.
Qed.

(** The synthesis stage where torch cannot be imported or probed. *)
Lemma generate_video_musetalk_no_torch w image_path audio_path output_path s :
  path_exists w MODEL_DIR = true ->
  generate_video_musetalk w image_path audio_path output_path s =
    match import_module w "torch" with
    | inl e => (synthesis_catch e, push (EvImport "torch") (push (EvExists MODEL_DIR) s))
    | inr _ =>
        match torch_probe w with
        | inl e =>
            (synthesis_catch e,
             push EvTorchProbe (push (EvImport "torch") (push (EvExists MODEL_DIR) s)))
        | inr _ => generate_video_musetalk w image_path audio_path output_path s
        end
    end.
Proof.
  intros Hm.
  destruct (import_module w "torch") as [e | u1] eqn:Ht.
  - unfold generate_video_musetalk.
    unfold try_except at 1.
    erewrite bind_run by (apply call_run; reflexivity).
    rewrite Hm. cbn [negb].
    unfold try_except at 1.
    erewrite bind_raise_run by (apply call_raise_run; eassumption).
    apply synthesis_catch_clauses.
  - destruct (torch_probe w) as [e | u2] eqn:Hp; [| reflexivity].
    unfold generate_video_musetalk.
    unfold try_except at 1.
    erewrite bind_run by (apply call_run; reflexivity).
    rewrite Hm. cbn [negb].
    unfold try_except at 1.
    erewrite bind_run by (apply call_run; eassumption).
    erewrite bind_raise_run by (apply call_raise_run; eassumption).
    apply synthesis_catch_clauses.
Qed.

Ltac primary_prefix n video :=
  match goal with
  | |- exists evs v, _ /\ (started_prefix evs (primary_calls ?i ?a ?o v) \/ _) =>
      exists (firstn n (primary_calls i a o video)), video;
      split;
      [ unfold final, push, primary_calls;
        cbn [firstn app trace live snd fst];
        rewrite <- ?app_assoc; reflexivity
      | left; exists n; split; [lia | reflexivity] ]
  end.

(** The calls of the synthesis stage, in every world: a beginning of the
    primary sequence, or the whole fallback sequence; and the stage leaves
    the scratch directories alone. *)
Lemma generate_video_musetalk_calls w image_path audio_path output_path s :
  exists evs video,
    final (generate_video_musetalk w image_path audio_path output_path s)
      = mkState (trace s ++ evs) (live s) /\
    (started_prefix evs (primary_calls image_path audio_path output_path video) \/
     evs = fallback_calls image_path audio_path output_path).
Proof.
  destruct (path_exists w MODEL_DIR) eqn:Hm.
  2:{ rewrite (generate_video_musetalk_models_missing w _ _ _ s Hm).
      primary_prefix 1%nat EmptyString. }
  rewrite (generate_video_musetalk_no_torch w _ _ _ s Hm).
  destruct (import_module w "torch") as [e | u1] eqn:Ht;
    [primary_prefix 2%nat EmptyString |].
  destruct (torch_probe w) as [e | u2] eqn:Hp;
    [primary_prefix 3%nat EmptyString |].
  destruct (path_exists w inference_script) eqn:Hs.
  - rewrite (generate_video_musetalk_primary w _ _ _ u1 u2 s Hm Ht Hp Hs). cbv zeta.
    destruct (subprocess_run w (inference_cmd image_path audio_path output_path) 300)
      as [e | result]; [primary_prefix 5%nat EmptyString |].
    destruct (negb (returncode result =? 0)); [primary_prefix 5%nat EmptyString |].
    destruct (glob_result w (path_parent output_path) "*.mp4") as [e | [| video rest]];
      [primary_prefix 6%nat EmptyString | primary_prefix 6%nat EmptyString |].
    destruct (move_result w video output_path) as [e | u3];
      primary_prefix 7%nat video.
  - rewrite (generate_video_musetalk_fallback w _ _ _ u1 u2 s Hm Ht Hp Hs).
    exists (fallback_calls image_path audio_path output_path), EmptyString.
    split; [| right; reflexivity].
    unfold final, after_fallback_call, push, fallback_calls.
    cbn [app trace live snd]. rewrite <- ?app_assoc. reflexivity.
Qed.

Lemma count_events_app p l1 l2 :
  count_events p (l1 ++ l2) = (count_events p l1 + count_events p l2)%nat.
Proof.
  unfold count_events. rewrite filter_app, length_app. reflexivity.
Qed.

Lemma count_events_firstn p n l : (count_events p (firstn n l) <= count_events p l)%nat.
Proof.
  rewrite <- (firstn_skipn n l) at 2. rewrite count_events_app. lia.
Qed.

(** X4.  In every world the calls of the synthesis stage are a beginning
    (of at least one call) of the primary sequence -- model check, torch
    import, torch probe, script check, inference script, search, move -- or
    the whole fallback sequence, which ends with [ffmpeg].  Hence the stage
    starts at most one sub-process: the fallback is not tried after the
    inference script has failed, and nothing is run twice.  The stage
    creates and removes no scratch directory. *)
Theorem synthesis_starts_at_most_one_subprocess
    (w : World) (image_path audio_path : option string) (output_path : string) (s : State) :
  exists evs video,
    final (generate_video_musetalk w image_path audio_path output_path s)
      = mkState (trace s ++ evs) (live s) /\
    (started_prefix evs (primary_calls image_path audio_path output_path video) \/
     evs = fallback_calls image_path audio_path output_path) /\
    (count_events is_subprocess evs <= 1)%nat.
Proof.
  destruct (generate_video_musetalk_calls w image_path audio_path output_path s)
    as (evs & video & Hfinal & Hshape).
  exists evs, video. split; [exact Hfinal |]. split; [exact Hshape |].
  destruct Hshape as [(n & _ & ->) | ->].
  - etransitivity; [apply count_events_firstn |]. cbn. lia.
  - cbn. lia.
Qed.

(** X5.  The primary strategy (models, torch and inference script present):
    the script is started once with a limit of 300 seconds.  A non-zero exit
    status gives ["MuseTalk inference failed: <stderr>"] and no search for
    output.  An exit status 0 with no [*.mp4] in the result directory gives
    ["No output video generated"] and nothing is moved.  With at least one
    file found, the first one is moved to the output path, and if the move
    goes through the stage returns the output path. *)
Theorem primary_strategy_outcomes
    (w : World) (image_path audio_path : option string) (output_path : string)
    u1 u2 (result : Completed) (s : State) :
  path_exists w MODEL_DIR = true ->
  import_module w "torch" = inr u1 ->
  torch_probe w = inr u2 ->
  path_exists w inference_script = true ->
  subprocess_run w (inference_cmd image_path audio_path output_path) 300 = inr result ->
  let run := generate_video_musetalk w image_path audio_path output_path s in
  let started :=
    (trace s ++
     [ EvExists MODEL_DIR; EvImport "torch"; EvTorchProbe; EvExists inference_script;
       EvSubprocess (inference_cmd image_path audio_path output_path) 300 ])%list in
  (returncode result <> 0 ->
   outcome run = Ret (None, Some ("MuseTalk inference failed: " ++ stderr result)) /\
   trace (final run) = started) /\
  (returncode result = 0 ->
   glob_result w (path_parent output_path) "*.mp4" = inr [] ->
   outcome run = Ret (None, Some "No output video generated") /\
   trace (final run) = (started ++ [ EvGlob (path_parent output_path) "*.mp4" ])%list) /\
  (forall video rest u3,
     returncode result = 0 ->
     glob_result w (path_parent output_path) "*.mp4" = inr (video :: rest) ->
     move_result w video output_path = inr u3 ->
     outcome run = Ret (Some output_path, None) /\
     trace (final run)
       = (started ++ [ EvGlob (path_parent output_path) "*.mp4";
                       EvMove video output_path ])%list).
Proof.
  intros Hm Ht Hp Hs Hrun run started. subst run started.
  rewrite (generate_video_musetalk_primary w _ _ _ u1 u2 s Hm Ht Hp Hs). cbv zeta.
  rewrite Hrun. unfold outcome, final, push.
  split; [| split].
  - intros Hrc. apply Z.eqb_neq in Hrc. rewrite Hrc. cbn.
    rewrite <- !app_assoc. split; reflexivity.
  - intros Hrc Hglob. rewrite Hrc, Hglob. cbn.
    rewrite <- !app_assoc. split; reflexivity.
  - intros video rest u3 Hrc Hglob Hmove. rewrite Hrc, Hglob, Hmove. cbn.
    rewrite <- !app_assoc. split; reflexivity.
Qed.

(** The theorem where the script fails, and where it leaves no video. *)
Lemma primary_strategy_outcomes_witness :
  result_of (generate_video_musetalk Cases.failing_inference
               (Some "/tmp/musetalk_k3x9/input.png") (Some "/tmp/musetalk_k3x9/input.wav")
               "/tmp/musetalk_k3x9/output.mp4")
    = Ret (None, Some "MuseTalk inference failed: RuntimeError: CUDA out of memory") /\
  result_of (generate_video_musetalk Cases.silent_inference
               (Some "/tmp/musetalk_k3x9/input.png") (Some "/tmp/musetalk_k3x9/input.wav")
               "/tmp/musetalk_k3x9/output.mp4")
    = Ret (None, Some "No output video generated") /\
  result_of (generate_video_musetalk Scenario.all_good
               (Some "/tmp/musetalk_k3x9/input.png") (Some "/tmp/musetalk_k3x9/input.wav")
               "/tmp/musetalk_k3x9/output.mp4")
    = Ret (Some "/tmp/musetalk_k3x9/output.mp4", None).
Proof.
  split; [| split].
  - refine (proj1 (proj1 (primary_strategy_outcomes Cases.failing_inference
                     (Some "/tmp/musetalk_k3x9/input.png")
                     (Some "/tmp/musetalk_k3x9/input.wav")
                     "/tmp/musetalk_k3x9/output.mp4" tt tt
                     (mkCompleted 1 "RuntimeError: CUDA out of memory") init_state
                     eq_refl eq_refl eq_refl eq_refl eq_refl) _)).
    cbn. discriminate.
  - exact (proj1 (proj1 (proj2 (primary_strategy_outcomes Cases.silent_inference
                     (Some "/tmp/musetalk_k3x9/input.png")
                     (Some "/tmp/musetalk_k3x9/input.wav")
                     "/tmp/musetalk_k3x9/output.mp4" tt tt
                     (mkCompleted 0 "") init_state
                     eq_refl eq_refl eq_refl eq_refl eq_refl)) eq_refl eq_refl)).
  - exact (proj1 (proj2 (proj2 (primary_strategy_outcomes Scenario.all_good
                     (Some "/tmp/musetalk_k3x9/input.png")
                     (Some "/tmp/musetalk_k3x9/input.wav")
                     "/tmp/musetalk_k3x9/output.mp4" tt tt
                     (mkCompleted 0 "") init_state
                     eq_refl eq_refl eq_refl eq_refl eq_refl))
                   "/tmp/musetalk_k3x9/result.mp4" [] tt eq_refl eq_refl eq_refl)).
Defined.

(** X6.  Where the models are present and [import torch] raises an
    [ImportError] (torch is not installed), the synthesis stage returns
    ["MuseTalk import failed: <detail>"] right after the import: neither
    the inference script nor [ffmpeg] is started, whether or not the script
    exists -- the fallback, too, is out of reach without torch. *)
Theorem torch_is_needed_by_both_strategies
    (w : World) (image_path audio_path : option string) (output_path : string)
    (e : Exc) (s : State) :
  path_exists w MODEL_DIR = true ->
  import_module w "torch" = inl e ->
  isinstance e ImportError = true ->
  generate_video_musetalk w image_path audio_path output_path s
    = (Ret (None, Some ("MuseTalk import failed: " ++ exc_msg e)),
       push (EvImport "torch") (push (EvExists MODEL_DIR) s)).
Proof.
  intros Hm Ht He.
  rewrite (generate_video_musetalk_no_torch w _ _ _ s Hm), Ht.
  unfold synthesis_catch. rewrite He. reflexivity.
Qed.

Lemma torch_is_needed_by_both_strategies_witness :
  generate_video_musetalk Cases.no_torch
    (Some "/tmp/musetalk_k3x9/input.png") (Some "/tmp/musetalk_k3x9/input.wav")
    "/tmp/musetalk_k3x9/output.mp4" init_state
    = (Ret (None, Some "MuseTalk import failed: No module named 'torch'"),
       push (EvImport "torch") (push (EvExists MODEL_DIR) init_state)).
Proof.
  exact (torch_is_needed_by_both_strategies Cases.no_torch
           (Some "/tmp/musetalk_k3x9/input.png") (Some "/tmp/musetalk_k3x9/input.wav")
           "/tmp/musetalk_k3x9/output.mp4"
           (mkExc ModuleNotFoundError "No module named 'torch'") init_state
           eq_refl eq_refl eq_refl).
Defined.

Lemma timeout_is_not_import_error e :
  isinstance e TimeoutExpired = true -> isinstance e ImportError = false.
Proof.
  destruct e as [c msg]. destruct c; cbn; intros H; first [discriminate H | reflexivity].
Qed.

(** X7.  A sub-process of the synthesis stage that runs into its limit is
    reported by one and the same message in both strategies:
    ["Video generation timeout (>5 minutes)"], for the inference script
    (limit 300 seconds) and for [ffmpeg] (limit 60 seconds) alike. *)
Theorem subprocess_timeout_has_one_message
    (w : World) (image_path audio_path : option string) (output_path : string)
    u1 u2 (e : Exc) (s : State) :
  path_exists w MODEL_DIR = true ->
  import_module w "torch" = inr u1 ->
  torch_probe w = inr u2 ->
  isinstance e TimeoutExpired = true ->
  (path_exists w inference_script = true ->
   subprocess_run w (inference_cmd image_path audio_path output_path) 300 = inl e ->
   outcome (generate_video_musetalk w image_path audio_path output_path s)
     = Ret (None, Some "Video generation timeout (>5 minutes)")) /\
  (path_exists w inference_script = false ->
   subprocess_run w (ffmpeg_cmd image_path audio_path output_path) 60 = inl e ->
   outcome (generate_video_musetalk w image_path audio_path output_path s)
     = Ret (None, Some "Video generation timeout (>5 minutes)")).
Proof.
  intros Hm Ht Hp He.
  pose proof (timeout_is_not_import_error e He) as Hi.
  split; intros Hs Hrun.
  - rewrite (generate_video_musetalk_primary w _ _ _ u1 u2 s Hm Ht Hp Hs). cbv zeta.
    rewrite Hrun. unfold synthesis_catch. rewrite Hi, He. reflexivity.
  - rewrite (generate_video_musetalk_fallback w _ _ _ u1 u2 s Hm Ht Hp Hs).
    rewrite Hrun. unfold synthesis_catch. rewrite Hi, He. reflexivity.
Qed.

Lemma subprocess_timeout_has_one_message_witness :
  result_of (generate_video_musetalk Cases.slow_inference
               (Some "/tmp/musetalk_k3x9/input.png") (Some "/tmp/musetalk_k3x9/input.wav")
               "/tmp/musetalk_k3x9/output.mp4")
    = Ret (None, Some "Video generation timeout (>5 minutes)") /\
  result_of (generate_video_musetalk Scenario.slow_ffmpeg
               (Some "/tmp/musetalk_k3x9/input.png") (Some "/tmp/musetalk_k3x9/input.wav")
               "/tmp/musetalk_k3x9/output.mp4")
    = Ret (None, Some "Video generation timeout (>5 minutes)").
Proof.
  split.
  - exact (proj1 (subprocess_timeout_has_one_message Cases.slow_inference
                    (Some "/tmp/musetalk_k3x9/input.png")
                    (Some "/tmp/musetalk_k3x9/input.wav")
                    "/tmp/musetalk_k3x9/output.mp4" tt tt
                    (mkExc TimeoutExpired
                       ("Command '['python', ...]' timed out after " ++ string_of_Z 300
                        ++ " seconds"))
                    init_state eq_refl eq_refl eq_refl eq_refl) eq_refl eq_refl).
  - exact (proj2 (subprocess_timeout_has_one_message Scenario.slow_ffmpeg
                    (Some "/tmp/musetalk_k3x9/input.png")
                    (Some "/tmp/musetalk_k3x9/input.wav")
                    "/tmp/musetalk_k3x9/output.mp4" tt tt
                    (mkExc TimeoutExpired
                       ("Command '['ffmpeg', ...]' timed out after " ++ string_of_Z 60
                        ++ " seconds"))
                    init_state eq_refl eq_refl eq_refl eq_refl) eq_refl eq_refl).
Defined.

(* ===================================================================== *)
(** ** Further properties of the upload *)
(* ===================================================================== *)

(** [upload_to_s3], call by call. *)
Lemma upload_to_s3_run w file_path bucket_name object_name s :
  let s1 := push (EvImport "boto3") s in
  let s2 := push (EvImport "botocore.client") s1 in
  upload_to_s3 w file_path bucket_name object_name s =
    match import_module w "boto3" with
    | inl e => (upload_catch e, s1)
    | inr _ =>
        match import_module w "botocore.client" with
        | inl e => (upload_catch e, s2)
        | inr _ =>
            match resolved_credentials w with
            | None => (Ret (None, Some "S3 credentials not configured"), s2)
            | Some (ep, k, x) =>
                let s3 := push (EvS3Client ep k x) s2 in
                match s3_client w ep k x with
                | inl e => (upload_catch e, s3)
                | inr _ =>
                    let s4 := push (EvS3Upload (str_of file_path) bucket_name object_name) s3 in
                    match s3_upload_file w ep k x (str_of file_path) bucket_name object_name with
                    | inl e => (upload_catch e, s4)
                    | inr _ =>
                        (Ret (Some (ep ++ "/" ++ bucket_name ++ "/" ++ object_name), None), s4)
                    end
                end
            end
        end
    end.
Proof.
  cbv zeta.
  assert (Hcatch : forall e s',
    match select_clause
            [ (except_class Exception,
                fun e0 : Exc => ret ((None, Some ("S3 upload failed: " ++ exc_msg e0))
                                       : StageResult)) ] e with
    | Some h => h e s'
    | None => (Raise e, s')
    end = (upload_catch e, s')).
  { intros e s'. cbn [select_clause]. unfold upload_catch, except_class.
    destruct (isinstance e Exception); reflexivity. }
  unfold upload_to_s3, try_except.
  destruct (import_module w "boto3") as [e1 | u1].
  { erewrite bind_raise_run by (apply call_raise_run; reflexivity). apply Hcatch. }
  erewrite bind_run by (apply call_run; reflexivity).
  destruct (import_module w "botocore.client") as [e2 | u2].
  { erewrite bind_raise_run by (apply call_raise_run; reflexivity). apply Hcatch. }
  erewrite bind_run by (apply call_run; reflexivity).
  fold (primary_endpoint w). fold (fallback_endpoint w).
  unfold resolved_credentials.
  destruct (primary_pair w) as [[k x] |] eqn:Hp.
  - apply pair_resolves_Some in Hp. destruct Hp as (Hk & Hx & Htk & Htx).
    rewrite Hk, Hx, Htk, Htx. cbn [negb orb]. cbv beta iota.
    rewrite Htk, Htx. cbn [negb orb str_of].
    destruct (s3_client w (primary_endpoint w) k x) as [e | u3].
    { erewrite bind_raise_run by (apply call_raise_run; reflexivity). apply Hcatch. }
    erewrite bind_run by (apply call_run; reflexivity).
    destruct (s3_upload_file w (primary_endpoint w) k x (str_of file_path)
                bucket_name object_name) as [e | u4].
    { erewrite bind_raise_run by (apply call_raise_run; reflexivity). apply Hcatch. }
    erewrite bind_run by (apply call_run; reflexivity). reflexivity.
  - apply pair_resolves_None in Hp. rewrite Hp.
    destruct (fallback_pair w) as [[k x] |] eqn:Hf.
    + apply pair_resolves_Some in Hf. destruct Hf as (Hk & Hx & Htk & Htx).
      rewrite Hk, Hx. cbv beta iota.
      rewrite Htk, Htx. cbn [negb orb str_of].
      destruct (s3_client w (fallback_endpoint w) k x) as [e | u3].
      { erewrite bind_raise_run by (apply call_raise_run; reflexivity). apply Hcatch. }
      erewrite bind_run by (apply call_run; reflexivity).
      destruct (s3_upload_file w (fallback_endpoint w) k x (str_of file_path)
                  bucket_name object_name) as [e | u4].
      { erewrite bind_raise_run by (apply call_raise_run; reflexivity). apply Hcatch. }
      erewrite bind_run by (apply call_run; reflexivity). reflexivity.
    + pose proof (pair_resolves_None _ _ _ Hf) as Hf'. cbv beta iota.
      rewrite Hf'. reflexivity.
Qed.

(** The calls of [upload_to_s3], in every world: a beginning of its
    sequence of four; it leaves the scratch directories alone. *)
Lemma upload_to_s3_calls w file_path bucket_name object_name s :
  exists evs ep k x,
    final (upload_to_s3 w file_path bucket_name object_name s)
      = mkState (trace s ++ evs) (live s) /\
    started_prefix evs (upload_calls ep k x file_path bucket_name object_name).
Proof.
  rewrite upload_to_s3_run. cbv zeta.
  assert (Hshape : forall n ep k x, (1 <= n)%nat ->
            exists evs ep' k' x',
              mkState (trace s ++ firstn n (upload_calls ep k x file_path bucket_name
                                              object_name)) (live s)
                = mkState (trace s ++ evs) (live s) /\
              started_prefix evs (upload_calls ep' k' x' file_path bucket_name object_name)).
  { intros n ep k x Hn. eexists; exists ep, k, x. split; [reflexivity |]. exists n. auto. }
  destruct (import_module w "boto3") as [e1 | u1].
  { destruct (Hshape 1%nat EmptyString EmptyString EmptyString) as (evs & ep & k & x & H1 & H2);
      [lia |].
    exists evs, ep, k, x. split; [| exact H2]. rewrite <- H1. reflexivity. }
  destruct (import_module w "botocore.client") as [e2 | u2].
  { destruct (Hshape 2%nat EmptyString EmptyString EmptyString) as (evs & ep & k & x & H1 & H2);
      [lia |].
    exists evs, ep, k, x. split; [| exact H2]. rewrite <- H1.
    unfold final, push. cbn. rewrite <- !app_assoc. reflexivity. }
  destruct (resolved_credentials w) as [[[ep k] x] |].
  2:{ destruct (Hshape 2%nat EmptyString EmptyString EmptyString) as (evs & ep & k & x & H1 & H2);
        [lia |].
      exists evs, ep, k, x. split; [| exact H2]. rewrite <- H1.
      unfold final, push. cbn. rewrite <- !app_assoc. reflexivity. }
  destruct (s3_client w ep k x) as [e3 | u3].
  { destruct (Hshape 3%nat ep k x) as (evs & ep' & k' & x' & H1 & H2); [lia |].
    exists evs, ep', k', x'. split; [| exact H2]. rewrite <- H1.
    unfold final, push. cbn. rewrite <- !app_assoc. reflexivity. }
  destruct (Hshape 4%nat ep k x) as (evs & ep' & k' & x' & H1 & H2); [lia |].
  exists evs, ep', k', x'. split; [| exact H2]. rewrite <- H1.
  destruct (s3_upload_file w ep k x (str_of file_path) bucket_name object_name);
    unfold final, push; cbn; rewrite <- !app_assoc; reflexivity.
Qed.

(** A returned address, traced back. *)
Lemma upload_to_s3_inv
    (w : World) (file_path : option string) (bucket_name object_name : string)
    (s s' : State) (url : string) :
  upload_to_s3 w file_path bucket_name object_name s = (Ret (Some url, None), s') ->
  exists ep k x u3 u4,
    resolved_credentials w = Some (ep, k, x) /\
    s3_client w ep k x = inr u3 /\
    s3_upload_file w ep k x (str_of file_path) bucket_name object_name = inr u4 /\
    url = ep ++ "/" ++ bucket_name ++ "/" ++ object_name /\
    s' = mkState (trace s ++ upload_calls ep k x file_path bucket_name object_name) (live s).
Proof.
  rewrite upload_to_s3_run. cbv zeta.
  assert (Hcatch : forall e st, (upload_catch e, st) = (Ret (Some url, None), s') -> False).
  { intros e st. unfold upload_catch. destruct (isinstance e Exception); discriminate. }
  destruct (import_module w "boto3") as [e1 | u1]; [intros H; destruct (Hcatch _ _ H) |].
  destruct (import_module w "botocore.client") as [e2 | u2];
    [intros H; destruct (Hcatch _ _ H) |].
  destruct (resolved_credentials w) as [[[ep k] x] |]; [| discriminate].
  destruct (s3_client w ep k x) as [e3 | u3] eqn:Hc; [intros H; destruct (Hcatch _ _ H) |].
  destruct (s3_upload_file w ep k x (str_of file_path) bucket_name object_name)
    as [e4 | u4] eqn:Hu; [intros H; destruct (Hcatch _ _ H) |].
  intros [= <- <-]. exists ep, k, x, u3, u4.
  repeat split; try assumption.
  unfold push, upload_calls. cbn. rewrite <- !app_assoc. reflexivity.
Qed.


(** X8.  [upload_to_s3] returns an address only after these four calls, in
    this order, all went through: the two imports, the making of the client
    for the endpoint and the credential pair it settled on, and the
    transfer of the file under the given bucket and key.  The address is
    that endpoint, bucket and key joined by slashes. *)
Theorem upload_returns_url_only_after_transfer
    (w : World) (file_path : option string) (bucket_name object_name : string)
    (s s' : State) (url : string) :
  upload_to_s3 w file_path bucket_name object_name s = (Ret (Some url, None), s') ->
  exists ep k x u3 u4,
    resolved_credentials w = Some (ep, k, x) /\
    s3_client w ep k x = inr u3 /\
    s3_upload_file w ep k x (str_of file_path) bucket_name object_name = inr u4 /\
    url = ep ++ "/" ++ bucket_name ++ "/" ++ object_name /\
    s' = mkState (trace s ++ upload_calls ep k x file_path bucket_name object_name) (live s).
Proof.
  apply upload_to_s3_inv.
Qed.

Lemma upload_returns_url_only_after_transfer_witness :
  exists ep k x u3 u4,
    resolved_credentials Scenario.runpod_credentials = Some (ep, k, x) /\
    s3_client Scenario.runpod_credentials ep k x = inr u3 /\
    s3_upload_file Scenario.runpod_credentials ep k x "/tmp/musetalk_k3x9/output.mp4"
      "flowsmartly-avatars" "musetalk/job-1.mp4" = inr u4 /\
    "https://s3.runpod.example/flowsmartly-avatars/musetalk/job-1.mp4"
      = ep ++ "/" ++ "flowsmartly-avatars" ++ "/" ++ "musetalk/job-1.mp4" /\
    final (upload_to_s3 Scenario.runpod_credentials (Some "/tmp/musetalk_k3x9/output.mp4")
             "flowsmartly-avatars" "musetalk/job-1.mp4" init_state)
      = mkState (trace init_state ++
                 upload_calls ep k x (Some "/tmp/musetalk_k3x9/output.mp4")
                   "flowsmartly-avatars" "musetalk/job-1.mp4") (live init_state).
Proof.
  exact (upload_returns_url_only_after_transfer Scenario.runpod_credentials
           (Some "/tmp/musetalk_k3x9/output.mp4") "flowsmartly-avatars" "musetalk/job-1.mp4"
           init_state
           (final (upload_to_s3 Scenario.runpod_credentials
                     (Some "/tmp/musetalk_k3x9/output.mp4")
                     "flowsmartly-avatars" "musetalk/job-1.mp4" init_state))
           "https://s3.runpod.example/flowsmartly-avatars/musetalk/job-1.mp4"
           eq_refl).
Defined.

(** X9.  With the libraries imported and credentials resolved, an
    [Exception] raised while the client is made, or by the transfer, comes
    back as ["S3 upload failed: <detail>"] and no address is returned; in
    the first case the transfer is not attempted. *)
Theorem upload_fault_is_reported
    (w : World) (file_path : option string) (bucket_name object_name : string)
    u1 u2 (ep k x : string) (e : Exc) (s : State) :
  import_module w "boto3" = inr u1 ->
  import_module w "botocore.client" = inr u2 ->
  resolved_credentials w = Some (ep, k, x) ->
  is_Exception e = true ->
  (s3_client w ep k x = inl e ->
   upload_to_s3 w file_path bucket_name object_name s
     = (Ret (None, Some ("S3 upload failed: " ++ exc_msg e)),
        mkState (trace s ++ [ EvImport "boto3"; EvImport "botocore.client";
                              EvS3Client ep k x ]) (live s))) /\
  (forall u3,
     s3_client w ep k x = inr u3 ->
     s3_upload_file w ep k x (str_of file_path) bucket_name object_name = inl e ->
     upload_to_s3 w file_path bucket_name object_name s
       = (Ret (None, Some ("S3 upload failed: " ++ exc_msg e)),
          mkState (trace s ++ upload_calls ep k x file_path bucket_name object_name)
            (live s))).
Proof.
  intros H1 H2 Hr He.
  rewrite upload_to_s3_run. cbv zeta. rewrite H1, H2, Hr.
  unfold is_Exception in He.
  split.
  - intros Hc. rewrite Hc. unfold upload_catch. rewrite He.
    unfold push. cbn. rewrite <- !app_assoc. reflexivity.
  - intros u3 Hc Hu. rewrite Hc, Hu. unfold upload_catch. rewrite He.
    unfold push, upload_calls. cbn. rewrite <- !app_assoc. reflexivity.
Qed.

Lemma upload_fault_is_reported_witness :
  result_of (upload_to_s3 Cases.refused_upload (Some "/tmp/musetalk_k3x9/output.mp4")
               "flowsmartly-avatars" "musetalk/job-1.mp4")
    = Ret (None,
           Some "S3 upload failed: Failed to upload /tmp/musetalk_k3x9/output.mp4: AccessDenied").
Proof.
  exact (f_equal fst
           (proj2 (upload_fault_is_reported Cases.refused_upload
                     (Some "/tmp/musetalk_k3x9/output.mp4") "flowsmartly-avatars"
                     "musetalk/job-1.mp4" tt tt "https://storage.runpod.io" "AKIA" "s3cr3t"
                     (mkExc S3UploadFailedError
                        "Failed to upload /tmp/musetalk_k3x9/output.mp4: AccessDenied")
                     init_state eq_refl eq_refl eq_refl eq_refl)
                  tt eq_refl eq_refl)).
Defined.

(** With its libraries imported, [upload_to_s3] answers "S3 credentials
    not configured" exactly where no pair resolves. *)
Lemma upload_reports_missing_credentials_iff w file_path bucket_name object_name s u1 u2 :
  import_module w "boto3" = inr u1 ->
  import_module w "botocore.client" = inr u2 ->
  outcome (upload_to_s3 w file_path bucket_name object_name s)
    = Ret (None, Some "S3 credentials not configured")
  <-> resolved_credentials w = None.
Proof.
  intros H1 H2. rewrite upload_to_s3_run. cbv zeta. rewrite H1, H2.
  assert (Hcatch : forall e, upload_catch e <> Ret (None, Some "S3 credentials not configured")).
  { intros e. unfold upload_catch. destruct (isinstance e Exception); discriminate. }
  destruct (resolved_credentials w) as [[[ep k] x] |].
  - split; [| discriminate]. unfold outcome.
    destruct (s3_client w ep k x) as [e | u3]; cbn [fst];
      [intros H; destruct (Hcatch e H) |].
    destruct (s3_upload_file w ep k x (str_of file_path) bucket_name object_name)
      as [e | u4]; cbn [fst]; [intros H; destruct (Hcatch e H) | discriminate].
  - split; reflexivity.
Qed.

Lemma fallback_pair_by_variables w :
  fallback_pair w = None <->
  truthy_str (getenv w "RUNPOD_S3_ACCESS_KEY") = false \/
  truthy_str (getenv w "RUNPOD_S3_SECRET_KEY") = false.
Proof.
  unfold fallback_pair, pair_resolves.
  destruct (getenv w "RUNPOD_S3_ACCESS_KEY") as [k |];
    destruct (getenv w "RUNPOD_S3_SECRET_KEY") as [x |]; cbn [truthy_str].
  - destruct (negb (k =? "")%string), (negb (x =? "")%string); cbn;
      split; intros H; try discriminate; auto; destruct H; discriminate.
  - split; auto.
  - split; auto.
  - split; auto.
Qed.

(** X10.  What the start-up check logs about S3 looks at one variable,
    [RUNPOD_S3_ACCESS_KEY], and does not decide what [upload_to_s3] does
    (its libraries imported).  After "credentials configured" the upload
    still answers "S3 credentials not configured" exactly where the primary
    pair is incomplete and the fallback secret is missing; after
    "credentials not found" it answers so exactly where the primary pair is
    incomplete, and goes on to the store where that pair is complete. *)
Theorem startup_check_does_not_decide_upload
    (w : World) (file_path : option string) (bucket_name object_name : string)
    u1 u2 (s : State) :
  import_module w "boto3" = inr u1 ->
  import_module w "botocore.client" = inr u2 ->
  (startup_s3_check w = true ->
   (outcome (upload_to_s3 w file_path bucket_name object_name s)
      = Ret (None, Some "S3 credentials not configured")
    <-> primary_pair w = None /\
        truthy_str (getenv w "RUNPOD_S3_SECRET_KEY") = false)) /\
  (startup_s3_check w = false ->
   (outcome (upload_to_s3 w file_path bucket_name object_name s)
      = Ret (None, Some "S3 credentials not configured")
    <-> primary_pair w = None)).
Proof.
  intros H1 H2.
  pose proof (upload_reports_missing_credentials_iff w file_path bucket_name object_name s
                u1 u2 H1 H2) as Hiff.
  assert (Hres : resolved_credentials w = None <->
                 primary_pair w = None /\ fallback_pair w = None).
  { unfold resolved_credentials.
    destruct (primary_pair w) as [[k x] |]; [split; [discriminate | intros [H _]; discriminate] |].
    destruct (fallback_pair w) as [[k x] |]; split; try discriminate; auto.
    intros [_ H]. discriminate. }
  unfold startup_s3_check.
  split; intros Hs; rewrite Hiff, Hres, fallback_pair_by_variables, Hs.
  - split.
    + intros [Hp [H | H]]; [discriminate | auto].
    + intros [Hp H]. auto.
  - split; [tauto | auto].
Qed.

(** The theorem where only the fallback key is set (the check logs
    "configured" and the upload has no credentials), and where only the
    primary pair is set (the check logs "not found" and the upload goes
    on). *)
Lemma startup_check_does_not_decide_upload_witness :
  (startup_s3_check Cases.key_without_secret = true /\
   result_of (upload_to_s3 Cases.key_without_secret (Some "/tmp/musetalk_k3x9/output.mp4")
                "flowsmartly-avatars" "musetalk/job-1.mp4")
     = Ret (None, Some "S3 credentials not configured")) /\
  (startup_s3_check Scenario.all_good = false /\
   result_of (upload_to_s3 Scenario.all_good (Some "/tmp/musetalk_k3x9/output.mp4")
                "flowsmartly-avatars" "musetalk/job-1.mp4")
     <> Ret (None, Some "S3 credentials not configured")).
Proof.
  split.
  - split; [reflexivity |].
    apply (proj1 (startup_check_does_not_decide_upload Cases.key_without_secret
                    (Some "/tmp/musetalk_k3x9/output.mp4") "flowsmartly-avatars"
                    "musetalk/job-1.mp4" tt tt init_state eq_refl eq_refl) eq_refl).
    split; reflexivity.
  - split; [reflexivity |].
    intros H.
    apply (proj2 (startup_check_does_not_decide_upload Scenario.all_good
                    (Some "/tmp/musetalk_k3x9/output.mp4") "flowsmartly-avatars"
                    "musetalk/job-1.mp4" tt tt init_state eq_refl eq_refl) eq_refl) in H.
    discriminate H.
Defined.

(* ===================================================================== *)
(** ** Further properties of the handler *)
(* ===================================================================== *)

(** X11.  A job that is not a dictionary, or whose [input] is not one, is
    answered with [{error: "Handler error: '<type>' object has no attribute
    'get'"}], naming the type of the offending value; nothing is called and
    no scratch directory is made. *)
Theorem job_without_get_is_answered (w : World) (s : State) :
  (forall job,
     is_dict job = false ->
     handler w job s = (Ret (error_result ("Handler error: " ++ no_get_message job)), s)) /\
  (forall items,
     is_dict (dict_get_or items "input" (VDict [])) = false ->
     handler w (VDict items) s
       = (Ret (error_result
                 ("Handler error: " ++ no_get_message (dict_get_or items "input" (VDict [])))),
          s)).
Proof.
  split.
  - intros job Hjob. destruct job; try discriminate Hjob; reflexivity.
  - intros items Hin.
    unfold handler, try_except, handler_body, py_get at 1 2.
    rewrite !bind_ret_run.
    destruct (dict_get_or items "input" (VDict [])); try discriminate Hin; reflexivity.
Qed.

Lemma job_without_get_is_answered_witness :
  handler Scenario.all_good (VOther "list" true "['a', 'b']") init_state
    = (Ret (error_result "Handler error: 'list' object has no attribute 'get'"), init_state) /\
  handler Scenario.all_good (VDict [ ("id", VStr "job-1"); ("input", VStr "face.png") ])
    init_state
    = (Ret (error_result "Handler error: 'str' object has no attribute 'get'"), init_state).
Proof.
  split.
  - exact (proj1 (job_without_get_is_answered Scenario.all_good init_state)
             (VOther "list" true "['a', 'b']") eq_refl).
  - exact (proj2 (job_without_get_is_answered Scenario.all_good init_state)
             [ ("id", VStr "job-1"); ("input", VStr "face.png") ] eq_refl).
Defined.

(** X12.  For a validated job, if the scratch directory cannot be made
    ([mkdtemp] raises an [Exception]), [handler] returns
    [{error: "Handler error: <detail>"}]; the attempt is its only call:
    nothing is fetched and no removal is tried. *)
Theorem workspace_failure_is_answered (w : World) items inp (e : Exc) (s : State) :
  dict_get_or items "input" (VDict []) = VDict inp ->
  truthy (dict_get_or inp "input_image_url" VNone) = true ->
  truthy (dict_get_or inp "input_audio_url" VNone) = true ->
  mkdtemp_result w "musetalk_" = inl e ->
  is_Exception e = true ->
  handler w (VDict items) s
    = (Ret (error_result ("Handler error: " ++ exc_msg e)), push (EvMkdtemp "musetalk_") s).
Proof.
  intros Hin Himg Haud Hd He.
  unfold handler, try_except.
  rewrite (handler_body_validated w items inp s Hin Himg Haud).
  unfold mkdtemp.
  erewrite bind_raise_run.
  2:{ erewrite bind_raise_run by (apply call_raise_run; exact Hd). reflexivity. }
  cbn [select_clause]. unfold except_class. fold (is_Exception e). rewrite He.
  reflexivity.
Qed.

Lemma workspace_failure_is_answered_witness :
  handler Cases.no_tmp (Scenario.job "job-1") init_state
    = (Ret (error_result
              "Handler error: [Errno 30] Read-only file system: '/tmp/musetalk_k3x9'"),
       push (EvMkdtemp "musetalk_") init_state).
Proof.
  exact (workspace_failure_is_answered Cases.no_tmp
           [ ("id", VStr "job-1");
             ("input", VDict [ ("input_image_url", VStr "https://cdn.example/face.png");
                               ("input_audio_url", VStr "https://cdn.example/voice.wav") ]) ]
           [ ("input_image_url", VStr "https://cdn.example/face.png");
             ("input_audio_url", VStr "https://cdn.example/voice.wav") ]
           (mkExc OSError "[Errno 30] Read-only file system: '/tmp/musetalk_k3x9'")
           init_state eq_refl eq_refl eq_refl eq_refl eq_refl).
Defined.

(** A fetch whose error the handler does not see went through. *)
Lemma download_file_inv w url local_path s value error s1 :
  download_file w url local_path s = (Ret (value, error), s1) ->
  truthy_str error = false ->
  value = Some local_path /\ error = None /\
  s1 = push (EvHttpGet url 60 local_path) s /\
  exists size, http_get w url 60 local_path = inr size.
Proof.
  destruct (http_get w url 60 local_path) as [e | size] eqn:H.
  - rewrite (download_file_raised w url local_path e s H).
    destruct (isinstance e Timeout); [intros [= <- <- <-]; discriminate |].
    destruct (isinstance e RequestException); [intros [= <- <- <-]; discriminate |].
    destruct (isinstance e Exception); [intros [= <- <- <-]; discriminate | discriminate].
  - rewrite (download_file_done w url local_path size s H).
    intros [= <- <- <-] _. eauto.
Qed.

Lemma synthesis_catch_not_value e v err :
  synthesis_catch e = Ret (v, err) -> truthy_str err = true.
Proof.
  unfold synthesis_catch.
  destruct (isinstance e ImportError); [intros [= <- <-]; reflexivity |].
  destruct (isinstance e TimeoutExpired); [intros [= <- <-]; reflexivity |].
  destruct (isinstance e Exception); [intros [= <- <-]; reflexivity | discriminate].
Qed.

(** A synthesis whose error the handler does not see ran one sub-process
    to exit status 0: the inference script, whose first output was moved to
    the output path, or, without that script, [ffmpeg]. *)
Lemma generate_video_musetalk_inv w image_path audio_path output_path s value error s1 :
  generate_video_musetalk w image_path audio_path output_path s = (Ret (value, error), s1) ->
  truthy_str error = false ->
  value = Some output_path /\ error = None /\
  exists evs cmd limit done,
    s1 = mkState (trace s ++ evs) (live s) /\
    In (EvSubprocess cmd limit) evs /\
    subprocess_run w cmd limit = inr done /\
    returncode done = 0 /\
    ((exists video, evs = primary_calls image_path audio_path output_path video) \/
     evs = fallback_calls image_path audio_path output_path).
Proof.
  intros Hrun Herr.
  assert (Hcatch : forall e st, (synthesis_catch e, st) = (Ret (value, error), s1) -> False).
  { intros e st [= H _]. apply synthesis_catch_not_value in H. congruence. }
  destruct (path_exists w MODEL_DIR) eqn:Hm.
  2:{ rewrite (generate_video_musetalk_models_missing w _ _ _ s Hm) in Hrun.
      injection Hrun as <- <- <-. discriminate Herr. }
  rewrite (generate_video_musetalk_no_torch w _ _ _ s Hm) in Hrun.
  destruct (import_module w "torch") as [e | u1] eqn:Ht; [destruct (Hcatch _ _ Hrun) |].
  destruct (torch_probe w) as [e | u2] eqn:Hp; [destruct (Hcatch _ _ Hrun) |].
  destruct (path_exists w inference_script) eqn:Hs.
  - rewrite (generate_video_musetalk_primary w _ _ _ u1 u2 s Hm Ht Hp Hs) in Hrun.
    cbv zeta in Hrun.
    destruct (subprocess_run w (inference_cmd image_path audio_path output_path) 300)
      as [e | done] eqn:Hsub; [destruct (Hcatch _ _ Hrun) |].
    destruct (returncode done =? 0) eqn:Hrc; cbn [negb] in Hrun;
      [| injection Hrun as <- <- <-; discriminate Herr].
    apply Z.eqb_eq in Hrc.
    destruct (glob_result w (path_parent output_path) "*.mp4") as [e | [| video rest]];
      [destruct (Hcatch _ _ Hrun) | injection Hrun as <- <- <-; discriminate Herr |].
    destruct (move_result w video output_path) as [e | u3]; [destruct (Hcatch _ _ Hrun) |].
    injection Hrun as <- <- <-. split; [reflexivity |]. split; [reflexivity |].
    exists (primary_calls image_path audio_path output_path video),
      (inference_cmd image_path audio_path output_path), 300, done.
    split; [unfold push, primary_calls; cbn; rewrite <- !app_assoc; reflexivity |].
    split; [unfold primary_calls; cbn; tauto |].
    split; [exact Hsub |]. split; [exact Hrc |]. left. eauto.
  - rewrite (generate_video_musetalk_fallback w _ _ _ u1 u2 s Hm Ht Hp Hs) in Hrun.
    destruct (subprocess_run w (ffmpeg_cmd image_path audio_path output_path) 60)
      as [e | done] eqn:Hsub; [destruct (Hcatch _ _ Hrun) |].
    destruct (returncode done =? 0) eqn:Hrc; cbn [negb] in Hrun.
    2:{ destruct (bytes_decode w (stderr done)) as [e | text];
          [destruct (Hcatch _ _ Hrun) | injection Hrun as <- <- <-; discriminate Herr]. }
    apply Z.eqb_eq in Hrc.
    injection Hrun as <- <- <-. split; [reflexivity |]. split; [reflexivity |].
    exists (fallback_calls image_path audio_path output_path),
      (ffmpeg_cmd image_path audio_path output_path), 60, done.
    split; [unfold after_fallback_call, push, fallback_calls; cbn;
            rewrite <- !app_assoc; reflexivity |].
    split; [unfold fallback_calls; cbn; tauto |].
    split; [exact Hsub |]. split; [exact Hrc |]. right. reflexivity.
Qed.

(** A run of the stages that ends in the success dictionary, stage by
    stage. *)
Lemma pipeline_success_stages w job_id image_url audio_url temp_dir s r s' :
  pipeline w job_id image_url audio_url temp_dir s = (Ret r, s') ->
  is_success_result r ->
  exists url synthesis_evs ep k x cmd limit done,
    r = success_result (Some url) job_id /\
    url = ep ++ "/" ++ getenv_or w "RUNPOD_S3_BUCKET" "flowsmartly-avatars"
             ++ "/" ++ "musetalk/" ++ py_str job_id ++ ".mp4" /\
    s' = mkState
           (trace s ++
            [ EvHttpGet image_url 60 (path_join temp_dir "input.png");
              EvHttpGet audio_url 60 (path_join temp_dir "input.wav") ] ++
            synthesis_evs ++
            upload_calls ep k x (Some (path_join temp_dir "output.mp4"))
              (getenv_or w "RUNPOD_S3_BUCKET" "flowsmartly-avatars")
              ("musetalk/" ++ py_str job_id ++ ".mp4"))
           (live s) /\
    In (EvSubprocess cmd limit) synthesis_evs /\
    subprocess_run w cmd limit = inr done /\
    returncode done = 0 /\
    ((exists video,
        synthesis_evs = primary_calls (Some (path_join temp_dir "input.png"))
                          (Some (path_join temp_dir "input.wav"))
                          (path_join temp_dir "output.mp4") video) \/
     synthesis_evs = fallback_calls (Some (path_join temp_dir "input.png"))
                       (Some (path_join temp_dir "input.wav"))
                       (path_join temp_dir "output.mp4")).
Proof.
  intros Hrun Hok.
  unfold pipeline in Hrun. unfold bind at 1 in Hrun.
  destruct (download_file w image_url (path_join temp_dir "input.png") s)
    as [[[v1 e1] | x1] s1] eqn:H1; [| discriminate].
  destruct (truthy_str e1) eqn:He1;
    [injection Hrun as <- _; destruct (error_result_not_success _ Hok) |].
  destruct (download_file_inv _ _ _ _ _ _ _ H1 He1) as (-> & -> & -> & _).
  unfold bind at 1 in Hrun.
  match type of Hrun with
  | context [download_file w audio_url ?p ?st] =>
      destruct (download_file w audio_url p st) as [[[v2 e2] | x2] s2] eqn:H2;
        [| discriminate]
  end.
  destruct (truthy_str e2) eqn:He2;
    [injection Hrun as <- _; destruct (error_result_not_success _ Hok) |].
  destruct (download_file_inv _ _ _ _ _ _ _ H2 He2) as (-> & -> & -> & _).
  unfold bind at 1 in Hrun.
  match type of Hrun with
  | context [generate_video_musetalk w ?i ?a ?o ?st] =>
      destruct (generate_video_musetalk w i a o st) as [[[v3 e3] | x3] s3] eqn:H3;
        [| discriminate]
  end.
  destruct (truthy_str e3) eqn:He3;
    [injection Hrun as <- _; destruct (error_result_not_success _ Hok) |].
  destruct (generate_video_musetalk_inv _ _ _ _ _ _ _ _ H3 He3)
    as (-> & -> & evs & cmd & limit & done & -> & Hin & Hsub & Hrc & Hshape).
  unfold bind at 1 in Hrun.
  match type of Hrun with
  | context [upload_to_s3 w ?f ?b ?key ?st] =>
      destruct (upload_to_s3_sound (fun _ => True) w (fun _ _ => I) f b key st)
        as (_ & _ & _ & Hwf);
      unfold outcome in Hwf;
      destruct (upload_to_s3 w f b key st) as [[[v4 e4] | x4] s4] eqn:H4;
        [| discriminate]
  end.
  cbn [fst] in Hwf.
  destruct Hwf as [(url & Heq) | (msg & Heq & Hmsg)]; injection Heq as -> ->.
  2:{ rewrite Hmsg in Hrun. injection Hrun as <- _.
      destruct (error_result_not_success _ Hok). }
  cbn [truthy_str] in Hrun. injection Hrun as <- <-.
  destruct (upload_to_s3_inv _ _ _ _ _ _ _ H4) as (ep & k & x & u3 & u4 & _ & _ & _ & -> & ->).
  exists (ep ++ "/" ++ getenv_or w "RUNPOD_S3_BUCKET" "flowsmartly-avatars"
             ++ "/" ++ "musetalk/" ++ py_str job_id ++ ".mp4"),
    evs, ep, k, x, cmd, limit, done.
  split; [reflexivity |]. split; [reflexivity |].
  split; [| auto].
  unfold push. cbn [trace live]. rewrite <- !app_assoc. reflexivity.
Qed.

(** X13.  A run of [handler] that ends in the success dictionary did
    everything, once and in this order: it made the scratch directory,
    fetched the image and the audio into it, ran one sub-process (the
    inference script or, without it, [ffmpeg]) that exited with status 0,
    imported the S3 libraries, made the client, transferred the file
    [output.mp4] of the scratch directory under the key
    [musetalk/<job id>.mp4], and removed the directory.  The address in the
    dictionary is that of this transfer and the [job_id] is the job's id,
    unchanged. *)
Theorem success_means_every_stage_succeeded (w : World) items (s : State) (r : PyVal) :
  outcome (handler w (VDict items) s) = Ret r ->
  is_success_result r ->
  exists inp d synthesis_evs ep k x cmd limit done,
    dict_get_or items "input" (VDict []) = VDict inp /\
    mkdtemp_result w "musetalk_" = inr d /\
    r = VDict [ ("output_video_url",
                 VStr (ep ++ "/" ++ getenv_or w "RUNPOD_S3_BUCKET" "flowsmartly-avatars"
                          ++ "/" ++ "musetalk/"
                          ++ py_str (dict_get_or items "id" (VStr "unknown")) ++ ".mp4"));
                ("status", VStr "completed");
                ("model", VStr "musetalk");
                ("job_id", dict_get_or items "id" (VStr "unknown")) ] /\
    trace (final (handler w (VDict items) s))
      = (trace s ++
         [ EvMkdtemp "musetalk_";
           EvHttpGet (dict_get_or inp "input_image_url" VNone) 60 (path_join d "input.png");
           EvHttpGet (dict_get_or inp "input_audio_url" VNone) 60 (path_join d "input.wav") ] ++
         synthesis_evs ++
         upload_calls ep k x (Some (path_join d "output.mp4"))
           (getenv_or w "RUNPOD_S3_BUCKET" "flowsmartly-avatars")
           ("musetalk/" ++ py_str (dict_get_or items "id" (VStr "unknown")) ++ ".mp4") ++
         [ EvRmtree d ])%list /\
    In (EvSubprocess cmd limit) synthesis_evs /\
    subprocess_run w cmd limit = inr done /\
    returncode done = 0 /\
    ((exists video,
        synthesis_evs = primary_calls (Some (path_join d "input.png"))
                          (Some (path_join d "input.wav")) (path_join d "output.mp4") video) \/
     synthesis_evs = fallback_calls (Some (path_join d "input.png"))
                       (Some (path_join d "input.wav")) (path_join d "output.mp4")).
Proof.
  intros Hrun Hok.
  destruct (handler_success_inv w items s r Hrun Hok)
    as (inp & d & s' & Hin & Hd & Hp & Hfinal).
  destruct (pipeline_success_stages _ _ _ _ _ _ _ _ Hp Hok)
    as (url & evs & ep & k & x & cmd & limit & done & -> & -> & -> & Hev & Hsub & Hrc & Hshape).
  exists inp, d, evs, ep, k, x, cmd, limit, done.
  split; [exact Hin |]. split; [exact Hd |]. split; [reflexivity |].
  split; [| auto].
  rewrite Hfinal, cleanup_run. unfold final. cbn [snd trace].
  rewrite <- !app_assoc. reflexivity.
Qed.

Lemma success_means_every_stage_succeeded_witness :
  exists d cmd limit done,
    mkdtemp_result Scenario.no_script "musetalk_" = inr d /\
    subprocess_run Scenario.no_script cmd limit = inr done /\
    returncode done = 0 /\
    In (EvSubprocess cmd limit)
       (events_of (handler Scenario.no_script (Scenario.job "job-1"))).
Proof.
  destruct (success_means_every_stage_succeeded Scenario.no_script
              [ ("id", VStr "job-1");
                ("input", VDict [ ("input_image_url", VStr "https://cdn.example/face.png");
                                  ("input_audio_url", VStr "https://cdn.example/voice.wav") ]) ]
              init_state
              (VDict [ ("output_video_url",
                        VStr "https://storage.runpod.io/flowsmartly-avatars/musetalk/job-1.mp4");
                       ("status", VStr "completed");
                       ("model", VStr "musetalk");
                       ("job_id", VStr "job-1") ])
              eq_refl
              (ex_intro _ "https://storage.runpod.io/flowsmartly-avatars/musetalk/job-1.mp4"
                 (ex_intro _ (VStr "job-1") eq_refl)))
    as (inp & d & evs & ep & k & x & cmd & limit & done
        & _ & Hd & _ & Htrace & Hin & Hsub & Hrc & _).
  exists d, cmd, limit, done.
  split; [exact Hd |]. split; [exact Hsub |]. split; [exact Hrc |].
  unfold events_of, Scenario.job. rewrite Htrace.
  apply in_or_app. right. apply in_or_app. right. apply in_or_app. left. exact Hin.
Defined.

Lemma budget_app e1 e2 m1 h1 p1 u1 r1 m2 h2 p2 u2 r2 :
  budget e1 m1 h1 p1 u1 r1 ->
  budget e2 m2 h2 p2 u2 r2 ->
  budget (e1 ++ e2) (m1 + m2) (h1 + h2) (p1 + p2) (u1 + u2) (r1 + r2).
Proof.
  unfold budget. rewrite !count_events_app. lia.
Qed.

Lemma budget_weaken evs m h p u r m' h' p' u' r' :
  budget evs m h p u r ->
  (m <= m')%nat -> (h <= h')%nat -> (p <= p')%nat -> (u <= u')%nat -> (r <= r')%nat ->
  budget evs m' h' p' u' r'.
Proof. unfold budget. lia. Qed.

Lemma budget_firstn n l m h p u r :
  budget l m h p u r -> budget (firstn n l) m h p u r.
Proof.
  unfold budget. intros H.
  pose proof (count_events_firstn is_mkdtemp n l).
  pose proof (count_events_firstn is_http_get n l).
  pose proof (count_events_firstn is_subprocess n l).
  pose proof (count_events_firstn is_upload n l).
  pose proof (count_events_firstn is_rmtree n l).
  lia.
Qed.

Lemma synthesis_budget evs image_path audio_path output_path video :
  started_prefix evs (primary_calls image_path audio_path output_path video) \/
  evs = fallback_calls image_path audio_path output_path ->
  budget evs 0 0 1 0 0.
Proof.
  intros [(n & _ & ->) | ->].
  - apply budget_firstn. unfold budget. cbn. lia.
  - unfold budget. cbn. lia.
Qed.

Lemma upload_budget evs ep k x file_path bucket_name object_name :
  started_prefix evs (upload_calls ep k x file_path bucket_name object_name) ->
  budget evs 0 0 0 1 0.
Proof.
  intros (n & _ & ->). apply budget_firstn. unfold budget. cbn. lia.
Qed.

(** The calls of [pipeline], in every world: at most two requests, one
    sub-process and one transfer; the scratch directories are left alone. *)
Lemma pipeline_calls w job_id image_url audio_url temp_dir s :
  exists evs,
    final (pipeline w job_id image_url audio_url temp_dir s)
      = mkState (trace s ++ evs) (live s) /\
    budget evs 0 2 1 1 0.
Proof.
  assert (Hget : forall url dest, budget [EvHttpGet url 60 dest] 0 1 0 0 0).
  { intros. unfold budget. cbn. lia. }
  unfold pipeline. unfold bind at 1.
  pose proof (download_file_final w image_url (path_join temp_dir "input.png") s) as F1.
  destruct (download_file w image_url (path_join temp_dir "input.png") s)
    as [[[v1 e1] | x1] s1]; unfold final in F1; cbn [snd] in F1; subst s1.
  2:{ eexists. split; [reflexivity |]. eapply budget_weaken; [apply Hget | lia ..]. }
  destruct (truthy_str e1).
  { eexists. split; [reflexivity |]. eapply budget_weaken; [apply Hget | lia ..]. }
  unfold bind at 1.
  match goal with
  | |- context [download_file w audio_url ?p ?st] =>
      pose proof (download_file_final w audio_url p st) as F2;
      destruct (download_file w audio_url p st) as [[[v2 e2] | x2] s2];
      unfold final in F2; cbn [snd] in F2; subst s2
  end.
  2:{ exists [EvHttpGet image_url 60 (path_join temp_dir "input.png");
              EvHttpGet audio_url 60 (path_join temp_dir "input.wav")].
      split; [unfold final, push; cbn; rewrite <- !app_assoc; reflexivity |].
      unfold budget. cbn. lia. }
  destruct (truthy_str e2).
  { exists [EvHttpGet image_url 60 (path_join temp_dir "input.png");
            EvHttpGet audio_url 60 (path_join temp_dir "input.wav")].
    split; [unfold final, push; cbn; rewrite <- !app_assoc; reflexivity |].
    unfold budget. cbn. lia. }
  unfold bind at 1.
  match goal with
  | |- context [generate_video_musetalk w ?i ?a ?o ?st] =>
      destruct (generate_video_musetalk_calls w i a o st) as (ev3 & video & F3 & Hshape3);
      destruct (generate_video_musetalk w i a o st) as [[[v3 e3] | x3] s3];
      unfold final in F3; cbn [snd] in F3; subst s3
  end.
  all: pose proof (synthesis_budget _ _ _ _ _ Hshape3) as B3.
  all: assert (B23 : budget ([EvHttpGet image_url 60 (path_join temp_dir "input.png");
                              EvHttpGet audio_url 60 (path_join temp_dir "input.wav")]
                             ++ ev3) 0 2 1 0 0)
         by (eapply budget_weaken;
             [apply budget_app; [| exact B3]; unfold budget; cbn;
              repeat split; apply Nat.le_refl
             | lia ..]).
  2:{ eexists. split; [| eapply budget_weaken; [exact B23 | lia ..]].
      unfold final, push. cbn. rewrite <- !app_assoc. reflexivity. }
  destruct (truthy_str e3).
  { eexists. split; [| eapply budget_weaken; [exact B23 | lia ..]].
    unfold final, push. cbn. rewrite <- !app_assoc. reflexivity. }
  unfold bind at 1.
  match goal with
  | |- context [upload_to_s3 w ?f ?b ?key ?st] =>
      destruct (upload_to_s3_calls w f b key st) as (ev4 & ep & k & x & F4 & Hshape4);
      destruct (upload_to_s3 w f b key st) as [[[v4 e4] | x4] s4];
      unfold final in F4; cbn [snd] in F4; subst s4
  end.
  all: pose proof (upload_budget _ _ _ _ _ _ _ Hshape4) as B4.
  all: exists (([EvHttpGet image_url 60 (path_join temp_dir "input.png");
                 EvHttpGet audio_url 60 (path_join temp_dir "input.wav")] ++ ev3) ++ ev4)%list.
  all: split;
    [| eapply budget_weaken; [apply budget_app; [exact B23 | exact B4] | lia ..]].
  - destruct (truthy_str e4); unfold final, push; cbn; rewrite <- !app_assoc; reflexivity.
  - unfold final, push; cbn; rewrite <- !app_assoc; reflexivity.
Qed.

Lemma mkdtemp_raise_run w prefix e s :
  mkdtemp_result w prefix = inl e ->
  mkdtemp w prefix s = (Raise e, push (EvMkdtemp prefix) s).
Proof.
  intros H. unfold mkdtemp, call, bind, emit, create_dir, ret, raise. cbn.
  rewrite H. reflexivity.
Qed.

(** The state [handler] leaves, for every job: untouched (the job was
    turned down before any call), or with the failed attempt to make a
    scratch directory, or with a whole run between the making and the
    removal of the directory. *)
Lemma handler_final_cases w job s :
  final (handler w job s) = s \/
  final (handler w job s) = push (EvMkdtemp "musetalk_") s \/
  exists d evs,
    mkdtemp_result w "musetalk_" = inr d /\
    budget evs 0 2 1 1 0 /\
    final (handler w job s)
      = mkState (trace s ++ [EvMkdtemp "musetalk_"] ++ evs ++ [EvRmtree d])
          (match rmtree_result w d with
           | inr _ => remove string_dec d (d :: live s)
           | inl _ => d :: live s
           end).
Proof.
  destruct job as [| b | z | str | items | tn tr tx];
    try (left; rewrite handler_final; reflexivity).
  destruct (dict_get_or items "input" (VDict [])) as [| b | z | str | inp | tn tr tx] eqn:Hin;
    try (left; rewrite handler_final;
         unfold handler_body, py_get at 1 2; unfold bind at 1 2 3; unfold ret at 1 2;
         rewrite Hin; reflexivity).
  destruct (truthy (dict_get_or inp "input_image_url" VNone)) eqn:Himg;
    [| left; rewrite (handler_rejects_missing_image w items inp s Hin Himg); reflexivity].
  destruct (truthy (dict_get_or inp "input_audio_url" VNone)) eqn:Haud;
    [| left; rewrite (handler_rejects_missing_audio w items inp s Hin Himg Haud);
       reflexivity].
  rewrite handler_final, (handler_body_validated w items inp s Hin Himg Haud).
  destruct (mkdtemp_result w "musetalk_") as [e | d] eqn:Hd.
  - right. left.
    erewrite bind_raise_run by (apply mkdtemp_raise_run; exact Hd).
    reflexivity.
  - right. right.
    erewrite bind_run by (apply mkdtemp_run; exact Hd).
    set (st := mkState (trace s ++ [EvMkdtemp "musetalk_"]) (d :: live s)).
    set (j := dict_get_or items "id" (VStr "unknown")).
    set (i := dict_get_or inp "input_image_url" VNone).
    set (a := dict_get_or inp "input_audio_url" VNone).
    destruct (pipeline_calls w j i a d st) as (evs & Hf & Hb).
    destruct (pipeline w j i a d st) as [o s'] eqn:Hp.
    erewrite try_finally_cleanup_run by exact Hp.
    unfold final in Hf. cbn [snd] in Hf. subst s'.
    exists d, evs. split; [reflexivity |]. split; [exact Hb |].
    rewrite cleanup_run. unfold final. subst st. cbn [snd trace live].
    rewrite <- !app_assoc. reflexivity.
Qed.

(** X14.  No job makes [handler] try anything twice: in every world and
    for every job, the calls of one invocation comprise at most one
    creation of a scratch directory, two HTTP requests (image and audio),
    one sub-process, one transfer to the store and one removal of a
    directory.  A failed download, synthesis or upload is not retried. *)
Theorem handler_never_retries (w : World) (job : PyVal) (s : State) :
  exists evs,
    trace (final (handler w job s)) = (trace s ++ evs)%list /\
    (count_events is_mkdtemp evs <= 1)%nat /\
    (count_events is_http_get evs <= 2)%nat /\
    (count_events is_subprocess evs <= 1)%nat /\
    (count_events is_upload evs <= 1)%nat /\
    (count_events is_rmtree evs <= 1)%nat.
Proof.
  destruct (handler_final_cases w job s) as [-> | [-> | (d & evs & _ & Hb & ->)]].
  - exists []. rewrite app_nil_r. cbn. repeat split; lia.
  - exists [EvMkdtemp "musetalk_"]. cbn. repeat split; lia.
  - exists ([EvMkdtemp "musetalk_"] ++ evs ++ [EvRmtree d])%list.
    split; [reflexivity |].
    assert (B : budget ([EvMkdtemp "musetalk_"] ++ evs ++ [EvRmtree d]) 1 2 1 1 1).
    { eapply budget_weaken.
      - apply budget_app; [| apply budget_app; [exact Hb |]].
        + instantiate (1 := 0%nat). instantiate (1 := 0%nat). instantiate (1 := 0%nat).
          instantiate (1 := 0%nat). instantiate (1 := 1%nat).
          unfold budget. cbn. lia.
        + instantiate (1 := 1%nat). instantiate (1 := 0%nat). instantiate (1 := 0%nat).
          instantiate (1 := 0%nat). instantiate (1 := 0%nat).
          unfold budget. cbn. lia.
      - lia.
      - lia.
      - lia.
      - lia.
      - lia. }
    exact B.
Qed.

Lemma incl_remove (d : string) (l : list string) : incl (remove string_dec d l) l.
Proof.
  intros x Hx. apply in_remove in Hx. tauto.
Qed.


